(** * RC_Driver: the PMSM inverter control core, embedded in Rocq

    A shallow embedding of the fixed-period control tick of the firmware
    ([control.c], [fault.c], [adc.c], [inv.c], [speed_observer.c]) and the
    properties of its fault monitor, offset calibration, mode dispatcher
    and sequencers.

    - C [float] is IEEE-754 binary32, taken from the Standard Library's
      [SpecFloat] (precision 24, maximal exponent 128): every arithmetic
      operation rounds to nearest-even exactly as the FPU does.
    - C integers are [Z] with the wrap-around of their width written out.
    - The global structures ([INV], [FLAG], [FLTVAL], ...) are components
      of one [State]; a C function becomes a function on [State], one
      [let] per assignment, in the order of the source. *)

From Stdlib Require Import ZArith List Bool Lia.
From Stdlib Require Import Floats.SpecFloat.
Import ListNotations.

Local Open Scope Z_scope.

(* ================================================================== *)
(** * Single-precision floating point *)
(* ================================================================== *)

Definition f32 : Set := spec_float.

Definition prec32 : Z := 24.
Definition emax32 : Z := 128.

Definition f32_add : f32 -> f32 -> f32 := SFadd prec32 emax32.
Definition f32_sub : f32 -> f32 -> f32 := SFsub prec32 emax32.
Definition f32_mul : f32 -> f32 -> f32 := SFmul prec32 emax32.
Definition f32_div : f32 -> f32 -> f32 := SFdiv prec32 emax32.
Definition f32_neg : f32 -> f32 := SFopp.
Definition f32_lt : f32 -> f32 -> bool := SFltb.
Definition f32_le : f32 -> f32 -> bool := SFleb.
Definition f32_gt (x y : f32) : bool := SFltb y x.
Definition f32_ge (x y : f32) : bool := SFleb y x.

(** Conversion of an integer to [float] (round to nearest-even). *)
Definition f32_of_Z (z : Z) : f32 := binary_normalize prec32 emax32 z 0 false.

(** A decimal literal [n/d] with [n] and [d] exactly representable: the
    correctly rounded quotient is the nearest [float], which is what the
    compiler stores for the literal. *)
Definition f32_lit (n d : Z) : f32 := f32_div (f32_of_Z n) (f32_of_Z d).

Definition f32_zero : f32 := S754_zero false.
Definition f32_one : f32 := f32_of_Z 1.

Definition is_nan (x : f32) : bool :=
  match x with S754_nan => true | _ => false end.

Definition is_zero (x : f32) : bool :=
  match x with S754_zero _ => true | _ => false end.

(** Truncation of a finite [float] toward zero. *)
Definition f32_trunc (x : f32) : Z :=
  match x with
  | S754_finite s m e =>
      let a := match e with
               | Zneg p => Z.shiftr (Zpos m) (Zpos p)
               | _ => Z.shiftl (Zpos m) e
               end in
      if s then - a else a
  | _ => 0
  end.

(** [(unsigned int) x] and [(unsigned long) x] (both 32 bits wide on the
    Cortex-M4): truncation toward zero where the result is representable;
    outside that range, where C leaves the conversion undefined, the
    saturating result of the FPU's VCVT instruction. *)
Definition f32_to_u32 (x : f32) : Z :=
  match x with
  | S754_nan => 0
  | S754_infinity s => if s then 0 else 2 ^ 32 - 1
  | _ => Z.max 0 (Z.min (2 ^ 32 - 1) (f32_trunc x))
  end.

(** The C library's [fabs] and [fmaxf]. *)
Definition fabs : f32 -> f32 := SFabs.

Definition fmaxf (x y : f32) : f32 :=
  match x, y with
  | S754_nan, _ => y
  | _, S754_nan => x
  | _, _ => if f32_lt x y then y else x
  end.

Declare Scope f32_scope.
Delimit Scope f32_scope with f32.
Bind Scope f32_scope with f32.

Infix "+" := f32_add : f32_scope.
Infix "-" := f32_sub : f32_scope.
Infix "*" := f32_mul : f32_scope.
Infix "/" := f32_div : f32_scope.
Notation "- x" := (f32_neg x) : f32_scope.
Infix "<?" := f32_lt : f32_scope.
Infix "<=?" := f32_le : f32_scope.
Infix ">?" := f32_gt : f32_scope.
Infix ">=?" := f32_ge : f32_scope.

(** Modelled from the spec: the macros [ABS], [LIMIT] and [MAX] of the
    project headers (inv.h is not part of the sources at hand): the
    magnitude of a value, the clamp of a value to [lo, hi] and the larger
    of two values, written as the usual conditional expressions. *)
Definition ABS (x : f32) : f32 :=
  if (x <? f32_zero)%f32 then (- x)%f32 else x.

Definition LIMIT (x lo hi : f32) : f32 :=
  if (x >? hi)%f32 then hi else if (x <? lo)%f32 then lo else x.

Definition MAX (a b : f32) : f32 :=
  if (a >? b)%f32 then a else b.

(** Unsigned wrap-around of the C integer types. *)
Definition wrap16 (z : Z) : Z := z mod 2 ^ 16.
Definition wrap32 (z : Z) : Z := z mod 2 ^ 32.

(** The headers with the numeric macros and the C math library are not
    among the sources: the constants ([Tsamp] is the 100 us control
    period), the angle helpers [BOUND_PI], [COS], [SIN] and the libm
    functions are parameters of the development. *)
Class Platform : Type := {
  Tsamp : f32;
  RPM2RM : f32;
  RM2RPM : f32;
  Rm2Rpm : f32;
  INV_3 : f32;
  INV_SQRT3 : f32;
  SQRT3HALF : f32;
  PIOF3 : f32;
  BOUND_PI : f32 -> f32;
  COS : f32 -> f32;
  SIN : f32 -> f32 -> f32;
  atanf : f32 -> f32;
  sinf : f32 -> f32;
  cosf : f32 -> f32;
  atan2f : f32 -> f32 -> f32
}.

(* ================================================================== *)
(** * The global data of the firmware *)
(* ================================================================== *)

(** ** [struct INVERTER]: one name per [float] member *)

Inductive InvF : Set :=
  | A_NLC | B_NLC | Bm | C_NLC | Duty_A | Duty_B | Duty_C | Duty_Test
  | INV_Jm | INV_Kt | INV_PP | INV_Vdc | Ia | Ia_ref | Ib | Ib_ref | Ic
  | Ic_ref | Idc | Idsr | Idsr_NLC | Idsr_align | Idsr_err | Idsr_ref
  | Idsr_ref_OLC | Idsr_ref_aw | Idsr_ref_integ | Idsr_ref_set_OLC
  | Idsr_slope_OLC | Idss | Idss_ref | Iqsr | Iqsr_err | Iqsr_max | Iqsr_ref
  | Iqsr_ref_OLC | Iqsr_ref_unsat | Iqss | Iqss_ref | Is_limit | Is_rated
  | Jm | Ka_sc | Kad_cc | Kaq_cc | Ki_PLL | Ki_PLL_Hall | Ki_sc | Ki_scale
  | Kid_cc | Kiq_cc | Kp_PLL | Kp_PLL_Hall | Kp_sc | Kpd_cc | Kpq_cc | Kt
  | Lamf | Ld | Lq | Ls | MTPA_Te_gap | MTPA_Te_gap_INV | MTPA_Te_max | PP
  | Ractive | Rs | Te_limit | Te_rated | Te_ref | Te_ref_aw | Te_ref_ff
  | Te_ref_integ | Te_ref_sat | Te_ref_unsat | TestDuty_A | TestDuty_B
  | TestDuty_C | Thetar | Thetar_Hall_PLL | Thetar_OLC | Thetar_OLC_buffer
  | Thetar_adv | Thetar_err_Hall | Thetar_est_Hall | Thetar_offset | Va_NLC
  | Van_ref | Vas_ref | Vb_NLC | Vbn_ref | Vbs_ref | Vc_NLC | Vcn_ref
  | Vcs_ref | Vdc | Vdc_control | Vdsr_ref | Vdsr_ref_OLC | Vdsr_ref_aw
  | Vdsr_ref_ff | Vdsr_ref_integ | Vdsr_ref_old | Vdsr_ref_unsat
  | Vdsr_ref_unsat_old | Vdss_ref | Vmag_inj | Vmag_ref | Vmax | Vmin
  | Voffset | Vqsr_ref | Vqsr_ref_OLC | Vqsr_ref_aw | Vqsr_ref_ff
  | Vqsr_ref_integ | Vqsr_ref_old | Vqsr_ref_unsat | Vqsr_ref_unsat_old
  | Vqss_ref | W_PLL | W_PLL_Hall | Wcc | Wr | Wr_est_Hall | Wr_ref_OLC | Wrm
  | Wrm_err | Wrm_ref | Wrm_ref_set | Wrpm | Wrpm_rated | Wrpm_ref
  | Wrpm_ref_OLC | Wrpm_ref_cmd | Wrpm_ref_set | Wrpm_ref_set_OLC
  | Wrpm_ref_set_old | Wrpm_slope_OLC | Wsc | alpha_LPF | cosThetar
  | cosThetar_adv | dWrm | integ_PLL_Hall | integ_Thetar_PLL | sinThetar
  | sinThetar_adv | zeta_sc.

Definition InvF_idx (x : InvF) : positive :=
  match x with
  | A_NLC => 1 | B_NLC => 2 | Bm => 3 | C_NLC => 4 | Duty_A => 5
  | Duty_B => 6 | Duty_C => 7 | Duty_Test => 8 | INV_Jm => 9 | INV_Kt => 10
  | INV_PP => 11 | INV_Vdc => 12 | Ia => 13 | Ia_ref => 14 | Ib => 15
  | Ib_ref => 16 | Ic => 17 | Ic_ref => 18 | Idc => 19 | Idsr => 20
  | Idsr_NLC => 21 | Idsr_align => 22 | Idsr_err => 23 | Idsr_ref => 24
  | Idsr_ref_OLC => 25 | Idsr_ref_aw => 26 | Idsr_ref_integ => 27
  | Idsr_ref_set_OLC => 28 | Idsr_slope_OLC => 29 | Idss => 30
  | Idss_ref => 31 | Iqsr => 32 | Iqsr_err => 33 | Iqsr_max => 34
  | Iqsr_ref => 35 | Iqsr_ref_OLC => 36 | Iqsr_ref_unsat => 37 | Iqss => 38
  | Iqss_ref => 39 | Is_limit => 40 | Is_rated => 41 | Jm => 42 | Ka_sc => 43
  | Kad_cc => 44 | Kaq_cc => 45 | Ki_PLL => 46 | Ki_PLL_Hall => 47
  | Ki_sc => 48 | Ki_scale => 49 | Kid_cc => 50 | Kiq_cc => 51 | Kp_PLL => 52
  | Kp_PLL_Hall => 53 | Kp_sc => 54 | Kpd_cc => 55 | Kpq_cc => 56 | Kt => 57
  | Lamf => 58 | Ld => 59 | Lq => 60 | Ls => 61 | MTPA_Te_gap => 62
  | MTPA_Te_gap_INV => 63 | MTPA_Te_max => 64 | PP => 65 | Ractive => 66
  | Rs => 67 | Te_limit => 68 | Te_rated => 69 | Te_ref => 70
  | Te_ref_aw => 71 | Te_ref_ff => 72 | Te_ref_integ => 73 | Te_ref_sat => 74
  | Te_ref_unsat => 75 | TestDuty_A => 76 | TestDuty_B => 77
  | TestDuty_C => 78 | Thetar => 79 | Thetar_Hall_PLL => 80
  | Thetar_OLC => 81 | Thetar_OLC_buffer => 82 | Thetar_adv => 83
  | Thetar_err_Hall => 84 | Thetar_est_Hall => 85 | Thetar_offset => 86
  | Va_NLC => 87 | Van_ref => 88 | Vas_ref => 89 | Vb_NLC => 90
  | Vbn_ref => 91 | Vbs_ref => 92 | Vc_NLC => 93 | Vcn_ref => 94
  | Vcs_ref => 95 | Vdc => 96 | Vdc_control => 97 | Vdsr_ref => 98
  | Vdsr_ref_OLC => 99 | Vdsr_ref_aw => 100 | Vdsr_ref_ff => 101
  | Vdsr_ref_integ => 102 | Vdsr_ref_old => 103 | Vdsr_ref_unsat => 104
  | Vdsr_ref_unsat_old => 105 | Vdss_ref => 106 | Vmag_inj => 107
  | Vmag_ref => 108 | Vmax => 109 | Vmin => 110 | Voffset => 111
  | Vqsr_ref => 112 | Vqsr_ref_OLC => 113 | Vqsr_ref_aw => 114
  | Vqsr_ref_ff => 115 | Vqsr_ref_integ => 116 | Vqsr_ref_old => 117
  | Vqsr_ref_unsat => 118 | Vqsr_ref_unsat_old => 119 | Vqss_ref => 120
  | W_PLL => 121 | W_PLL_Hall => 122 | Wcc => 123 | Wr => 124
  | Wr_est_Hall => 125 | Wr_ref_OLC => 126 | Wrm => 127 | Wrm_err => 128
  | Wrm_ref => 129 | Wrm_ref_set => 130 | Wrpm => 131 | Wrpm_rated => 132
  | Wrpm_ref => 133 | Wrpm_ref_OLC => 134 | Wrpm_ref_cmd => 135
  | Wrpm_ref_set => 136 | Wrpm_ref_set_OLC => 137 | Wrpm_ref_set_old => 138
  | Wrpm_slope_OLC => 139 | Wsc => 140 | alpha_LPF => 141 | cosThetar => 142
  | cosThetar_adv => 143 | dWrm => 144 | integ_PLL_Hall => 145
  | integ_Thetar_PLL => 146 | sinThetar => 147 | sinThetar_adv => 148
  | zeta_sc => 149
  end%positive.

Definition InvF_eqb (x y : InvF) : bool := Pos.eqb (InvF_idx x) (InvF_idx y).

(** ** [struct EXT_Sensorless]: one name per [float] member *)

Inductive ExtF : Set :=
  | Cos_Thetar_EXT | Cos_Thetarm_EXT | EEMFd_est | EEMFq_est | Err_Idse_EXT
  | Err_Iqse_EXT | Err_Thetar_EXT | INV_Ld_hat | Idse_EXT | Idse_EXT_est
  | Iqse_EXT | Iqse_EXT_est | Kid_EXT | Kiq_EXT | Kpd_EXT | Kpq_EXT | Ld_hat
  | Lq_hat | Rs_hat | Sin_Thetar_EXT | Sin_Thetarm_EXT | Thetar_EXT
  | Thetar_EXT_old | Thetarm_EXT | Thetarm_EXT_old | Vdse_FF_EXT
  | Vdse_ref_EXT | Vdss_ref_EXT | Vdss_ref_old | Vqse_FF_EXT | Vqse_ref_EXT
  | Vqss_ref_EXT | Vqss_ref_old | Wec | Wr_EXT | Wr_EXT_f
  | integ_Idse_EXT_est | integ_Iqse_EXT_est | k_debug.

Definition ExtF_idx (x : ExtF) : positive :=
  match x with
  | Cos_Thetar_EXT => 1 | Cos_Thetarm_EXT => 2 | EEMFd_est => 3
  | EEMFq_est => 4 | Err_Idse_EXT => 5 | Err_Iqse_EXT => 6
  | Err_Thetar_EXT => 7 | INV_Ld_hat => 8 | Idse_EXT => 9
  | Idse_EXT_est => 10 | Iqse_EXT => 11 | Iqse_EXT_est => 12 | Kid_EXT => 13
  | Kiq_EXT => 14 | Kpd_EXT => 15 | Kpq_EXT => 16 | Ld_hat => 17
  | Lq_hat => 18 | Rs_hat => 19 | Sin_Thetar_EXT => 20
  | Sin_Thetarm_EXT => 21 | Thetar_EXT => 22 | Thetar_EXT_old => 23
  | Thetarm_EXT => 24 | Thetarm_EXT_old => 25 | Vdse_FF_EXT => 26
  | Vdse_ref_EXT => 27 | Vdss_ref_EXT => 28 | Vdss_ref_old => 29
  | Vqse_FF_EXT => 30 | Vqse_ref_EXT => 31 | Vqss_ref_EXT => 32
  | Vqss_ref_old => 33 | Wec => 34 | Wr_EXT => 35 | Wr_EXT_f => 36
  | integ_Idse_EXT_est => 37 | integ_Iqse_EXT_est => 38 | k_debug => 39
  end%positive.

Definition ExtF_eqb (x y : ExtF) : bool := Pos.eqb (ExtF_idx x) (ExtF_idx y).

(** A structure of floats is a total map from member names to values; an
    assignment to a member overrides one entry. *)
Definition upd {K V : Type} (eqb : K -> K -> bool) (k : K) (v : V)
  (m : K -> V) : K -> V :=
  fun k' => if eqb k' k then v else m k'.

Definition EXT_Sensorless : Type := ExtF -> f32.

(** A C array indexed by integers. *)
Definition arr_set {V : Type} (i : Z) (v : V) (a : Z -> V) : Z -> V :=
  upd Z.eqb i v a.

(** [GPIO_PinState] of the HAL. *)
Inductive GPIO_PinState : Set := GPIO_PIN_RESET | GPIO_PIN_SET.

(** The structures are records with primitive projections: reading a
    member of an updated structure reduces on the spot. *)
#[local] Set Primitive Projections.

(** ** [struct CONTROL_FLAG] (flag.c) *)

Record CONTROL_FLAG : Type := {
  READY : Z;
  FAULT : Z;
  FAULT_CLEAR : Z;
  INV_RUN : Z;
  INV_OLC : Z;
  INV_VOLC : Z;
  INV_Vref_Gen : Z;
  INV_ALIGN : Z;
  INV_NLC : Z;
  TS_MODE : Z;
  TS_MODE_STOP : Z;
  DUTY_TEST : Z;
  Param_Estimation : Z;
  HALL_POS_TEST : Z
}.

Definition set_READY (v : Z) (r : CONTROL_FLAG) : CONTROL_FLAG :=
    {| READY := v; FAULT := FAULT r; FAULT_CLEAR := FAULT_CLEAR r; INV_RUN :=
     INV_RUN r; INV_OLC := INV_OLC r; INV_VOLC := INV_VOLC r; INV_Vref_Gen :=
     INV_Vref_Gen r; INV_ALIGN := INV_ALIGN r; INV_NLC := INV_NLC r; TS_MODE
     := TS_MODE r; TS_MODE_STOP := TS_MODE_STOP r; DUTY_TEST := DUTY_TEST r;
     Param_Estimation := Param_Estimation r; HALL_POS_TEST := HALL_POS_TEST r
     |}.
Definition set_FAULT (v : Z) (r : CONTROL_FLAG) : CONTROL_FLAG :=
    {| READY := READY r; FAULT := v; FAULT_CLEAR := FAULT_CLEAR r; INV_RUN :=
     INV_RUN r; INV_OLC := INV_OLC r; INV_VOLC := INV_VOLC r; INV_Vref_Gen :=
     INV_Vref_Gen r; INV_ALIGN := INV_ALIGN r; INV_NLC := INV_NLC r; TS_MODE
     := TS_MODE r; TS_MODE_STOP := TS_MODE_STOP r; DUTY_TEST := DUTY_TEST r;
     Param_Estimation := Param_Estimation r; HALL_POS_TEST := HALL_POS_TEST r
     |}.
Definition set_INV_RUN (v : Z) (r : CONTROL_FLAG) : CONTROL_FLAG :=
    {| READY := READY r; FAULT := FAULT r; FAULT_CLEAR := FAULT_CLEAR r;
     INV_RUN := v; INV_OLC := INV_OLC r; INV_VOLC := INV_VOLC r; INV_Vref_Gen
     := INV_Vref_Gen r; INV_ALIGN := INV_ALIGN r; INV_NLC := INV_NLC r;
     TS_MODE := TS_MODE r; TS_MODE_STOP := TS_MODE_STOP r; DUTY_TEST :=
     DUTY_TEST r; Param_Estimation := Param_Estimation r; HALL_POS_TEST :=
     HALL_POS_TEST r |}.
Definition set_INV_OLC (v : Z) (r : CONTROL_FLAG) : CONTROL_FLAG :=
    {| READY := READY r; FAULT := FAULT r; FAULT_CLEAR := FAULT_CLEAR r;
     INV_RUN := INV_RUN r; INV_OLC := v; INV_VOLC := INV_VOLC r; INV_Vref_Gen
     := INV_Vref_Gen r; INV_ALIGN := INV_ALIGN r; INV_NLC := INV_NLC r;
     TS_MODE := TS_MODE r; TS_MODE_STOP := TS_MODE_STOP r; DUTY_TEST :=
     DUTY_TEST r; Param_Estimation := Param_Estimation r; HALL_POS_TEST :=
     HALL_POS_TEST r |}.
Definition set_INV_VOLC (v : Z) (r : CONTROL_FLAG) : CONTROL_FLAG :=
    {| READY := READY r; FAULT := FAULT r; FAULT_CLEAR := FAULT_CLEAR r;
     INV_RUN := INV_RUN r; INV_OLC := INV_OLC r; INV_VOLC := v; INV_Vref_Gen
     := INV_Vref_Gen r; INV_ALIGN := INV_ALIGN r; INV_NLC := INV_NLC r;
     TS_MODE := TS_MODE r; TS_MODE_STOP := TS_MODE_STOP r; DUTY_TEST :=
     DUTY_TEST r; Param_Estimation := Param_Estimation r; HALL_POS_TEST :=
     HALL_POS_TEST r |}.
Definition set_INV_ALIGN (v : Z) (r : CONTROL_FLAG) : CONTROL_FLAG :=
    {| READY := READY r; FAULT := FAULT r; FAULT_CLEAR := FAULT_CLEAR r;
     INV_RUN := INV_RUN r; INV_OLC := INV_OLC r; INV_VOLC := INV_VOLC r;
     INV_Vref_Gen := INV_Vref_Gen r; INV_ALIGN := v; INV_NLC := INV_NLC r;
     TS_MODE := TS_MODE r; TS_MODE_STOP := TS_MODE_STOP r; DUTY_TEST :=
     DUTY_TEST r; Param_Estimation := Param_Estimation r; HALL_POS_TEST :=
     HALL_POS_TEST r |}.
Definition set_INV_NLC (v : Z) (r : CONTROL_FLAG) : CONTROL_FLAG :=
    {| READY := READY r; FAULT := FAULT r; FAULT_CLEAR := FAULT_CLEAR r;
     INV_RUN := INV_RUN r; INV_OLC := INV_OLC r; INV_VOLC := INV_VOLC r;
     INV_Vref_Gen := INV_Vref_Gen r; INV_ALIGN := INV_ALIGN r; INV_NLC := v;
     TS_MODE := TS_MODE r; TS_MODE_STOP := TS_MODE_STOP r; DUTY_TEST :=
     DUTY_TEST r; Param_Estimation := Param_Estimation r; HALL_POS_TEST :=
     HALL_POS_TEST r |}.
Definition set_TS_MODE (v : Z) (r : CONTROL_FLAG) : CONTROL_FLAG :=
    {| READY := READY r; FAULT := FAULT r; FAULT_CLEAR := FAULT_CLEAR r;
     INV_RUN := INV_RUN r; INV_OLC := INV_OLC r; INV_VOLC := INV_VOLC r;
     INV_Vref_Gen := INV_Vref_Gen r; INV_ALIGN := INV_ALIGN r; INV_NLC :=
     INV_NLC r; TS_MODE := v; TS_MODE_STOP := TS_MODE_STOP r; DUTY_TEST :=
     DUTY_TEST r; Param_Estimation := Param_Estimation r; HALL_POS_TEST :=
     HALL_POS_TEST r |}.

(** [struct FAULT_VAL]: the snapshot taken when a fault is raised. *)
Record FAULT_VAL : Type := {
  FLT_Vdc : f32;
  FLT_Idc : f32;
  FLT_Ia : f32;
  FLT_Ib : f32;
  FLT_Ic : f32;
  FLT_Wrpm : f32
}.

(** [struct INVERTER]: the float members and the discrete ones. *)
Record INVERTER : Type := {
  fld : InvF -> f32;
  hall_a : GPIO_PinState;
  hall_b : GPIO_PinState;
  hall_c : GPIO_PinState;
  hall_state : Z;
  duty_state : Z
}.

Definition set_fld (v : InvF -> f32) (r : INVERTER) : INVERTER :=
    {| fld := v; hall_a := hall_a r; hall_b := hall_b r; hall_c := hall_c r;
     hall_state := hall_state r; duty_state := duty_state r |}.
Definition set_hall_a (v : GPIO_PinState) (r : INVERTER) : INVERTER :=
    {| fld := fld r; hall_a := v; hall_b := hall_b r; hall_c := hall_c r;
     hall_state := hall_state r; duty_state := duty_state r |}.
Definition set_hall_b (v : GPIO_PinState) (r : INVERTER) : INVERTER :=
    {| fld := fld r; hall_a := hall_a r; hall_b := v; hall_c := hall_c r;
     hall_state := hall_state r; duty_state := duty_state r |}.
Definition set_hall_c (v : GPIO_PinState) (r : INVERTER) : INVERTER :=
    {| fld := fld r; hall_a := hall_a r; hall_b := hall_b r; hall_c := v;
     hall_state := hall_state r; duty_state := duty_state r |}.
Definition set_hall_state (v : Z) (r : INVERTER) : INVERTER :=
    {| fld := fld r; hall_a := hall_a r; hall_b := hall_b r; hall_c := hall_c
     r; hall_state := v; duty_state := duty_state r |}.
Definition set_duty_state (v : Z) (r : INVERTER) : INVERTER :=
    {| fld := fld r; hall_a := hall_a r; hall_b := hall_b r; hall_c := hall_c
     r; hall_state := hall_state r; duty_state := v |}.

(** The globals of adc.c; [AdDummyCnt] is the static local of [Offset]. *)
Record ADC_VARS : Type := {
  AdInitFlag : Z;
  adc1Val : Z -> f32;
  ADC1_Result : Z -> f32;
  ADC1_Offset : Z -> f32;
  ADC1_Offset_sum : Z -> Z;
  scale_comp : f32;
  ADCgain : Z -> f32;
  Ia_arr : Z -> f32;
  store_cnt : Z;
  store_flag : Z;
  AdOffCalcCnt : Z;
  AdDummyCnt : Z
}.

Definition set_AdInitFlag (v : Z) (r : ADC_VARS) : ADC_VARS :=
    {| AdInitFlag := v; adc1Val := adc1Val r; ADC1_Result := ADC1_Result r;
     ADC1_Offset := ADC1_Offset r; ADC1_Offset_sum := ADC1_Offset_sum r;
     scale_comp := scale_comp r; ADCgain := ADCgain r; Ia_arr := Ia_arr r;
     store_cnt := store_cnt r; store_flag := store_flag r; AdOffCalcCnt :=
     AdOffCalcCnt r; AdDummyCnt := AdDummyCnt r |}.
Definition set_adc1Val (v : Z -> f32) (r : ADC_VARS) : ADC_VARS :=
    {| AdInitFlag := AdInitFlag r; adc1Val := v; ADC1_Result := ADC1_Result r;
     ADC1_Offset := ADC1_Offset r; ADC1_Offset_sum := ADC1_Offset_sum r;
     scale_comp := scale_comp r; ADCgain := ADCgain r; Ia_arr := Ia_arr r;
     store_cnt := store_cnt r; store_flag := store_flag r; AdOffCalcCnt :=
     AdOffCalcCnt r; AdDummyCnt := AdDummyCnt r |}.
Definition set_ADC1_Result (v : Z -> f32) (r : ADC_VARS) : ADC_VARS :=
    {| AdInitFlag := AdInitFlag r; adc1Val := adc1Val r; ADC1_Result := v;
     ADC1_Offset := ADC1_Offset r; ADC1_Offset_sum := ADC1_Offset_sum r;
     scale_comp := scale_comp r; ADCgain := ADCgain r; Ia_arr := Ia_arr r;
     store_cnt := store_cnt r; store_flag := store_flag r; AdOffCalcCnt :=
     AdOffCalcCnt r; AdDummyCnt := AdDummyCnt r |}.
Definition set_ADC1_Offset (v : Z -> f32) (r : ADC_VARS) : ADC_VARS :=
    {| AdInitFlag := AdInitFlag r; adc1Val := adc1Val r; ADC1_Result :=
     ADC1_Result r; ADC1_Offset := v; ADC1_Offset_sum := ADC1_Offset_sum r;
     scale_comp := scale_comp r; ADCgain := ADCgain r; Ia_arr := Ia_arr r;
     store_cnt := store_cnt r; store_flag := store_flag r; AdOffCalcCnt :=
     AdOffCalcCnt r; AdDummyCnt := AdDummyCnt r |}.
Definition set_ADC1_Offset_sum (v : Z -> Z) (r : ADC_VARS) : ADC_VARS :=
    {| AdInitFlag := AdInitFlag r; adc1Val := adc1Val r; ADC1_Result :=
     ADC1_Result r; ADC1_Offset := ADC1_Offset r; ADC1_Offset_sum := v;
     scale_comp := scale_comp r; ADCgain := ADCgain r; Ia_arr := Ia_arr r;
     store_cnt := store_cnt r; store_flag := store_flag r; AdOffCalcCnt :=
     AdOffCalcCnt r; AdDummyCnt := AdDummyCnt r |}.
Definition set_Ia_arr (v : Z -> f32) (r : ADC_VARS) : ADC_VARS :=
    {| AdInitFlag := AdInitFlag r; adc1Val := adc1Val r; ADC1_Result :=
     ADC1_Result r; ADC1_Offset := ADC1_Offset r; ADC1_Offset_sum :=
     ADC1_Offset_sum r; scale_comp := scale_comp r; ADCgain := ADCgain r;
     Ia_arr := v; store_cnt := store_cnt r; store_flag := store_flag r;
     AdOffCalcCnt := AdOffCalcCnt r; AdDummyCnt := AdDummyCnt r |}.
Definition set_store_cnt (v : Z) (r : ADC_VARS) : ADC_VARS :=
    {| AdInitFlag := AdInitFlag r; adc1Val := adc1Val r; ADC1_Result :=
     ADC1_Result r; ADC1_Offset := ADC1_Offset r; ADC1_Offset_sum :=
     ADC1_Offset_sum r; scale_comp := scale_comp r; ADCgain := ADCgain r;
     Ia_arr := Ia_arr r; store_cnt := v; store_flag := store_flag r;
     AdOffCalcCnt := AdOffCalcCnt r; AdDummyCnt := AdDummyCnt r |}.
Definition set_store_flag (v : Z) (r : ADC_VARS) : ADC_VARS :=
    {| AdInitFlag := AdInitFlag r; adc1Val := adc1Val r; ADC1_Result :=
     ADC1_Result r; ADC1_Offset := ADC1_Offset r; ADC1_Offset_sum :=
     ADC1_Offset_sum r; scale_comp := scale_comp r; ADCgain := ADCgain r;
     Ia_arr := Ia_arr r; store_cnt := store_cnt r; store_flag := v;
     AdOffCalcCnt := AdOffCalcCnt r; AdDummyCnt := AdDummyCnt r |}.
Definition set_AdOffCalcCnt (v : Z) (r : ADC_VARS) : ADC_VARS :=
    {| AdInitFlag := AdInitFlag r; adc1Val := adc1Val r; ADC1_Result :=
     ADC1_Result r; ADC1_Offset := ADC1_Offset r; ADC1_Offset_sum :=
     ADC1_Offset_sum r; scale_comp := scale_comp r; ADCgain := ADCgain r;
     Ia_arr := Ia_arr r; store_cnt := store_cnt r; store_flag := store_flag r;
     AdOffCalcCnt := v; AdDummyCnt := AdDummyCnt r |}.
Definition set_AdDummyCnt (v : Z) (r : ADC_VARS) : ADC_VARS :=
    {| AdInitFlag := AdInitFlag r; adc1Val := adc1Val r; ADC1_Result :=
     ADC1_Result r; ADC1_Offset := ADC1_Offset r; ADC1_Offset_sum :=
     ADC1_Offset_sum r; scale_comp := scale_comp r; ADCgain := ADCgain r;
     Ia_arr := Ia_arr r; store_cnt := store_cnt r; store_flag := store_flag r;
     AdOffCalcCnt := AdOffCalcCnt r; AdDummyCnt := v |}.

(** The registers of TIM1 the core writes and the run state of its six
    PWM outputs (CHx and the complementary CHxN). *)
Record TIM1_HW : Type := {
  ARR : Z;
  CCR1 : Z;
  CCR2 : Z;
  CCR3 : Z;
  CH1 : bool;
  CH1N : bool;
  CH2 : bool;
  CH2N : bool;
  CH3 : bool;
  CH3N : bool
}.

Definition set_CCR1 (v : Z) (r : TIM1_HW) : TIM1_HW :=
    {| ARR := ARR r; CCR1 := v; CCR2 := CCR2 r; CCR3 := CCR3 r; CH1 := CH1 r;
     CH1N := CH1N r; CH2 := CH2 r; CH2N := CH2N r; CH3 := CH3 r; CH3N := CH3N
     r |}.
Definition set_CCR2 (v : Z) (r : TIM1_HW) : TIM1_HW :=
    {| ARR := ARR r; CCR1 := CCR1 r; CCR2 := v; CCR3 := CCR3 r; CH1 := CH1 r;
     CH1N := CH1N r; CH2 := CH2 r; CH2N := CH2N r; CH3 := CH3 r; CH3N := CH3N
     r |}.
Definition set_CCR3 (v : Z) (r : TIM1_HW) : TIM1_HW :=
    {| ARR := ARR r; CCR1 := CCR1 r; CCR2 := CCR2 r; CCR3 := v; CH1 := CH1 r;
     CH1N := CH1N r; CH2 := CH2 r; CH2N := CH2N r; CH3 := CH3 r; CH3N := CH3N
     r |}.
Definition set_CH1 (v : bool) (r : TIM1_HW) : TIM1_HW :=
    {| ARR := ARR r; CCR1 := CCR1 r; CCR2 := CCR2 r; CCR3 := CCR3 r; CH1 := v;
     CH1N := CH1N r; CH2 := CH2 r; CH2N := CH2N r; CH3 := CH3 r; CH3N := CH3N
     r |}.
Definition set_CH1N (v : bool) (r : TIM1_HW) : TIM1_HW :=
    {| ARR := ARR r; CCR1 := CCR1 r; CCR2 := CCR2 r; CCR3 := CCR3 r; CH1 :=
     CH1 r; CH1N := v; CH2 := CH2 r; CH2N := CH2N r; CH3 := CH3 r; CH3N :=
     CH3N r |}.
Definition set_CH2 (v : bool) (r : TIM1_HW) : TIM1_HW :=
    {| ARR := ARR r; CCR1 := CCR1 r; CCR2 := CCR2 r; CCR3 := CCR3 r; CH1 :=
     CH1 r; CH1N := CH1N r; CH2 := v; CH2N := CH2N r; CH3 := CH3 r; CH3N :=
     CH3N r |}.
Definition set_CH2N (v : bool) (r : TIM1_HW) : TIM1_HW :=
    {| ARR := ARR r; CCR1 := CCR1 r; CCR2 := CCR2 r; CCR3 := CCR3 r; CH1 :=
     CH1 r; CH1N := CH1N r; CH2 := CH2 r; CH2N := v; CH3 := CH3 r; CH3N :=
     CH3N r |}.
Definition set_CH3 (v : bool) (r : TIM1_HW) : TIM1_HW :=
    {| ARR := ARR r; CCR1 := CCR1 r; CCR2 := CCR2 r; CCR3 := CCR3 r; CH1 :=
     CH1 r; CH1N := CH1N r; CH2 := CH2 r; CH2N := CH2N r; CH3 := v; CH3N :=
     CH3N r |}.
Definition set_CH3N (v : bool) (r : TIM1_HW) : TIM1_HW :=
    {| ARR := ARR r; CCR1 := CCR1 r; CCR2 := CCR2 r; CCR3 := CCR3 r; CH1 :=
     CH1 r; CH1N := CH1N r; CH2 := CH2 r; CH2N := CH2N r; CH3 := CH3 r; CH3N
     := v |}.

(** All globals of the control core. [PWM_BUF] is the gate-driver buffer
    enable line driven by the PWM_BUF_ON / PWM_BUF_OFF macros. *)
Record State : Type := {
  FLAG : CONTROL_FLAG;
  FLTVAL : FAULT_VAL;
  FaultCnt : Z;
  INV : INVERTER;
  EXT_1 : EXT_Sensorless;
  ADC : ADC_VARS;
  TIM1 : TIM1_HW;
  PWM_BUF : bool;
  ControlCnt : Z;
  Theta_mode : Z;
  Align_done : Z;
  Mode_align : Z;
  Time_align : f32;
  cnt_inj : Z;
  Van : f32;
  Vbn : f32;
  Vcn : f32;
  Vdss_ref_set : f32;
  Vqss_ref_set : f32
}.

Definition set_FLAG (v : CONTROL_FLAG) (r : State) : State :=
    {| FLAG := v; FLTVAL := FLTVAL r; FaultCnt := FaultCnt r; INV := INV r;
     EXT_1 := EXT_1 r; ADC := ADC r; TIM1 := TIM1 r; PWM_BUF := PWM_BUF r;
     ControlCnt := ControlCnt r; Theta_mode := Theta_mode r; Align_done :=
     Align_done r; Mode_align := Mode_align r; Time_align := Time_align r;
     cnt_inj := cnt_inj r; Van := Van r; Vbn := Vbn r; Vcn := Vcn r;
     Vdss_ref_set := Vdss_ref_set r; Vqss_ref_set := Vqss_ref_set r |}.
Definition set_FLTVAL (v : FAULT_VAL) (r : State) : State :=
    {| FLAG := FLAG r; FLTVAL := v; FaultCnt := FaultCnt r; INV := INV r;
     EXT_1 := EXT_1 r; ADC := ADC r; TIM1 := TIM1 r; PWM_BUF := PWM_BUF r;
     ControlCnt := ControlCnt r; Theta_mode := Theta_mode r; Align_done :=
     Align_done r; Mode_align := Mode_align r; Time_align := Time_align r;
     cnt_inj := cnt_inj r; Van := Van r; Vbn := Vbn r; Vcn := Vcn r;
     Vdss_ref_set := Vdss_ref_set r; Vqss_ref_set := Vqss_ref_set r |}.
Definition set_FaultCnt (v : Z) (r : State) : State :=
    {| FLAG := FLAG r; FLTVAL := FLTVAL r; FaultCnt := v; INV := INV r; EXT_1
     := EXT_1 r; ADC := ADC r; TIM1 := TIM1 r; PWM_BUF := PWM_BUF r;
     ControlCnt := ControlCnt r; Theta_mode := Theta_mode r; Align_done :=
     Align_done r; Mode_align := Mode_align r; Time_align := Time_align r;
     cnt_inj := cnt_inj r; Van := Van r; Vbn := Vbn r; Vcn := Vcn r;
     Vdss_ref_set := Vdss_ref_set r; Vqss_ref_set := Vqss_ref_set r |}.
Definition set_INV (v : INVERTER) (r : State) : State :=
    {| FLAG := FLAG r; FLTVAL := FLTVAL r; FaultCnt := FaultCnt r; INV := v;
     EXT_1 := EXT_1 r; ADC := ADC r; TIM1 := TIM1 r; PWM_BUF := PWM_BUF r;
     ControlCnt := ControlCnt r; Theta_mode := Theta_mode r; Align_done :=
     Align_done r; Mode_align := Mode_align r; Time_align := Time_align r;
     cnt_inj := cnt_inj r; Van := Van r; Vbn := Vbn r; Vcn := Vcn r;
     Vdss_ref_set := Vdss_ref_set r; Vqss_ref_set := Vqss_ref_set r |}.
Definition set_EXT_1 (v : EXT_Sensorless) (r : State) : State :=
    {| FLAG := FLAG r; FLTVAL := FLTVAL r; FaultCnt := FaultCnt r; INV := INV
     r; EXT_1 := v; ADC := ADC r; TIM1 := TIM1 r; PWM_BUF := PWM_BUF r;
     ControlCnt := ControlCnt r; Theta_mode := Theta_mode r; Align_done :=
     Align_done r; Mode_align := Mode_align r; Time_align := Time_align r;
     cnt_inj := cnt_inj r; Van := Van r; Vbn := Vbn r; Vcn := Vcn r;
     Vdss_ref_set := Vdss_ref_set r; Vqss_ref_set := Vqss_ref_set r |}.
Definition set_ADC (v : ADC_VARS) (r : State) : State :=
    {| FLAG := FLAG r; FLTVAL := FLTVAL r; FaultCnt := FaultCnt r; INV := INV
     r; EXT_1 := EXT_1 r; ADC := v; TIM1 := TIM1 r; PWM_BUF := PWM_BUF r;
     ControlCnt := ControlCnt r; Theta_mode := Theta_mode r; Align_done :=
     Align_done r; Mode_align := Mode_align r; Time_align := Time_align r;
     cnt_inj := cnt_inj r; Van := Van r; Vbn := Vbn r; Vcn := Vcn r;
     Vdss_ref_set := Vdss_ref_set r; Vqss_ref_set := Vqss_ref_set r |}.
Definition set_TIM1 (v : TIM1_HW) (r : State) : State :=
    {| FLAG := FLAG r; FLTVAL := FLTVAL r; FaultCnt := FaultCnt r; INV := INV
     r; EXT_1 := EXT_1 r; ADC := ADC r; TIM1 := v; PWM_BUF := PWM_BUF r;
     ControlCnt := ControlCnt r; Theta_mode := Theta_mode r; Align_done :=
     Align_done r; Mode_align := Mode_align r; Time_align := Time_align r;
     cnt_inj := cnt_inj r; Van := Van r; Vbn := Vbn r; Vcn := Vcn r;
     Vdss_ref_set := Vdss_ref_set r; Vqss_ref_set := Vqss_ref_set r |}.
Definition set_PWM_BUF (v : bool) (r : State) : State :=
    {| FLAG := FLAG r; FLTVAL := FLTVAL r; FaultCnt := FaultCnt r; INV := INV
     r; EXT_1 := EXT_1 r; ADC := ADC r; TIM1 := TIM1 r; PWM_BUF := v;
     ControlCnt := ControlCnt r; Theta_mode := Theta_mode r; Align_done :=
     Align_done r; Mode_align := Mode_align r; Time_align := Time_align r;
     cnt_inj := cnt_inj r; Van := Van r; Vbn := Vbn r; Vcn := Vcn r;
     Vdss_ref_set := Vdss_ref_set r; Vqss_ref_set := Vqss_ref_set r |}.
Definition set_ControlCnt (v : Z) (r : State) : State :=
    {| FLAG := FLAG r; FLTVAL := FLTVAL r; FaultCnt := FaultCnt r; INV := INV
     r; EXT_1 := EXT_1 r; ADC := ADC r; TIM1 := TIM1 r; PWM_BUF := PWM_BUF r;
     ControlCnt := v; Theta_mode := Theta_mode r; Align_done := Align_done r;
     Mode_align := Mode_align r; Time_align := Time_align r; cnt_inj :=
     cnt_inj r; Van := Van r; Vbn := Vbn r; Vcn := Vcn r; Vdss_ref_set :=
     Vdss_ref_set r; Vqss_ref_set := Vqss_ref_set r |}.
Definition set_Theta_mode (v : Z) (r : State) : State :=
    {| FLAG := FLAG r; FLTVAL := FLTVAL r; FaultCnt := FaultCnt r; INV := INV
     r; EXT_1 := EXT_1 r; ADC := ADC r; TIM1 := TIM1 r; PWM_BUF := PWM_BUF r;
     ControlCnt := ControlCnt r; Theta_mode := v; Align_done := Align_done r;
     Mode_align := Mode_align r; Time_align := Time_align r; cnt_inj :=
     cnt_inj r; Van := Van r; Vbn := Vbn r; Vcn := Vcn r; Vdss_ref_set :=
     Vdss_ref_set r; Vqss_ref_set := Vqss_ref_set r |}.
Definition set_Align_done (v : Z) (r : State) : State :=
    {| FLAG := FLAG r; FLTVAL := FLTVAL r; FaultCnt := FaultCnt r; INV := INV
     r; EXT_1 := EXT_1 r; ADC := ADC r; TIM1 := TIM1 r; PWM_BUF := PWM_BUF r;
     ControlCnt := ControlCnt r; Theta_mode := Theta_mode r; Align_done := v;
     Mode_align := Mode_align r; Time_align := Time_align r; cnt_inj :=
     cnt_inj r; Van := Van r; Vbn := Vbn r; Vcn := Vcn r; Vdss_ref_set :=
     Vdss_ref_set r; Vqss_ref_set := Vqss_ref_set r |}.
Definition set_Mode_align (v : Z) (r : State) : State :=
    {| FLAG := FLAG r; FLTVAL := FLTVAL r; FaultCnt := FaultCnt r; INV := INV
     r; EXT_1 := EXT_1 r; ADC := ADC r; TIM1 := TIM1 r; PWM_BUF := PWM_BUF r;
     ControlCnt := ControlCnt r; Theta_mode := Theta_mode r; Align_done :=
     Align_done r; Mode_align := v; Time_align := Time_align r; cnt_inj :=
     cnt_inj r; Van := Van r; Vbn := Vbn r; Vcn := Vcn r; Vdss_ref_set :=
     Vdss_ref_set r; Vqss_ref_set := Vqss_ref_set r |}.
Definition set_Time_align (v : f32) (r : State) : State :=
    {| FLAG := FLAG r; FLTVAL := FLTVAL r; FaultCnt := FaultCnt r; INV := INV
     r; EXT_1 := EXT_1 r; ADC := ADC r; TIM1 := TIM1 r; PWM_BUF := PWM_BUF r;
     ControlCnt := ControlCnt r; Theta_mode := Theta_mode r; Align_done :=
     Align_done r; Mode_align := Mode_align r; Time_align := v; cnt_inj :=
     cnt_inj r; Van := Van r; Vbn := Vbn r; Vcn := Vcn r; Vdss_ref_set :=
     Vdss_ref_set r; Vqss_ref_set := Vqss_ref_set r |}.
Definition set_cnt_inj (v : Z) (r : State) : State :=
    {| FLAG := FLAG r; FLTVAL := FLTVAL r; FaultCnt := FaultCnt r; INV := INV
     r; EXT_1 := EXT_1 r; ADC := ADC r; TIM1 := TIM1 r; PWM_BUF := PWM_BUF r;
     ControlCnt := ControlCnt r; Theta_mode := Theta_mode r; Align_done :=
     Align_done r; Mode_align := Mode_align r; Time_align := Time_align r;
     cnt_inj := v; Van := Van r; Vbn := Vbn r; Vcn := Vcn r; Vdss_ref_set :=
     Vdss_ref_set r; Vqss_ref_set := Vqss_ref_set r |}.
Definition set_Van (v : f32) (r : State) : State :=
    {| FLAG := FLAG r; FLTVAL := FLTVAL r; FaultCnt := FaultCnt r; INV := INV
     r; EXT_1 := EXT_1 r; ADC := ADC r; TIM1 := TIM1 r; PWM_BUF := PWM_BUF r;
     ControlCnt := ControlCnt r; Theta_mode := Theta_mode r; Align_done :=
     Align_done r; Mode_align := Mode_align r; Time_align := Time_align r;
     cnt_inj := cnt_inj r; Van := v; Vbn := Vbn r; Vcn := Vcn r; Vdss_ref_set
     := Vdss_ref_set r; Vqss_ref_set := Vqss_ref_set r |}.
Definition set_Vbn (v : f32) (r : State) : State :=
    {| FLAG := FLAG r; FLTVAL := FLTVAL r; FaultCnt := FaultCnt r; INV := INV
     r; EXT_1 := EXT_1 r; ADC := ADC r; TIM1 := TIM1 r; PWM_BUF := PWM_BUF r;
     ControlCnt := ControlCnt r; Theta_mode := Theta_mode r; Align_done :=
     Align_done r; Mode_align := Mode_align r; Time_align := Time_align r;
     cnt_inj := cnt_inj r; Van := Van r; Vbn := v; Vcn := Vcn r; Vdss_ref_set
     := Vdss_ref_set r; Vqss_ref_set := Vqss_ref_set r |}.
Definition set_Vcn (v : f32) (r : State) : State :=
    {| FLAG := FLAG r; FLTVAL := FLTVAL r; FaultCnt := FaultCnt r; INV := INV
     r; EXT_1 := EXT_1 r; ADC := ADC r; TIM1 := TIM1 r; PWM_BUF := PWM_BUF r;
     ControlCnt := ControlCnt r; Theta_mode := Theta_mode r; Align_done :=
     Align_done r; Mode_align := Mode_align r; Time_align := Time_align r;
     cnt_inj := cnt_inj r; Van := Van r; Vbn := Vbn r; Vcn := v; Vdss_ref_set
     := Vdss_ref_set r; Vqss_ref_set := Vqss_ref_set r |}.
Definition set_Vdss_ref_set (v : f32) (r : State) : State :=
    {| FLAG := FLAG r; FLTVAL := FLTVAL r; FaultCnt := FaultCnt r; INV := INV
     r; EXT_1 := EXT_1 r; ADC := ADC r; TIM1 := TIM1 r; PWM_BUF := PWM_BUF r;
     ControlCnt := ControlCnt r; Theta_mode := Theta_mode r; Align_done :=
     Align_done r; Mode_align := Mode_align r; Time_align := Time_align r;
     cnt_inj := cnt_inj r; Van := Van r; Vbn := Vbn r; Vcn := Vcn r;
     Vdss_ref_set := v; Vqss_ref_set := Vqss_ref_set r |}.
Definition set_Vqss_ref_set (v : f32) (r : State) : State :=
    {| FLAG := FLAG r; FLTVAL := FLTVAL r; FaultCnt := FaultCnt r; INV := INV
     r; EXT_1 := EXT_1 r; ADC := ADC r; TIM1 := TIM1 r; PWM_BUF := PWM_BUF r;
     ControlCnt := ControlCnt r; Theta_mode := Theta_mode r; Align_done :=
     Align_done r; Mode_align := Mode_align r; Time_align := Time_align r;
     cnt_inj := cnt_inj r; Van := Van r; Vbn := Vbn r; Vcn := Vcn r;
     Vdss_ref_set := Vdss_ref_set r; Vqss_ref_set := v |}.

#[local] Unset Primitive Projections.

(** Reading and writing a float member of the global [INV]. *)
Definition rd (s : State) (x : InvF) : f32 := fld (INV s) x.

Definition wr (x : InvF) (v : f32) (s : State) : State :=
  set_INV (set_fld (upd InvF_eqb x v (fld (INV s))) (INV s)) s.

Notation "s '.[' x ']'" := (rd s x)
  (at level 1, left associativity, format "s .[ x ]").
Notation "s '.[' x '<-' v ']'" := (wr x v s)
  (at level 1, left associativity, format "s .[ x  <-  v ]").

(** Writing a member of [EXT_Sensorless]. *)
Definition ewr (x : ExtF) (v : f32) (e : EXT_Sensorless) : EXT_Sensorless :=
  upd ExtF_eqb x v e.

(** The float literals of the sources. *)
Definition f_0 : f32 := f32_zero.
Definition f_1 : f32 := f32_of_Z 1.
Definition f_2 : f32 := f32_of_Z 2.
Definition f_3 : f32 := f32_of_Z 3.
Definition f_4 : f32 := f32_of_Z 4.
Definition f_5 : f32 := f32_of_Z 5.
Definition f_80 : f32 := f32_of_Z 80.
Definition f_5000 : f32 := f32_of_Z 5000.
Definition f_0_5 : f32 := f32_lit 1 2.
Definition f_1_5 : f32 := f32_lit 3 2.
Definition f_1_3 : f32 := f32_lit 13 10.
Definition f_0_25 : f32 := f32_lit 1 4.
Definition f_0_05 : f32 := f32_lit 5 100.
Definition f_0_2 : f32 := f32_lit 2 10.
Definition f_0_3 : f32 := f32_lit 3 10.
Definition f_0_8 : f32 := f32_lit 8 10.
Definition f_0_95 : f32 := f32_lit 95 100.
Definition f_0_999 : f32 := f32_lit 999 1000.
Definition f_81_9 : f32 := f32_lit 819 10.
Definition f_203_4 : f32 := f32_lit 2034 10.
Definition f_1em9 : f32 := f32_lit 1 1000000000.

(* ================================================================== *)
(** * The functions of the control core *)
(* ================================================================== *)

Local Open Scope f32_scope.

(** ** PWM output (inv.c) *)

Definition PWM_BUF_ON (s : State) : State := set_PWM_BUF true s.
Definition PWM_BUF_OFF (s : State) : State := set_PWM_BUF false s.

(** [if (!FLAG.FAULT) PWM_BUF_ON;] *)
Definition PWM_BUF_ON_unless_FAULT (s : State) : State :=
  set_PWM_BUF (if (FAULT (FLAG s) =? 0)%Z then true else PWM_BUF s) s.

(** [PwmSwOn]: the six HAL start calls, in the order of the source. *)
Definition PwmSwOn (s : State) : State :=
  let t := TIM1 s in
  let t := set_CH1 true t in
  let t := set_CH1N true t in
  let t := set_CH2 true t in
  let t := set_CH2N true t in
  let t := set_CH3 true t in
  let t := set_CH3N true t in
  set_TIM1 t s.

Definition PwmSwOff (s : State) : State :=
  let s := PWM_BUF_OFF s in
  let s := s.[Duty_A <- f_0] in
  let s := s.[Duty_B <- f_0] in
  let s := s.[Duty_C <- f_0] in
  let t := TIM1 s in
  let t := set_CH1 false t in
  let t := set_CH1N false t in
  let t := set_CH2 false t in
  let t := set_CH2N false t in
  let t := set_CH3 false t in
  let t := set_CH3N false t in
  set_TIM1 t s.

Definition PwmDutyUpt (s : State) : State :=
  let t := TIM1 s in
  let t := set_CCR1 (f32_to_u32 (s.[Duty_A] * f32_of_Z (ARR t))) t in
  let t := set_CCR2 (f32_to_u32 (s.[Duty_B] * f32_of_Z (ARR t))) t in
  let t := set_CCR3 (f32_to_u32 (s.[Duty_C] * f32_of_Z (ARR t))) t in
  set_TIM1 t s.

(** The PWM output is off: the buffer is disabled and no channel runs. *)
Definition pwm_disabled (s : State) : Prop :=
  PWM_BUF s = false /\
  CH1 (TIM1 s) = false /\ CH1N (TIM1 s) = false /\
  CH2 (TIM1 s) = false /\ CH2N (TIM1 s) = false /\
  CH3 (TIM1 s) = false /\ CH3N (TIM1 s) = false.

(** ** Fault monitor (fault.c) *)

(** The six assignments [FLTVAL.x = INV.x]. *)
Definition snapshot (s : State) : FAULT_VAL :=
  {| FLT_Vdc := s.[Vdc];
     FLT_Idc := s.[Idc];
     FLT_Ia := s.[Ia];
     FLT_Ib := s.[Ib];
     FLT_Ic := s.[Ic];
     FLT_Wrpm := s.[Wrpm] |}.

Definition HardWareFault (s : State) : State :=
  let s := PwmSwOff s in
  let s := set_FLAG (set_FAULT 1 (FLAG s)) s in
  let s := set_FLAG (set_READY 0 (FLAG s)) s in
  let s := set_FLTVAL (snapshot s) s in
  set_FaultCnt (wrap16 (FaultCnt s + 1)) s.

Definition SoftWareFault (s : State) : State :=
  let s := PwmSwOff s in
  let s := set_FLAG (set_READY 0 (FLAG s)) s in
  (* if (FLAG.FAULT != 1) FLAG.FAULT = 2; *)
  let s := set_FLAG
      (set_FAULT (if (FAULT (FLAG s) =? 1)%Z then FAULT (FLAG s) else 2%Z)
         (FLAG s)) s in
  let s := set_FLTVAL (snapshot s) s in
  set_FaultCnt (wrap16 (FaultCnt s + 1)) s.

Definition HAL_GPIO_EXTI_Callback (s : State) : State :=
  let s := PwmSwOff s in
  HardWareFault s.

(** ** Sampling and offset calibration (adc.c) *)

Definition AdcProcess (s : State) : State :=
  let a := ADC s in
  let a := set_ADC1_Result
    (arr_set 0 ((adc1Val a 0 - ADC1_Offset a 0) / f_81_9) (ADC1_Result a)) a in
  let a := set_ADC1_Result
    (arr_set 1 ((adc1Val a 1 - ADC1_Offset a 1) / f_81_9) (ADC1_Result a)) a in
  let a := set_ADC1_Result
    (arr_set 2 ((adc1Val a 2 - ADC1_Offset a 2) / f_81_9) (ADC1_Result a)) a in
  let a := set_ADC1_Result
    (arr_set 3 (adc1Val a 3 / f_203_4) (ADC1_Result a)) a in
  let s := set_ADC a s in
  let s := s.[Ia <- ADCgain a 0 * ADC1_Result a 0 * scale_comp a] in
  let s := s.[Ib <- ADCgain a 1 * ADC1_Result a 1 * scale_comp a] in
  let s := s.[Ic <- ADCgain a 2 * ADC1_Result a 2 * scale_comp a] in
  let s := s.[Vdc <- ADCgain a 3 * ADC1_Result a 3 * scale_comp a] in
  let alpha := f_0_999 in
  let s := s.[Vdc_control <-
                s.[Vdc] * (f_1 - alpha) + alpha * s.[Vdc_control]] in
  let s := s.[Vdc <- s.[Vdc_control]] in
  let s := s.[INV_Vdc <- f_1 / MAX s.[Vdc_control] f_1] in
  let store := (store_flag a =? 1)%Z in
  let room := (store_cnt a <? 3000)%Z in
  let a := if store && room
           then set_Ia_arr (arr_set (store_cnt a) s.[Ia] (Ia_arr a)) a
           else a in
  let a := if store && room then set_store_cnt (store_cnt a + 1)%Z a
           else a in
  let a := if store && negb room then set_store_flag 0 a else a in
  set_ADC a s.

(** [Offset] reads and writes globals of adc.c only. *)
Definition Offset_ADC (a : ADC_VARS) : ADC_VARS :=
  if (AdDummyCnt a <? 5000)%Z then
    set_AdDummyCnt (wrap32 (AdDummyCnt a + 1)) a
  else
    let a := set_AdOffCalcCnt (wrap32 (AdOffCalcCnt a + 1)) a in
    let a := set_ADC1_Offset_sum
      (arr_set 0 (wrap32 (ADC1_Offset_sum a 0 + f32_to_u32 (adc1Val a 0)))
         (ADC1_Offset_sum a)) a in
    let a := set_ADC1_Offset_sum
      (arr_set 1 (wrap32 (ADC1_Offset_sum a 1 + f32_to_u32 (adc1Val a 1)))
         (ADC1_Offset_sum a)) a in
    let a := set_ADC1_Offset_sum
      (arr_set 2 (wrap32 (ADC1_Offset_sum a 2 + f32_to_u32 (adc1Val a 2)))
         (ADC1_Offset_sum a)) a in
    if (AdOffCalcCnt a =? 5000)%Z then
      let a := set_ADC1_Offset
        (arr_set 0 (f32_of_Z (ADC1_Offset_sum a 0) / f_5000)
           (ADC1_Offset a)) a in
      let a := set_ADC1_Offset
        (arr_set 1 (f32_of_Z (ADC1_Offset_sum a 1) / f_5000)
           (ADC1_Offset a)) a in
      let a := set_ADC1_Offset
        (arr_set 2 (f32_of_Z (ADC1_Offset_sum a 2) / f_5000)
           (ADC1_Offset a)) a in
      set_AdInitFlag 1 a
    else a.

Definition Offset (s : State) : State := set_ADC (Offset_ADC (ADC s)) s.

(** ** Gains and reset (inv.c) *)

Definition UpdateController (s : State) : State :=
  let s := s.[Kpd_cc <- s.[Wcc] * s.[Ld]] in
  let s := s.[Kpq_cc <- s.[Wcc] * s.[Lq]] in
  let s := s.[Kid_cc <- s.[Wcc] * s.[Rs]] in
  let s := s.[Kiq_cc <- s.[Wcc] * s.[Rs]] in
  let s := s.[Kad_cc <- f_1 / fmaxf s.[Kpd_cc] f_1em9] in
  let s := s.[Kaq_cc <- f_1 / fmaxf s.[Kpq_cc] f_1em9] in
  let s := s.[Kp_sc <- s.[Jm] * s.[Wsc]] in
  let s := s.[Ki_scale <- f_0_25] in
  let s := s.[Ki_sc <- s.[Kp_sc] * s.[Wsc] * s.[Ki_scale]] in
  s.[Ka_sc <- f_1 / fmaxf s.[Kp_sc] f_1em9].

Definition ResetController (s : State) : State :=
  let s := s.[Wrm_ref_set <- f_0] in
  let s := s.[Wrpm_ref_set <- f_0] in
  let s := s.[Wrpm_ref_set_old <- f_0] in
  let s := s.[Wrm_ref <- f_0] in
  let s := s.[Wrpm_ref <- f_0] in
  let s := s.[Te_ref_integ <- f_0] in
  let s := s.[Te_ref_aw <- f_0] in
  let s := s.[Idsr_ref_integ <- f_0] in
  let s := s.[Idsr_ref_aw <- f_0] in
  let s := s.[Te_ref_sat <- f_0] in
  let s := s.[Te_ref <- f_0] in
  let s := s.[Idsr_ref <- f_0] in
  let s := s.[Iqsr_ref <- f_0] in
  let s := s.[Idsr_ref_OLC <- f_0] in
  let s := s.[Iqsr_ref_OLC <- f_0] in
  let s := s.[Vdsr_ref_OLC <- f_0] in
  let s := s.[Vqsr_ref_OLC <- f_0] in
  let s := s.[Thetar_OLC <- f_0] in
  let s := s.[Wrpm_ref_OLC <- f_0] in
  let s := s.[Wrpm_ref_set_OLC <- f_0] in
  let s := s.[Wrpm_slope_OLC <- f_5] in
  let s := s.[Vdsr_ref_integ <- f_0] in
  let s := s.[Vqsr_ref_integ <- f_0] in
  let s := s.[Vdsr_ref_unsat <- f_0] in
  let s := s.[Vqsr_ref_unsat <- f_0] in
  let s := s.[Vdsr_ref_aw <- f_0] in
  let s := s.[Vqsr_ref_aw <- f_0] in
  let s := s.[TestDuty_A <- f_0] in
  let s := s.[TestDuty_B <- f_0] in
  let s := s.[TestDuty_C <- f_0] in
  s.[alpha_LPF <- f_0].

Section Regulators.

Context {P : Platform}.

(** ** Output stage shared by the regulators

    [CurrentControl], [Vref_GenControl], [VoltageOpenLoopControl] and
    [VoltageInjection_SquareWave] repeat the same statements for the
    angle functions, the saturation with inverse Park and Clarke
    transforms and min-max offset, the phase voltages and the duties;
    each block is transcribed once. *)

(** [Thetar_adv], [cosThetar], [sinThetar], [cosThetar_adv],
    [sinThetar_adv]. *)
Definition angle_functions (s : State) : State :=
  let s := s.[Thetar_adv <- BOUND_PI (s.[Thetar] + f_1_5 * s.[Wr] * Tsamp)] in
  let s := s.[cosThetar <- COS (s.[Thetar] * s.[Thetar])] in
  let s := s.[sinThetar <- SIN s.[Thetar] (s.[Thetar] * s.[Thetar])] in
  let s := s.[cosThetar_adv <- COS (s.[Thetar_adv] * s.[Thetar_adv])] in
  s.[sinThetar_adv <- SIN s.[Thetar_adv] (s.[Thetar_adv] * s.[Thetar_adv])].

(** From [Vdsr_ref = LIMIT(...)] to [Voffset = -0.5f * (Vmax + Vmin)]. *)
Definition saturate_and_transform (s : State) : State :=
  let s := s.[Vdsr_ref <- LIMIT s.[Vdsr_ref_unsat]
                (- s.[Vdc] * INV_SQRT3) (s.[Vdc] * INV_SQRT3)] in
  let s := s.[Vqsr_ref <- LIMIT s.[Vqsr_ref_unsat]
                (- s.[Vdc] * INV_SQRT3) (s.[Vdc] * INV_SQRT3)] in
  let s := s.[Vdsr_ref_aw <- s.[Vdsr_ref_unsat] - s.[Vdsr_ref]] in
  let s := s.[Vqsr_ref_aw <- s.[Vqsr_ref_unsat] - s.[Vqsr_ref]] in
  let s := s.[Vdss_ref <- s.[Vdsr_ref] * s.[cosThetar_adv]
                          - s.[Vqsr_ref] * s.[sinThetar_adv]] in
  let s := s.[Vqss_ref <- s.[Vdsr_ref] * s.[sinThetar_adv]
                          + s.[Vqsr_ref] * s.[cosThetar_adv]] in
  let s := s.[Vas_ref <- s.[Vdss_ref]] in
  let s := s.[Vbs_ref <- - f_0_5 * s.[Vdss_ref] + SQRT3HALF * s.[Vqss_ref]] in
  let s := s.[Vcs_ref <- - f_0_5 * s.[Vdss_ref] - SQRT3HALF * s.[Vqss_ref]] in
  let s := s.[Vmax <- s.[Vas_ref]] in
  let s := s.[Vmax <- if s.[Vmax] <? s.[Vbs_ref] then s.[Vbs_ref]
                      else s.[Vmax]] in
  let s := s.[Vmax <- if s.[Vmax] <? s.[Vcs_ref] then s.[Vcs_ref]
                      else s.[Vmax]] in
  let s := s.[Vmin <- s.[Vas_ref]] in
  let s := s.[Vmin <- if s.[Vmin] >? s.[Vbs_ref] then s.[Vbs_ref]
                      else s.[Vmin]] in
  let s := s.[Vmin <- if s.[Vmin] >? s.[Vcs_ref] then s.[Vcs_ref]
                      else s.[Vmin]] in
  s.[Voffset <- - f_0_5 * (s.[Vmax] + s.[Vmin])].

(** Current references back in the stationary frame, the compensation
    voltages and the final phase voltages with compensation. *)
Definition phase_voltages_NLC (s : State) : State :=
  let s := s.[Idss_ref <- s.[Idsr_ref] * s.[cosThetar_adv]
                          - s.[Iqsr_ref] * s.[sinThetar_adv]] in
  let s := s.[Iqss_ref <- s.[Idsr_ref] * s.[sinThetar_adv]
                          + s.[Iqsr_ref] * s.[cosThetar_adv]] in
  let s := s.[Ia_ref <- s.[Idss_ref]] in
  let s := s.[Ib_ref <- - f_0_5 * s.[Idss_ref] + SQRT3HALF * s.[Iqss_ref]] in
  let s := s.[Ic_ref <- - f_0_5 * s.[Idss_ref] - SQRT3HALF * s.[Iqss_ref]] in
  let s := s.[Va_NLC <- s.[A_NLC] * atanf (s.[B_NLC] * s.[Ia_ref])] in
  let s := s.[Vb_NLC <- s.[A_NLC] * atanf (s.[B_NLC] * s.[Ib_ref])] in
  let s := s.[Vc_NLC <- s.[A_NLC] * atanf (s.[B_NLC] * s.[Ic_ref])] in
  let s := s.[Van_ref <- LIMIT (s.[Vas_ref] + s.[Voffset] + s.[Va_NLC])
                (- f_0_5 * s.[Vdc]) (f_0_5 * s.[Vdc])] in
  let s := s.[Vbn_ref <- LIMIT (s.[Vbs_ref] + s.[Voffset] + s.[Vb_NLC])
                (- f_0_5 * s.[Vdc]) (f_0_5 * s.[Vdc])] in
  s.[Vcn_ref <- LIMIT (s.[Vcs_ref] + s.[Voffset] + s.[Vc_NLC])
                (- f_0_5 * s.[Vdc]) (f_0_5 * s.[Vdc])].

(** The final phase voltages without compensation. *)
Definition phase_voltages (s : State) : State :=
  let s := s.[Van_ref <- LIMIT (s.[Vas_ref] + s.[Voffset])
                (- f_0_5 * s.[Vdc]) (f_0_5 * s.[Vdc])] in
  let s := s.[Vbn_ref <- LIMIT (s.[Vbs_ref] + s.[Voffset])
                (- f_0_5 * s.[Vdc]) (f_0_5 * s.[Vdc])] in
  s.[Vcn_ref <- LIMIT (s.[Vcs_ref] + s.[Voffset])
                (- f_0_5 * s.[Vdc]) (f_0_5 * s.[Vdc])].

(** [Van = INV->Van_ref; Vbn = INV->Vbn_ref; Vcn = INV->Vcn_ref;] *)
Definition publish_phase_voltages (s : State) : State :=
  let s := set_Van s.[Van_ref] s in
  let s := set_Vbn s.[Vbn_ref] s in
  set_Vcn s.[Vcn_ref] s.

(** The duties, clamped to [0, 1]. *)
Definition duties (s : State) : State :=
  let s := s.[Duty_A <- LIMIT (s.[Van_ref] * s.[INV_Vdc] + f_0_5) f_0 f_1] in
  let s := s.[Duty_B <- LIMIT (s.[Vbn_ref] * s.[INV_Vdc] + f_0_5) f_0 f_1] in
  s.[Duty_C <- LIMIT (s.[Vcn_ref] * s.[INV_Vdc] + f_0_5) f_0 f_1].

(** ** Current regulator *)

(** The statement [if (FLAG.INV_RUN) { ... }] that opens
    [CurrentControl]. *)
Definition CurrentControl_torque_ref (s : State) : State :=
  if (INV_RUN (FLAG s) =? 0)%Z then s
  else
    let s := s.[Iqsr_ref_unsat <- s.[Te_ref] * s.[INV_Kt]] in
    let s := s.[Iqsr_ref <- LIMIT s.[Iqsr_ref_unsat]
                  (- f_3 * s.[Is_rated]) (f_3 * s.[Is_rated])] in
    s.[Idsr_ref <- f_0].

(** The statements after it. *)
Definition CurrentControl_regulate (s : State) : State :=
  let s := s.[Vdsr_ref_old <- s.[Vdsr_ref]] in
  let s := s.[Vqsr_ref_old <- s.[Vqsr_ref]] in
  let s := s.[Idss <- (f_2 * s.[Ia] - s.[Ib] - s.[Ic]) * INV_3] in
  let s := s.[Iqss <- (s.[Ib] - s.[Ic]) * INV_SQRT3] in
  let s := set_Vdss_ref_set ((f_2 * Van s - Vbn s - Vcn s) * INV_3) s in
  let s := set_Vqss_ref_set (INV_SQRT3 * (Vbn s - Vcn s)) s in
  (* if (Theta_mode == 1) { Thetar = ...; Wr = ...; }
     else                 { Thetar = ...; Wr = ...; } *)
  let s := s.[Thetar <- if (Theta_mode s =? 1)%Z then s.[Thetar_OLC]
                        else s.[Thetar_est_Hall]] in
  let s := s.[Wr <- if (Theta_mode s =? 1)%Z
                    then s.[Wrpm_ref_OLC] * RPM2RM * s.[PP]
                    else s.[Wr_est_Hall]] in
  let s := s.[Wrm <- s.[Wr] * s.[INV_PP]] in
  let s := s.[Wrpm <- s.[Wrm] * RM2RPM] in
  let s := angle_functions s in
  let s := s.[Idsr <- s.[Idss] * s.[cosThetar] + s.[Iqss] * s.[sinThetar]] in
  let s := s.[Iqsr <- - s.[Idss] * s.[sinThetar]
                      + s.[Iqss] * s.[cosThetar]] in
  let s := s.[Idsr_err <- s.[Idsr_ref] - s.[Idsr]] in
  let s := s.[Iqsr_err <- s.[Iqsr_ref] - s.[Iqsr]] in
  let s := s.[Vdsr_ref_integ <- s.[Vdsr_ref_integ] +
      s.[Kid_cc] * (s.[Idsr_err] - s.[Kad_cc] * s.[Vdsr_ref_aw]) * Tsamp] in
  let s := s.[Vqsr_ref_integ <- s.[Vqsr_ref_integ] +
      s.[Kiq_cc] * (s.[Iqsr_err] - s.[Kaq_cc] * s.[Vqsr_ref_aw]) * Tsamp] in
  let s := s.[Vdsr_ref_ff <- - s.[Wr] * s.[Lq] * s.[Iqsr_ref]] in
  let s := s.[Vqsr_ref_ff <- s.[Wr] * (s.[Ld] * s.[Idsr_ref] + s.[Lamf])] in
  let s := s.[Vdsr_ref_unsat_old <-
      s.[Kpd_cc] * s.[Idsr_err] + s.[Vdsr_ref_integ] + s.[Vdsr_ref_ff]
      - s.[Ractive] * s.[Idsr]] in
  let s := s.[Vqsr_ref_unsat_old <-
      s.[Kpq_cc] * s.[Iqsr_err] + s.[Vqsr_ref_integ] + s.[Vqsr_ref_ff]
      - s.[Ractive] * s.[Iqsr]] in
  let s := s.[Vdsr_ref_unsat <- s.[alpha_LPF] * s.[Vdsr_ref_unsat]
      + (f_1 - s.[alpha_LPF]) * s.[Vdsr_ref_unsat_old]] in
  let s := s.[Vqsr_ref_unsat <- s.[alpha_LPF] * s.[Vqsr_ref_unsat]
      + (f_1 - s.[alpha_LPF]) * s.[Vqsr_ref_unsat_old]] in
  let s := saturate_and_transform s in
  let s := phase_voltages_NLC s in
  let s := publish_phase_voltages s in
  let s := duties s in
  let s := PwmSwOn s in
  let s := PwmDutyUpt s in
  PWM_BUF_ON_unless_FAULT s.

Definition CurrentControl (s : State) : State :=
  CurrentControl_regulate (CurrentControl_torque_ref s).

(** ** Speed regulator *)

Definition SpeedControl (s : State) : State :=
  let s := s.[Wrpm_ref_set <- s.[Wrpm_ref_cmd]] in
  let s := s.[Wrpm_ref_set <-
      if ABS s.[Wrpm_ref_set] <? f_0_05 * s.[Wrpm_rated] then f_0
      else s.[Wrpm_ref_set]] in
  let s := s.[Wrm_ref_set <- s.[Wrpm_ref_set] * RPM2RM] in
  let s := s.[Wrm_ref <-
      if s.[Wrm_ref] <? s.[Wrm_ref_set] - s.[dWrm]
      then s.[Wrm_ref] + s.[dWrm]
      else if s.[Wrm_ref] >? s.[Wrm_ref_set] + s.[dWrm]
      then s.[Wrm_ref] - s.[dWrm]
      else s.[Wrm_ref_set]] in
  let s := s.[Wrpm_ref <- s.[Wrm_ref] * RM2RPM] in
  let s := s.[Wrm_err <- s.[Wrm_ref] - s.[Wrm]] in
  let s := s.[Te_ref_integ <- s.[Te_ref_integ] +
      s.[Ki_sc] * (s.[Wrm_err] - s.[Ka_sc] * s.[Te_ref_aw]) * Tsamp] in
  let s := s.[Te_ref_unsat <- s.[Kp_sc] * s.[Wrm_err] + s.[Te_ref_integ]] in
  let s := s.[Te_ref <- LIMIT s.[Te_ref_unsat]
                (- s.[Te_rated]) s.[Te_rated]] in
  s.[Te_ref_aw <- s.[Te_ref_unsat] - s.[Te_ref]].

(** ** Open-loop current control *)

(** The slew-limited d-axis current and speed references, as written in
    both [OpenLoopControl] and the open-loop branch of
    [Vref_GenControl]. *)
Definition ramp_Idsr_ref_OLC (s : State) : State :=
  s.[Idsr_ref_OLC <-
      if s.[Idsr_ref_set_OLC] >? s.[Idsr_ref_OLC] + Tsamp * s.[Idsr_slope_OLC]
      then s.[Idsr_ref_OLC] + Tsamp * s.[Idsr_slope_OLC]
      else if s.[Idsr_ref_set_OLC]
              <? s.[Idsr_ref_OLC] - Tsamp * s.[Idsr_slope_OLC]
      then s.[Idsr_ref_OLC] - Tsamp * s.[Idsr_slope_OLC]
      else s.[Idsr_ref_set_OLC]].

Definition ramp_Wrpm_ref_OLC (s : State) : State :=
  s.[Wrpm_ref_OLC <-
      if s.[Wrpm_ref_set_OLC] >? s.[Wrpm_ref_OLC] + Tsamp * s.[Wrpm_slope_OLC]
      then s.[Wrpm_ref_OLC] + Tsamp * s.[Wrpm_slope_OLC]
      else if s.[Wrpm_ref_set_OLC]
              <? s.[Wrpm_ref_OLC] - Tsamp * s.[Wrpm_slope_OLC]
      then s.[Wrpm_ref_OLC] - Tsamp * s.[Wrpm_slope_OLC]
      else s.[Wrpm_ref_set_OLC]].

Definition OpenLoopControl (s : State) : State :=
  let s := ramp_Idsr_ref_OLC s in
  let s := s.[Idsr_ref <- s.[Idsr_ref_OLC]] in
  let s := s.[Iqsr_ref <- s.[Iqsr_ref_OLC]] in
  let s := ramp_Wrpm_ref_OLC s in
  s.[Thetar_OLC <-
      BOUND_PI (s.[Thetar_OLC] + s.[Wrpm_ref_OLC] * RPM2RM * s.[PP] * Tsamp)].

(** ** Voltage feed-forward generator *)

(** The branch [Theta_mode == 1]. *)
Definition Vref_Gen_OLC (s : State) : State :=
  let s := ramp_Idsr_ref_OLC s in
  let s := s.[Idsr_ref <- s.[Idsr_ref_OLC]] in
  let s := s.[Iqsr_ref <- s.[Iqsr_ref_OLC]] in
  let s := ramp_Wrpm_ref_OLC s in
  let s := s.[Wr_ref_OLC <- s.[Wrpm_ref_OLC] * RPM2RM * s.[PP]] in
  let s := s.[Vdsr_ref_OLC <- s.[Rs] * s.[Idsr_ref_OLC]
      - s.[Wr_ref_OLC] * s.[Lq] * s.[Iqsr_ref_OLC]] in
  let s := s.[Vqsr_ref_OLC <- s.[Rs] * s.[Iqsr_ref_OLC]
      + s.[Wr_ref_OLC] * (s.[Ld] * s.[Idsr_ref_OLC] + s.[Lamf])] in
  let s := s.[Vdsr_ref_unsat <- s.[Vdsr_ref_OLC]] in
  let s := s.[Vqsr_ref_unsat <- s.[Vqsr_ref_OLC]] in
  let s := s.[Thetar_OLC <-
      BOUND_PI (s.[Thetar_OLC] + s.[Wr_ref_OLC] * Tsamp)] in
  s.[Thetar <- s.[Thetar_OLC]].

(** The branch [Theta_mode != 1]. *)
Definition Vref_Gen_Hall (s : State) : State :=
  let s := s.[Iqsr_ref_unsat <- s.[Te_ref] * s.[INV_Kt]] in
  let s := s.[Iqsr_ref <- LIMIT s.[Iqsr_ref_unsat]
                (- f_1_3 * s.[Is_rated]) (f_1_3 * s.[Is_rated])] in
  let s := s.[Idsr_ref <- f_0] in
  let s := s.[Vdsr_ref <- s.[Rs] * s.[Idsr_ref]
      - s.[Wrm_ref] * s.[PP] * s.[Lq] * s.[Iqsr_ref]] in
  let s := s.[Vqsr_ref <- s.[Rs] * s.[Iqsr_ref]
      + s.[Wrm_ref] * s.[PP] * (s.[Ld] * s.[Idsr_ref] + s.[Lamf])] in
  let s := s.[Vdsr_ref_unsat <- s.[Vdsr_ref]] in
  let s := s.[Vqsr_ref_unsat <- s.[Vqsr_ref]] in
  s.[Thetar <- s.[Thetar_est_Hall]].

(** The statements after the branch. *)
Definition Vref_Gen_output (s : State) : State :=
  let s := angle_functions s in
  let s := saturate_and_transform s in
  let s := phase_voltages s in
  let s := publish_phase_voltages s in
  let s := duties s in
  let s := PwmSwOn s in
  let s := PwmDutyUpt s in
  PWM_BUF_ON_unless_FAULT s.

Definition Vref_GenControl (s : State) : State :=
  Vref_Gen_output
    (if (Theta_mode s =? 1)%Z then Vref_Gen_OLC s else Vref_Gen_Hall s).

(** ** Voltage open-loop control *)

Definition VoltageOpenLoopControl (s : State) : State :=
  let s := s.[Vdsr_ref_unsat <- s.[Vdsr_ref_OLC]] in
  let s := s.[Vqsr_ref_unsat <- s.[Vqsr_ref_OLC]] in
  let s := s.[Thetar_OLC <-
      BOUND_PI (s.[Thetar_OLC]
                + s.[Wrpm_ref_OLC] * RPM2RM * s.[PP] * Tsamp)] in
  (* if (Theta_mode) { Thetar = ...; Wr = ...; }
     else            { Thetar = ...; Wr = ...; } *)
  let s := s.[Thetar <- if (Theta_mode s =? 0)%Z then s.[Thetar_OLC]
                        else EXT_1 s Thetar_EXT_old] in
  let s := s.[Wr <- if (Theta_mode s =? 0)%Z
                    then s.[Wrpm_ref_OLC] * RPM2RM * s.[PP]
                    else EXT_1 s Wr_EXT_f] in
  let s := s.[Idss <- (f_2 * s.[Ia] - s.[Ib] - s.[Ic]) * INV_3] in
  let s := s.[Iqss <- (s.[Ib] - s.[Ic]) * INV_SQRT3] in
  let s := angle_functions s in
  let s := saturate_and_transform s in
  let s := phase_voltages s in
  let s := publish_phase_voltages s in
  let s := duties s in
  let s := PwmSwOn s in
  let s := PwmDutyUpt s in
  PWM_BUF_ON_unless_FAULT s.

(** ** Square-wave voltage injection *)

Definition VoltageInjection_SquareWave (s : State) : State :=
  let s := s.[Vmag_inj <- f_1] in
  let s := s.[Thetar <- s.[Thetar_OLC]] in
  let s := s.[Thetar_adv <- s.[Thetar_OLC]] in
  let s := s.[cosThetar <- f_1] in
  let s := s.[sinThetar <- f_0] in
  let s := s.[cosThetar_adv <- f_1] in
  let s := s.[sinThetar_adv <- f_0] in
  (* if (cnt_inj >= 2) { +d; cnt_inj = 0; } else { -d; cnt_inj = 1; } *)
  let plus := (cnt_inj s >=? 2)%Z in
  let s := s.[Vdsr_ref_unsat <- if plus then s.[Vmag_inj]
                                else - s.[Vmag_inj]] in
  let s := s.[Vqsr_ref_unsat <- f_0] in
  let s := set_cnt_inj (if plus then 0 else 1)%Z s in
  let s := set_cnt_inj (cnt_inj s + 1)%Z s in
  let s := saturate_and_transform s in
  let s := phase_voltages_NLC s in
  let s := duties s in
  let s := PwmDutyUpt s in
  let s := PwmSwOn s in
  PWM_BUF_ON_unless_FAULT s.

(** ** Hall-sensor observer and position test *)

Definition GetHallSensorState (hall_sensor_1 hall_sensor_2 hall_sensor_3 :
  GPIO_PinState) : Z :=
  let is_set p := match p with GPIO_PIN_SET => true | _ => false end in
  let hall_state := 0%Z in
  let hall_state :=
    Z.lor hall_state (if is_set hall_sensor_1 then 1 else 0) in
  let hall_state :=
    Z.lor hall_state (if is_set hall_sensor_2 then 2 else 0) in
  let hall_state :=
    Z.lor hall_state (if is_set hall_sensor_3 then 4 else 0) in
  hall_state.

(** What one tick reads from the peripherals: the four injected ADC data
    registers and the three Hall input pins. *)
Record HwInputs : Type := {
  JDR1 : Z;
  JDR2 : Z;
  JDR3 : Z;
  JDR4 : Z;
  PC6 : GPIO_PinState;
  PC7 : GPIO_PinState;
  PD2 : GPIO_PinState
}.

Definition Hallsensor_Observer (hw : HwInputs) (s : State) : State :=
  let s := s.[Thetar_err_Hall <-
      BOUND_PI (s.[Thetar_Hall_PLL] - s.[Thetar_est_Hall])] in
  let s := s.[integ_PLL_Hall <- s.[integ_PLL_Hall]
      + Tsamp * s.[Ki_PLL_Hall] * s.[Thetar_err_Hall]] in
  let s := s.[Wr_est_Hall <-
      s.[Kp_PLL_Hall] * s.[Thetar_err_Hall] + s.[integ_PLL_Hall]] in
  let s := s.[Thetar_est_Hall <-
      s.[Thetar_est_Hall] + Tsamp * s.[Wr_est_Hall]] in
  let s := s.[Thetar_est_Hall <- BOUND_PI s.[Thetar_est_Hall]] in
  let s := s.[Wr <- s.[Wr_est_Hall]] in
  let s := s.[Wrm <- s.[Wr] * s.[INV_PP]] in
  let s := s.[Wrpm <- s.[Wrm] * Rm2Rpm] in
  let s := set_INV (set_hall_a (PC6 hw) (INV s)) s in
  let s := set_INV (set_hall_b (PC7 hw) (INV s)) s in
  let s := set_INV (set_hall_c (PD2 hw) (INV s)) s in
  let s := set_INV (set_hall_state
      (GetHallSensorState (hall_a (INV s)) (hall_b (INV s)) (hall_c (INV s)))
      (INV s)) s in
  let h := hall_state (INV s) in
  s.[Thetar_Hall_PLL <-
      if (h =? 6)%Z then f_0
      else if (h =? 4)%Z then PIOF3
      else if (h =? 5)%Z then f_2 * PIOF3
      else if (h =? 1)%Z then f_3 * PIOF3
      else if (h =? 3)%Z then - f_2 * PIOF3
      else if (h =? 2)%Z then - PIOF3
      else s.[Thetar_Hall_PLL]].

Definition HallPosition_Test (s : State) : State :=
  let d := duty_state (INV s) in
  let T := s.[Duty_Test] in
  if (d =? 1)%Z then s.[Duty_A <- T].[Duty_B <- f_0].[Duty_C <- f_0]
  else if (d =? 2)%Z then s.[Duty_A <- T].[Duty_B <- T].[Duty_C <- f_0]
  else if (d =? 3)%Z then s.[Duty_A <- f_0].[Duty_B <- T].[Duty_C <- f_0]
  else if (d =? 4)%Z then s.[Duty_A <- f_0].[Duty_B <- T].[Duty_C <- T]
  else if (d =? 5)%Z then s.[Duty_A <- f_0].[Duty_B <- f_0].[Duty_C <- T]
  else if (d =? 6)%Z then s.[Duty_A <- T].[Duty_B <- f_0].[Duty_C <- T]
  else s.[Duty_A <- f_0].[Duty_B <- f_0].[Duty_C <- f_0].

(** ** Alignment sequencer *)

(** [case 1] and [case 2] after the reference is set: run the current
    regulator, then advance once [Time_align] has reached [limit]. *)
Definition Align_hold (limit : f32) (s : State) : State :=
  let s := CurrentControl s in
  let s := PwmDutyUpt s in
  let s := PwmSwOn s in
  let s := PWM_BUF_ON_unless_FAULT s in
  set_Mode_align
    (if Time_align s >=? limit then (Mode_align s + 1)%Z else Mode_align s) s.

(** The [switch (Mode_align)]. *)
Definition Align_switch (s : State) : State :=
  if (Mode_align s =? 0)%Z then
    let s := set_Align_done 0 s in
    let s := s.[Thetar_offset <- f_0] in
    let s := s.[Idsr_ref <- s.[Idsr_align]] in
    let s := set_Time_align f_0 s in
    set_Mode_align (Mode_align s + 1)%Z s
  else if (Mode_align s =? 1)%Z then
    Align_hold f_4 s
  else if (Mode_align s =? 2)%Z then
    let s := s.[Idsr_ref <- f_0] in
    Align_hold f_5 s
  else if (Mode_align s =? 3)%Z then
    let s := set_Mode_align 0 s in
    let s := set_Align_done 1 s in
    set_FLAG (set_INV_ALIGN 0 (FLAG s)) s
  else s.

Definition Align (s : State) : State :=
  let s := s.[Thetar <- f_0] in
  let s := Align_switch s in
  set_Time_align (Time_align s + Tsamp) s.

(** ** The control tick (control.c) *)

(** The functions [Control] calls, for the record of one tick. *)
Inductive Call : Set :=
  | C_Offset | C_AdcProcess | C_SoftWareFault | C_UpdateController
  | C_Hallsensor_Observer | C_SpeedControl | C_Vref_GenControl
  | C_HallPosition_Test | C_PwmDutyUpt | C_PwmSwOn | C_OpenLoopControl
  | C_CurrentControl | C_VoltageOpenLoopControl
  | C_VoltageInjection_SquareWave | C_Align | C_PwmSwOff
  | C_ResetController.

(** A tick in progress: the globals and the calls made so far. *)
Definition Run : Type := (State * list Call)%type.

Definition call (c : Call) (f : State -> State) (r : Run) : Run :=
  (f (fst r), snd r ++ [c]).

Definition stmt (f : State -> State) (r : Run) : Run :=
  (f (fst r), snd r).

Definition truthy (z : Z) : bool := negb (z =? 0)%Z.

(** [ControlCnt++] and the four reads of the injected data registers. *)
Definition Control_latch (hw : HwInputs) (s : State) : State :=
  let s := set_ControlCnt (wrap32 (ControlCnt s + 1)) s in
  let latch i v s :=
    set_ADC (set_adc1Val (arr_set i (f32_of_Z v) (adc1Val (ADC s))) (ADC s))
      s in
  let s := latch 0%Z (JDR1 hw) s in
  let s := latch 1%Z (JDR2 hw) s in
  let s := latch 2%Z (JDR3 hw) s in
  latch 3%Z (JDR4 hw) s.

(** Calibration while [AdInitFlag] is clear, conversion after. *)
Definition Control_sample (hw : HwInputs) (r : Run) : Run :=
  let r := stmt (Control_latch hw) r in
  if truthy (AdInitFlag (ADC (fst r))) then call C_AdcProcess AdcProcess r
  else call C_Offset Offset r.

(** The software over-current protection. *)
Definition over_current (s : State) (x : InvF) : bool := ABS s.[x] >=? f_80.

Definition Control_protect (r : Run) : Run :=
  let r := if over_current (fst r) Ia
           then call C_SoftWareFault SoftWareFault r else r in
  let r := if over_current (fst r) Ib
           then call C_SoftWareFault SoftWareFault r else r in
  if over_current (fst r) Ic
  then call C_SoftWareFault SoftWareFault r else r.

(** [FLAG.INV_RUN = FLAG.INV_OLC = FLAG.INV_VOLC = 0;]
    [FLAG.INV_ALIGN = FLAG.INV_NLC = FLAG.TS_MODE = 0;] *)
Definition clear_mode_flags (s : State) : State :=
  let s := set_FLAG (set_INV_VOLC 0 (FLAG s)) s in
  let s := set_FLAG (set_INV_OLC 0 (FLAG s)) s in
  let s := set_FLAG (set_INV_RUN 0 (FLAG s)) s in
  let s := set_FLAG (set_TS_MODE 0 (FLAG s)) s in
  let s := set_FLAG (set_INV_NLC 0 (FLAG s)) s in
  set_FLAG (set_INV_ALIGN 0 (FLAG s)) s.

(** [FLAG.INV_RUN = FLAG.INV_OLC = FLAG.INV_VOLC = 0;]
    [FLAG.INV_ALIGN = FLAG.INV_NLC = FLAG.TS_MODE = FLAG.READY = 0;] *)
Definition clear_mode_flags_and_READY (s : State) : State :=
  let s := set_FLAG (set_INV_VOLC 0 (FLAG s)) s in
  let s := set_FLAG (set_INV_OLC 0 (FLAG s)) s in
  let s := set_FLAG (set_INV_RUN 0 (FLAG s)) s in
  let s := set_FLAG (set_READY 0 (FLAG s)) s in
  let s := set_FLAG (set_TS_MODE 0 (FLAG s)) s in
  let s := set_FLAG (set_INV_NLC 0 (FLAG s)) s in
  set_FLAG (set_INV_ALIGN 0 (FLAG s)) s.

(** The last [else] of the mode chain: ready, but no mode selected. *)
Definition stop_no_mode (r : Run) : Run :=
  let r := call C_PwmSwOff PwmSwOff r in
  let r := call C_PwmDutyUpt PwmDutyUpt r in
  let r := call C_ResetController ResetController r in
  stmt clear_mode_flags r.

(** The outer [else]: not ready, or faulted. *)
Definition stop_not_ready (r : Run) : Run :=
  let r := call C_PwmSwOff PwmSwOff r in
  let r := call C_PwmDutyUpt PwmDutyUpt r in
  let r := call C_ResetController ResetController r in
  stmt clear_mode_flags_and_READY r.

Definition duty_test (s : State) : State :=
  let s := s.[Duty_A <- LIMIT s.[Duty_A] f_0 f_0_95] in
  let s := s.[Duty_B <- LIMIT s.[Duty_B] f_0 f_0_95] in
  let s := s.[Duty_C <- LIMIT s.[Duty_C] f_0 f_0_95] in
  let s := s.[Duty_A <- f_0_2] in
  let s := s.[Duty_B <- f_0_3] in
  s.[Duty_C <- f_0_8].

Definition Control_dispatch (r : Run) : Run :=
  let F := FLAG (fst r) in
  if truthy (READY F) && negb (truthy (FAULT F)) then
    if truthy (INV_RUN F) then
      let r := call C_SpeedControl SpeedControl r in
      call C_Vref_GenControl Vref_GenControl r
    else if truthy (HALL_POS_TEST F) then
      let r := call C_HallPosition_Test HallPosition_Test r in
      let r := call C_PwmDutyUpt PwmDutyUpt r in
      let r := call C_PwmSwOn PwmSwOn r in
      stmt PWM_BUF_ON r
    else if truthy (DUTY_TEST F) then
      let r := stmt duty_test r in
      let r := call C_PwmDutyUpt PwmDutyUpt r in
      let r := call C_PwmSwOn PwmSwOn r in
      stmt PWM_BUF_ON r
    else if truthy (INV_OLC F) then
      let r := stmt (set_Theta_mode 1) r in
      let r := call C_OpenLoopControl OpenLoopControl r in
      call C_CurrentControl CurrentControl r
    else if truthy (INV_Vref_Gen F) then
      call C_Vref_GenControl Vref_GenControl r
    else if truthy (INV_VOLC F) then
      call C_VoltageOpenLoopControl VoltageOpenLoopControl r
    else if truthy (Param_Estimation F) then
      call C_VoltageInjection_SquareWave VoltageInjection_SquareWave r
    else if truthy (INV_ALIGN F) then
      call C_Align Align r
    else stop_no_mode r
  else stop_not_ready r.

(** The state in which the mode chain is entered. *)
Definition Control_prepare (hw : HwInputs) (s : State) : Run :=
  let r := Control_sample hw (s, []) in
  let r := Control_protect r in
  let r := call C_UpdateController UpdateController r in
  call C_Hallsensor_Observer (Hallsensor_Observer hw) r.

Definition Control_run (hw : HwInputs) (s : State) : Run :=
  Control_dispatch (Control_prepare hw s).

(** [Control]: the globals after the tick, and the calls it made. *)
Definition Control (hw : HwInputs) (s : State) : State :=
  fst (Control_run hw s).

Definition Control_calls (hw : HwInputs) (s : State) : list Call :=
  snd (Control_run hw s).

(** ** Extended-EMF observer (speed_observer.c) *)

(** [EXT_SS_Sync] up to the integration of the current model. *)
Definition EXT_SS_Sync_model (EXT : EXT_Sensorless)
  (Vdss Vqss Idss Iqss : f32) : EXT_Sensorless :=
  let EXT := ewr Kpd_EXT (EXT Ld_hat * EXT Wec) EXT in
  let EXT := ewr Kid_EXT (EXT Rs_hat * EXT Wec) EXT in
  let EXT := ewr Kpq_EXT (EXT Ld_hat * EXT Wec) EXT in
  let EXT := ewr Kiq_EXT (EXT Rs_hat * EXT Wec) EXT in
  let EXT := ewr Sin_Thetar_EXT (sinf (EXT Thetar_EXT)) EXT in
  let EXT := ewr Cos_Thetar_EXT (cosf (EXT Thetar_EXT)) EXT in
  let EXT := ewr Vdss_ref_EXT ((EXT Vdss_ref_old + Vdss) * f_0_5) EXT in
  let EXT := ewr Vqss_ref_EXT ((EXT Vqss_ref_old + Vqss) * f_0_5) EXT in
  let EXT := ewr Vdss_ref_old Vdss EXT in
  let EXT := ewr Vqss_ref_old Vqss EXT in
  let EXT := ewr Vdse_ref_EXT
      (EXT Vdss_ref_EXT * EXT Cos_Thetar_EXT
       + EXT Vqss_ref_EXT * EXT Sin_Thetar_EXT) EXT in
  let EXT := ewr Vqse_ref_EXT
      (EXT Vdss_ref_EXT * (- EXT Sin_Thetar_EXT)
       + EXT Vqss_ref_EXT * EXT Cos_Thetar_EXT) EXT in
  let EXT := ewr Idse_EXT
      (Idss * EXT Cos_Thetar_EXT + Iqss * EXT Sin_Thetar_EXT) EXT in
  let EXT := ewr Iqse_EXT
      (Idss * (- EXT Sin_Thetar_EXT) + Iqss * EXT Cos_Thetar_EXT) EXT in
  let EXT := ewr Err_Idse_EXT (EXT Idse_EXT - EXT Idse_EXT_est) EXT in
  let EXT := ewr Err_Iqse_EXT (EXT Iqse_EXT - EXT Iqse_EXT_est) EXT in
  let EXT := ewr integ_Idse_EXT_est
      (EXT integ_Idse_EXT_est + Tsamp * EXT Kid_EXT * EXT Err_Idse_EXT)
      EXT in
  let EXT := ewr integ_Iqse_EXT_est
      (EXT integ_Iqse_EXT_est + Tsamp * EXT Kiq_EXT * EXT Err_Iqse_EXT)
      EXT in
  let EXT := ewr EEMFd_est
      (- (EXT Err_Idse_EXT * EXT Kpd_EXT + EXT integ_Idse_EXT_est)) EXT in
  let EXT := ewr EEMFq_est
      (- (EXT Err_Iqse_EXT * EXT Kpq_EXT + EXT integ_Iqse_EXT_est)) EXT in
  let EXT := ewr Vdse_FF_EXT
      (EXT Vdse_ref_EXT + EXT Wr_EXT * EXT Lq_hat * EXT Iqse_EXT) EXT in
  let EXT := ewr Vqse_FF_EXT
      (EXT Vqse_ref_EXT - EXT Wr_EXT * EXT Lq_hat * EXT Idse_EXT) EXT in
  let EXT := ewr Idse_EXT_est
      (EXT Idse_EXT_est + EXT INV_Ld_hat * Tsamp
         * (EXT Vdse_FF_EXT - EXT EEMFd_est - EXT Rs_hat * EXT Idse_EXT))
      EXT in
  ewr Iqse_EXT_est
      (EXT Iqse_EXT_est + EXT INV_Ld_hat * Tsamp
         * (EXT Vqse_FF_EXT - EXT EEMFq_est - EXT Rs_hat * EXT Iqse_EXT))
      EXT.

(** [if (fabs(EXT->EEMFq_est) < 1.f) EXT->EEMFq_est = 1.f;] *)
Definition EXT_SS_Sync_guard (EXT : EXT_Sensorless) : EXT_Sensorless :=
  if fabs (EXT EEMFq_est) <? f_1 then ewr EEMFq_est f_1 EXT else EXT.

(** The position error and the two saved angles. *)
Definition EXT_SS_Sync_error (EXT : EXT_Sensorless) : EXT_Sensorless :=
  let EXT := ewr Err_Thetar_EXT
      (atan2f (- EXT EEMFd_est) (EXT EEMFq_est)) EXT in
  let EXT := ewr Thetar_EXT_old (EXT Thetar_EXT) EXT in
  ewr Thetarm_EXT_old (EXT Thetarm_EXT) EXT.

Definition EXT_SS_Sync (EXT : EXT_Sensorless)
  (Vdss Vqss Idss Iqss : f32) : EXT_Sensorless :=
  EXT_SS_Sync_error
    (EXT_SS_Sync_guard (EXT_SS_Sync_model EXT Vdss Vqss Idss Iqss)).

End Regulators.

(* ================================================================== *)
(** * A concrete platform and the power-on state *)
(* ================================================================== *)

(** Modelled from the spec: the control period [Tsamp] (its macro is in a
    header that is not among the sources): 100 us, the period of the TIM2
    interrupt that calls [Control]. *)
Definition Tsamp_100us : f32 := f32_lit 1 10000.

(** A platform on which the model can be evaluated. [Tsamp] is the
    100 us period; the other constants are single-precision roundings of
    pi/30, 30/pi, 1/3, 1/sqrt 3, sqrt 3/2 and pi/3; the angle helpers
    and the libm functions are low-order approximations. Nothing that
    is proved for every platform depends on these choices. *)
Definition pi_f : f32 := f32_lit 355 113.

Definition bound_pi (x : f32) : f32 :=
  if (x >? pi_f)%f32 then (x - f_2 * pi_f)%f32
  else if (x <? - pi_f)%f32 then (x + f_2 * pi_f)%f32
  else x.

Definition cos_poly (x2 : f32) : f32 :=
  (f_1 - x2 * f_0_5 + x2 * x2 * f32_lit 1 24)%f32.

Definition sin_poly (x x2 : f32) : f32 :=
  (x * (f_1 - x2 * f32_lit 1 6 + x2 * x2 * f32_lit 1 120))%f32.

Definition atan_approx (x : f32) : f32 :=
  (x / (f_1 + f32_lit 28 100 * x * x))%f32.

Definition atan2_approx (y x : f32) : f32 :=
  if (x >? f_0)%f32 then atan_approx (y / x)
  else if (x <? f_0)%f32 then
    (if (y <? f_0)%f32 then atan_approx (y / x) - pi_f
     else atan_approx (y / x) + pi_f)%f32
  else if (y >? f_0)%f32 then (pi_f * f_0_5)%f32
  else if (y <? f_0)%f32 then (- (pi_f * f_0_5))%f32
  else (y + x)%f32.

Definition bench : Platform := {|
  Tsamp := Tsamp_100us;
  RPM2RM := f32_lit 355 3390;
  RM2RPM := f32_lit 3390 355;
  Rm2Rpm := f32_lit 3390 355;
  INV_3 := f32_lit 1 3;
  INV_SQRT3 := f32_lit 57735 100000;
  SQRT3HALF := f32_lit 866025 1000000;
  PIOF3 := f32_lit 355 339;
  BOUND_PI := bound_pi;
  COS := cos_poly;
  SIN := sin_poly;
  atanf := atan_approx;
  sinf := fun x => sin_poly x (x * x)%f32;
  cosf := fun x => cos_poly (x * x)%f32;
  atan2f := atan2_approx
|}.

(** The globals as their initialisers leave them: everything zero, the
    current offsets at mid-scale, unit gains. *)
Definition FLAG_init : CONTROL_FLAG :=
  {| READY := 0; FAULT := 0; FAULT_CLEAR := 0; INV_RUN := 0; INV_OLC := 0;
     INV_VOLC := 0; INV_Vref_Gen := 0; INV_ALIGN := 0; INV_NLC := 0;
     TS_MODE := 0; TS_MODE_STOP := 0; DUTY_TEST := 0;
     Param_Estimation := 0; HALL_POS_TEST := 0 |}.

Definition ADC_init : ADC_VARS :=
  {| AdInitFlag := 0;
     adc1Val := fun _ => f_0;
     ADC1_Result := fun _ => f_0;
     ADC1_Offset := fun _ => f32_of_Z 2048;
     ADC1_Offset_sum := fun _ => 0;
     scale_comp := f_1;
     ADCgain := fun _ => f_1;
     Ia_arr := fun _ => f_0;
     store_cnt := 0;
     store_flag := 0;
     AdOffCalcCnt := 0;
     AdDummyCnt := 0 |}.

Definition power_on : State :=
  {| FLAG := FLAG_init;
     FLTVAL := {| FLT_Vdc := f_0; FLT_Idc := f_0; FLT_Ia := f_0;
                  FLT_Ib := f_0; FLT_Ic := f_0; FLT_Wrpm := f_0 |};
     FaultCnt := 0;
     INV := {| fld := fun _ => f_0; hall_a := GPIO_PIN_RESET;
               hall_b := GPIO_PIN_RESET; hall_c := GPIO_PIN_RESET;
               hall_state := 0; duty_state := 0 |};
     EXT_1 := fun _ => f_0;
     ADC := ADC_init;
     TIM1 := {| ARR := 4200; CCR1 := 0; CCR2 := 0; CCR3 := 0;
                CH1 := false; CH1N := false; CH2 := false; CH2N := false;
                CH3 := false; CH3N := false |};
     PWM_BUF := false;
     ControlCnt := 0;
     Theta_mode := 0;
     Align_done := 0;
     Mode_align := 0;
     Time_align := f_0;
     cnt_inj := 0;
     Van := f_0; Vbn := f_0; Vcn := f_0;
     Vdss_ref_set := f_0; Vqss_ref_set := f_0 |}.

(** Mid-scale samples on every channel, all Hall inputs low. *)
Definition quiet : HwInputs :=
  {| JDR1 := 2048; JDR2 := 2048; JDR3 := 2048; JDR4 := 2048;
     PC6 := GPIO_PIN_RESET; PC7 := GPIO_PIN_RESET; PD2 := GPIO_PIN_RESET |}.

(* ================================================================== *)
(** * Vocabulary of the properties *)
(* ================================================================== *)

(** ** What the regulators leave alone

    The regulators and the PWM helpers write members of [INV], the TIM1
    registers, the buffer line, the injection counter and the published
    phase voltages; the globals below are out of their reach. *)
Definition regulator_frame (s s' : State) : Prop :=
  FLAG s' = FLAG s /\ FLTVAL s' = FLTVAL s /\ FaultCnt s' = FaultCnt s /\
  ADC s' = ADC s /\ EXT_1 s' = EXT_1 s /\ ControlCnt s' = ControlCnt s /\
  Theta_mode s' = Theta_mode s /\ Align_done s' = Align_done s /\
  Mode_align s' = Mode_align s /\ Time_align s' = Time_align s.

Definition keeps (f : State -> State) : Prop :=
  forall s, regulator_frame s (f s).

(** What neither the sampling nor the calibration writes. *)
Definition sampling_frame (s s' : State) : Prop :=
  FLAG s' = FLAG s /\ FLTVAL s' = FLTVAL s /\ FaultCnt s' = FaultCnt s /\
  EXT_1 s' = EXT_1 s /\ TIM1 s' = TIM1 s /\ PWM_BUF s' = PWM_BUF s /\
  Theta_mode s' = Theta_mode s /\ Align_done s' = Align_done s /\
  Mode_align s' = Mode_align s /\ Time_align s' = Time_align s /\
  cnt_inj s' = cnt_inj s.

(** What no branch of the mode chain writes. *)
Definition mode_frame (s s' : State) : Prop :=
  FAULT (FLAG s') = FAULT (FLAG s) /\ FLTVAL s' = FLTVAL s /\
  FaultCnt s' = FaultCnt s /\ ADC s' = ADC s /\ EXT_1 s' = EXT_1 s /\
  ControlCnt s' = ControlCnt s.

(** ** Fault monitor *)

(** The duties cleared, and the six outputs stopped. *)
Definition INV_duties_off (i : INVERTER) : INVERTER :=
  set_fld
    (upd InvF_eqb Duty_C f_0
       (upd InvF_eqb Duty_B f_0 (upd InvF_eqb Duty_A f_0 (fld i)))) i.

Definition TIM1_stopped (t : TIM1_HW) : TIM1_HW :=
  {| ARR := ARR t; CCR1 := CCR1 t; CCR2 := CCR2 t; CCR3 := CCR3 t;
     CH1 := false; CH1N := false; CH2 := false; CH2N := false;
     CH3 := false; CH3N := false |}.

(** The fault code a software fault leaves: hardware (1) stays. *)
Definition software_fault_code (code : Z) : Z :=
  if (code =? 1)%Z then code else 2%Z.

Definition duties_zero (s : State) : Prop :=
  s.[Duty_A] = f_0 /\ s.[Duty_B] = f_0 /\ s.[Duty_C] = f_0.

Definition same_INV (i i' : INVERTER) : Prop :=
  (forall x, fld i' x = fld i x) /\
  hall_a i' = hall_a i /\ hall_b i' = hall_b i /\ hall_c i' = hall_c i /\
  hall_state i' = hall_state i /\ duty_state i' = duty_state i.

(** Everything but the flags, the snapshot and the counter. *)
Definition same_outside_fault_monitor (s s' : State) : Prop :=
  same_INV (INV s) (INV s') /\ EXT_1 s' = EXT_1 s /\ ADC s' = ADC s /\
  TIM1 s' = TIM1 s /\ PWM_BUF s' = PWM_BUF s /\
  ControlCnt s' = ControlCnt s /\ Theta_mode s' = Theta_mode s /\
  Align_done s' = Align_done s /\ Mode_align s' = Mode_align s /\
  Time_align s' = Time_align s /\ cnt_inj s' = cnt_inj s /\
  Van s' = Van s /\ Vbn s' = Vbn s /\ Vcn s' = Vcn s /\
  Vdss_ref_set s' = Vdss_ref_set s /\ Vqss_ref_set s' = Vqss_ref_set s.

(** Two states that agree on everything but the fault counter. *)
Definition same_except_FaultCnt (s s' : State) : Prop :=
  FLAG s' = FLAG s /\ FLTVAL s' = FLTVAL s /\ same_outside_fault_monitor s s'.

(** How many of the three phase currents are at or above 80 A. *)
Definition trips (s : State) : nat :=
  ((if over_current s Ia then 1 else 0)
   + (if over_current s Ib then 1 else 0)
   + (if over_current s Ic then 1 else 0))%nat.

(** A state with phase A at 100 A, and one with phases A and B. *)
Definition one_phase_over : State := power_on.[Ia <- f32_of_Z 100].
Definition two_phases_over : State :=
  power_on.[Ia <- f32_of_Z 100].[Ib <- f32_of_Z 100].

(** What can happen to the globals: a tick, the fault pin interrupt, or
    a write by the external channel that satisfies [ext]. *)
Inductive history {P : Platform} (ext : State -> State -> Prop) :
  State -> State -> Prop :=
  | history_nil (s : State) : history ext s s
  | history_tick (hw : HwInputs) (s s' : State) :
      history ext s s' -> history ext s (Control hw s')
  | history_fault_pin (s s' : State) :
      history ext s s' -> history ext s (HAL_GPIO_EXTI_Callback s')
  | history_software_fault (s s' : State) :
      history ext s s' -> history ext s (SoftWareFault s')
  | history_external (s s' s'' : State) :
      history ext s s' -> ext s' s'' -> history ext s s''.

(** An external write that is not a fault clear. *)
Definition leaves_fault_code (s s' : State) : Prop :=
  FAULT (FLAG s') = FAULT (FLAG s).

(** An external write that does not touch the angle selector. *)
Definition leaves_Theta_mode (s s' : State) : Prop :=
  Theta_mode s' = Theta_mode s.

(** ** Calibration *)

(** The state after the first [n] ticks; tick [k] reads [hw k]. *)
Fixpoint ticks {P : Platform} (hw : nat -> HwInputs) (n : nat) (s : State)
  : State :=
  match n with
  | O => s
  | S k => Control (hw (S k)) (ticks hw k s)
  end.

Definition raw_code (h : HwInputs) (c : Z) : Z :=
  if (c =? 0)%Z then JDR1 h
  else if (c =? 1)%Z then JDR2 h
  else if (c =? 2)%Z then JDR3 h
  else JDR4 h.

(** The register values of a 12-bit conversion. *)
Definition twelve_bit (h : HwInputs) : Prop :=
  (0 <= JDR1 h <= 4095 /\ 0 <= JDR2 h <= 4095 /\
   0 <= JDR3 h <= 4095 /\ 0 <= JDR4 h <= 4095)%Z.

(** The sum of the codes of channel [c] over ticks [a+1 .. a+n]. *)
Fixpoint code_sum (hw : nat -> HwInputs) (c : Z) (a n : nat) : Z :=
  match n with
  | O => 0%Z
  | S k => (code_sum hw c a k + raw_code (hw (a + S k)%nat) c)%Z
  end.

(** The arithmetic mean of [n] codes, in single precision: the total
    converted to [float] and divided by the count. *)
Definition mean_f32 (total n : Z) : f32 := f32_of_Z total / f32_of_Z n.

(** Calibration has not started. *)
Definition calibration_start (s : State) : Prop :=
  AdInitFlag (ADC s) = 0%Z /\ AdDummyCnt (ADC s) = 0%Z /\
  AdOffCalcCnt (ADC s) = 0%Z /\
  ADC1_Offset_sum (ADC s) 0%Z = 0%Z /\ ADC1_Offset_sum (ADC s) 1%Z = 0%Z /\
  ADC1_Offset_sum (ADC s) 2%Z = 0%Z.

Definition settling_ticks : nat := Z.to_nat 5000.
Definition averaging_ticks : nat := Z.to_nat 5000.
Definition calibration_ticks : nat := Z.to_nat 10000.

(** The calls of one tick that are [Offset] or [AdcProcess]. *)
Definition sampling_calls (l : list Call) : list Call :=
  filter (fun c => match c with
                   | C_Offset | C_AdcProcess => true
                   | _ => false
                   end) l.

(** ** Square-wave injection *)

(** The d-axis voltage reference of the [k+1]-th injection tick. *)
Definition injected_Vd {P : Platform} (s : State) (k : nat) : f32 :=
  (Nat.iter (S k) VoltageInjection_SquareWave s).[Vdsr_ref_unsat].

(** A wave that holds each polarity for two ticks repeats its value
    somewhere in any three consecutive ticks. *)
Definition two_tick_dwell (v : nat -> f32) : Prop :=
  forall k, v k = v (S k) \/ v (S k) = v (S (S k)).

(** ** Mode selection *)

Inductive Mode : Set :=
  | M_closed_loop | M_hall_test | M_duty_test | M_open_loop_current
  | M_vref_gen | M_voltage_open_loop | M_param_estimation | M_align
  | M_no_mode | M_not_ready.

(** The flag that requests a mode. *)
Definition mode_flag (m : Mode) (F : CONTROL_FLAG) : Z :=
  match m with
  | M_closed_loop => INV_RUN F
  | M_hall_test => HALL_POS_TEST F
  | M_duty_test => DUTY_TEST F
  | M_open_loop_current => INV_OLC F
  | M_vref_gen => INV_Vref_Gen F
  | M_voltage_open_loop => INV_VOLC F
  | M_param_estimation => Param_Estimation F
  | M_align => INV_ALIGN F
  | M_no_mode | M_not_ready => 0%Z
  end.

(** The priority order of the specification. *)
Definition mode_priority : list Mode :=
  [ M_closed_loop; M_hall_test; M_duty_test; M_open_loop_current;
    M_vref_gen; M_voltage_open_loop; M_param_estimation; M_align ].

(** First match wins; safe stop when nothing matches or the system is
    not ready or faulted. *)
Definition select_mode (F : CONTROL_FLAG) : Mode :=
  if truthy (READY F) && negb (truthy (FAULT F)) then
    match find (fun m => truthy (mode_flag m F)) mode_priority with
    | Some m => m
    | None => M_no_mode
    end
  else M_not_ready.

(** What each mode runs. *)
Definition run_mode {P : Platform} (m : Mode) (r : Run) : Run :=
  match m with
  | M_closed_loop =>
      call C_Vref_GenControl Vref_GenControl
        (call C_SpeedControl SpeedControl r)
  | M_hall_test =>
      stmt PWM_BUF_ON
        (call C_PwmSwOn PwmSwOn
           (call C_PwmDutyUpt PwmDutyUpt
              (call C_HallPosition_Test HallPosition_Test r)))
  | M_duty_test =>
      stmt PWM_BUF_ON
        (call C_PwmSwOn PwmSwOn
           (call C_PwmDutyUpt PwmDutyUpt (stmt duty_test r)))
  | M_open_loop_current =>
      call C_CurrentControl CurrentControl
        (call C_OpenLoopControl OpenLoopControl
           (stmt (set_Theta_mode 1) r))
  | M_vref_gen => call C_Vref_GenControl Vref_GenControl r
  | M_voltage_open_loop =>
      call C_VoltageOpenLoopControl VoltageOpenLoopControl r
  | M_param_estimation =>
      call C_VoltageInjection_SquareWave VoltageInjection_SquareWave r
  | M_align => call C_Align Align r
  | M_no_mode => stop_no_mode r
  | M_not_ready => stop_not_ready r
  end.

(** A ready state with both the closed-loop and the open-loop current
    mode requested. *)
Definition run_and_olc_requested : State :=
  set_FLAG (set_INV_OLC 1 (set_INV_RUN 1 (set_READY 1 FLAG_init)))
    (set_ADC (set_AdInitFlag 1 ADC_init) power_on).

(** ** Alignment sequencer *)

(** The sequencer's own variables: the step and the clock. One tick of
    [Align] on them. *)
Definition Align_clock {P : Platform} (mt : Z * f32) : Z * f32 :=
  let (m, t) := mt in
  if (m =? 0)%Z then (1%Z, f_0 + Tsamp)
  else if (m =? 1)%Z then (if t >=? f_4 then 2%Z else 1%Z, t + Tsamp)
  else if (m =? 2)%Z then (if t >=? f_5 then 3%Z else 2%Z, t + Tsamp)
  else if (m =? 3)%Z then (0%Z, t + Tsamp)
  else (m, t + Tsamp).

(** The clock stays below [limit] for [n] ticks in a row; the result is
    the clock after them. *)
Fixpoint waits {P : Platform} (limit : f32) (n : nat) (t : f32)
  : option f32 :=
  match n with
  | O => Some t
  | S k => if t >=? limit then None else waits limit k (t + Tsamp)
  end.

(** ** Extended-EMF observer *)

Definition EXT_zero : EXT_Sensorless := fun _ => f_0.


(** ** The stages of one tick *)

(** The globals at the protection check: after the sampling. *)
Definition at_check (hw : HwInputs) (s : State) : State :=
  fst (Control_sample hw (s, [])).

(** The globals when the mode chain is entered. *)
Definition at_dispatch {P : Platform} (hw : HwInputs) (s : State) : State :=
  fst (Control_prepare hw s).

(** A state in which a hardware fault is latched. *)
Definition hardware_faulted : State := HardWareFault power_on.

(** A calibrated, ready state with the open-loop current mode
    requested, the state one tick later, and a request of the
    closed-loop mode written by the external channel. *)
Definition olc_requested : State :=
  set_FLAG (set_INV_OLC 1 (set_READY 1 FLAG_init))
    (set_ADC (set_AdInitFlag 1 ADC_init) power_on).

Definition after_olc_tick : State := Control (P := bench) quiet olc_requested.

Definition request_run (s : State) : State :=
  set_FLAG (set_INV_RUN 1 (FLAG s)) s.

(** ** Safe stop *)

(** The mode-select flags both stop branches clear. *)
Definition mode_flags_clear (F : CONTROL_FLAG) : Prop :=
  INV_RUN F = 0%Z /\ INV_OLC F = 0%Z /\ INV_VOLC F = 0%Z /\
  INV_ALIGN F = 0%Z /\ INV_NLC F = 0%Z /\ TS_MODE F = 0%Z.

(** The three compare registers of TIM1 at zero. *)
Definition compare_zero (s : State) : Prop :=
  CCR1 (TIM1 s) = 0%Z /\ CCR2 (TIM1 s) = 0%Z /\ CCR3 (TIM1 s) = 0%Z.

(** What both stop branches do before they clear the flags. *)
Definition halted (s : State) : State :=
  ResetController (PwmDutyUpt (PwmSwOff s)).

Definition stop_calls : list Call :=
  [C_PwmSwOff; C_PwmDutyUpt; C_ResetController].

(** A state with every mode requested and [READY] clear. *)
Definition all_modes_not_ready : State :=
  set_FLAG
    {| READY := 0; FAULT := 0; FAULT_CLEAR := 0; INV_RUN := 1; INV_OLC := 1;
       INV_VOLC := 1; INV_Vref_Gen := 1; INV_ALIGN := 1; INV_NLC := 1;
       TS_MODE := 1; TS_MODE_STOP := 1; DUTY_TEST := 1;
       Param_Estimation := 1; HALL_POS_TEST := 1 |}
    (set_PWM_BUF true
       (set_ADC (set_AdInitFlag 1 ADC_init) power_on)
         .[Duty_A <- f_0_5].[Duty_B <- f_0_5].[Duty_C <- f_0_5]).

(** The observer at rest but for an inductance estimate and a bandwidth
    of 2^100 each: both finite, their product is not. *)
Definition EXT_overflowing : EXT_Sensorless :=
  ewr Wec (f32_of_Z (2 ^ 100)) (ewr Ld_hat (f32_of_Z (2 ^ 100)) EXT_zero).

(** What the guard of [EXT_SS_Sync] makes of a value. *)
Definition guarded (x : f32) : f32 :=
  if (fabs x <? f_1)%f32 then f_1 else x.

(** The step of the sequencer after tick [k] of an alignment whose
    clock stays below 4 for [n1] checks and then below 5 for [n2]
    checks: step 1 from tick 1, step 2 from tick [n1 + 2], step 3 at
    tick [n1 + n2 + 3] and step 0 again at tick [n1 + n2 + 4]. *)
Definition Align_schedule (n1 n2 k : nat) : Z :=
  if (k <=? n1 + 1)%nat then 1%Z
  else if (k <=? n1 + n2 + 2)%nat then 2%Z
  else if (k <=? n1 + n2 + 3)%nat then 3%Z
  else 0%Z.

(** A ready state with the alignment requested and an alignment
    current of 2 A. *)
Definition align_requested : State :=
  (set_FLAG (set_INV_ALIGN 1 (set_READY 1 FLAG_init)) power_on)
    .[Idsr_align <- f_2].

(** The number of checks the clock of the bench platform fails in
    step 1 and in step 2, and the clock at the checks it passes. *)
Definition bench_n1 : nat := Z.to_nat 40018.
Definition bench_n2 : nat := Z.to_nat 9985.

Definition bench_t1 : f32 :=
  Eval vm_compute in
    match waits (P := bench) f_4 bench_n1 (f_0 + Tsamp_100us) with
    | Some t => t
    | None => f_0
    end.

Definition bench_t2 : f32 :=
  Eval vm_compute in
    match waits (P := bench) f_5 bench_n2 (bench_t1 + Tsamp_100us) with
    | Some t => t
    | None => f_0
    end.

(** ** Calibration, tick by tick *)

(** The globals of adc.c after [n] ticks of a calibration that reads
    [hw]: the flag, the two counters, the three sums and, at the last
    tick, the three offsets. *)
Definition calibrating (hw : nat -> HwInputs) (n : nat) (a : ADC_VARS)
  : Prop :=
  AdInitFlag a = (if (n <? calibration_ticks)%nat then 0%Z else 1%Z) /\
  AdDummyCnt a = Z.of_nat (Nat.min n settling_ticks) /\
  AdOffCalcCnt a = Z.of_nat (n - settling_ticks) /\
  (forall c, (0 <= c <= 2)%Z ->
     ADC1_Offset_sum a c
     = code_sum hw c settling_ticks (n - settling_ticks)) /\
  (n = calibration_ticks ->
   forall c, (0 <= c <= 2)%Z ->
     ADC1_Offset a c
     = mean_f32 (code_sum hw c settling_ticks averaging_ticks) 5000).
(* ================================================================== *)
(** * More of the sources: observers, initialisation, vocabulary *)
(* ================================================================== *)

Local Open Scope f32_scope.

(** ** [struct SPEED_OBSERVER] (speed_observer.c): one name per member *)

Module SPDOBS.

Inductive F : Set :=
  | Thetarm_est | Thetar_est | Wrm_est | Wr_est | Wrm_est_fb | PP | INV_PP
  | Ld_hat | Lq_hat | Lamf_hat | Jm_hat | Bm_hat | INV_Jm_hat | Wso | l1
  | l2 | l3 | K1 | K2 | K3 | Thetarm_err | Wrm_err | Te_est | Tl_est
  | Te_ff | integ_double | integ_Wrm_est | Tload_est.

Definition idx (x : F) : positive :=
  match x with
  | Thetarm_est => 1 | Thetar_est => 2 | Wrm_est => 3 | Wr_est => 4
  | Wrm_est_fb => 5 | PP => 6 | INV_PP => 7 | Ld_hat => 8 | Lq_hat => 9
  | Lamf_hat => 10 | Jm_hat => 11 | Bm_hat => 12 | INV_Jm_hat => 13
  | Wso => 14 | l1 => 15 | l2 => 16 | l3 => 17 | K1 => 18 | K2 => 19
  | K3 => 20 | Thetarm_err => 21 | Wrm_err => 22 | Te_est => 23
  | Tl_est => 24 | Te_ff => 25 | integ_double => 26 | integ_Wrm_est => 27
  | Tload_est => 28
  end%positive.

Definition eqb (x y : F) : bool := Pos.eqb (idx x) (idx y).

End SPDOBS.

Definition SPEED_OBSERVER : Type := SPDOBS.F -> f32.

(** Writing a member of [SPEED_OBSERVER]. *)
Definition owr (x : SPDOBS.F) (v : f32) (o : SPEED_OBSERVER)
  : SPEED_OBSERVER :=
  upd SPDOBS.eqb x v o.

(** The literals of these functions. *)
Definition f_3000 : f32 := f32_of_Z 3000.

Section Observers.

Context {P : Platform}.

(** The statements the two observers share, up to the integration of
    the speed. *)
Definition SpeedObserver_torque (o : SPEED_OBSERVER)
  (Err_Thetar Idse_ff Iqse_ff : f32) : SPEED_OBSERVER :=
  let o := owr SPDOBS.Thetarm_err (Err_Thetar * o SPDOBS.INV_PP) o in
  let o := owr SPDOBS.Te_est (o SPDOBS.K2 * o SPDOBS.Thetarm_err) o in
  let o := owr SPDOBS.Tl_est
      (o SPDOBS.Tl_est + o SPDOBS.K3 * o SPDOBS.Thetarm_err * Tsamp) o in
  let o := owr SPDOBS.Te_ff
      (f_1_5 * o SPDOBS.PP
       * (o SPDOBS.Lamf_hat * Iqse_ff
          + (o SPDOBS.Ld_hat - o SPDOBS.Lq_hat) * Idse_ff * Iqse_ff)) o in
  owr SPDOBS.integ_Wrm_est
      (o SPDOBS.integ_Wrm_est
       + (o SPDOBS.Te_est + o SPDOBS.Te_ff + o SPDOBS.Tl_est
          - o SPDOBS.Bm_hat * o SPDOBS.Wrm_est_fb)
         * o SPDOBS.INV_Jm_hat * Tsamp) o.

(** The statements they end with. *)
Definition SpeedObserver_angles (o : SPEED_OBSERVER) : SPEED_OBSERVER :=
  let o := owr SPDOBS.Thetarm_est (BOUND_PI (o SPDOBS.Thetarm_est)) o in
  let o := owr SPDOBS.Thetar_est
      (BOUND_PI (o SPDOBS.PP * o SPDOBS.Thetarm_est)) o in
  owr SPDOBS.Tload_est (- o SPDOBS.Tl_est) o.

Definition SpeedObserver_4_34 (SPDOBS : SPEED_OBSERVER)
  (Err_Thetar Idse_ff Iqse_ff : f32) : SPEED_OBSERVER :=
  let o := SpeedObserver_torque SPDOBS Err_Thetar Idse_ff Iqse_ff in
  let o := owr SPDOBS.Wrm_est (o SPDOBS.integ_Wrm_est) o in
  let o := owr SPDOBS.Wrm_est_fb (o SPDOBS.integ_Wrm_est) o in
  let o := owr SPDOBS.Wr_est (o SPDOBS.Wrm_est * o SPDOBS.PP) o in
  let o := owr SPDOBS.Thetarm_est
      (o SPDOBS.Thetarm_est
       + (o SPDOBS.Wrm_est + o SPDOBS.K1 * o SPDOBS.Thetarm_err) * Tsamp)
      o in
  SpeedObserver_angles o.

Definition SpeedObserver_4_35 (SPDOBS : SPEED_OBSERVER)
  (Err_Thetar Idse_ff Iqse_ff : f32) : SPEED_OBSERVER :=
  let o := SpeedObserver_torque SPDOBS Err_Thetar Idse_ff Iqse_ff in
  let o := owr SPDOBS.Wrm_est
      (o SPDOBS.integ_Wrm_est + o SPDOBS.K1 * o SPDOBS.Thetarm_err) o in
  let o := owr SPDOBS.Wrm_est_fb (o SPDOBS.integ_Wrm_est) o in
  let o := owr SPDOBS.Wr_est (o SPDOBS.Wrm_est * o SPDOBS.PP) o in
  let o := owr SPDOBS.Thetarm_est
      (o SPDOBS.Thetarm_est + o SPDOBS.Wrm_est * Tsamp) o in
  SpeedObserver_angles o.

(** One sample of an observer: the position error and the two
    feed-forward currents. *)
Definition ObsInput : Type := (f32 * f32 * f32)%type.

(** An observer run over a sequence of samples, oldest first. *)
Definition observe
  (step : SPEED_OBSERVER -> f32 -> f32 -> f32 -> SPEED_OBSERVER)
  (o : SPEED_OBSERVER) (inputs : list ObsInput) : SPEED_OBSERVER :=
  fold_left (fun o '(e, id, iq) => step o e id iq) inputs o.

(** ** Initialisation of the speed regulator (inv.c) *)

Definition InitSpeedController (Wsc_arg zeta : f32) (s : State) : State :=
  let s := s.[Wsc <- Wsc_arg] in
  let s := s.[zeta_sc <- zeta] in
  let s := s.[Kp_sc <- s.[Jm] * s.[Wsc]] in
  let s := s.[Ki_scale <- f_0_25] in
  let s := s.[Ki_sc <- s.[Kp_sc] * s.[Wsc] * s.[Ki_scale]] in
  let s := s.[Ka_sc <- f_1 / fmaxf s.[Kp_sc] f_1em9] in
  let s := s.[Wrpm <- f_0] in
  let s := s.[Wrm <- f_0] in
  let s := s.[Wr <- f_0] in
  let s := s.[Wrpm_ref_set <- f_0] in
  let s := s.[Wrm_ref_set <- f_0] in
  let s := s.[Wrpm_ref <- f_0] in
  let s := s.[Wrm_ref <- f_0] in
  let s := s.[dWrm <- f_3000 * RPM2RM * Tsamp] in
  let s := s.[Wrm_err <- f_0] in
  let s := s.[Te_ref_integ <- f_0] in
  let s := s.[Te_ref_ff <- f_0] in
  let s := s.[Te_ref_unsat <- f_0] in
  let s := s.[Te_ref <- f_0] in
  s.[Te_ref_aw <- f_0].

End Observers.

(** ** Initialisation of the extended-EMF observer (speed_observer.c) *)

Definition initExtended_Sensorless_Synchronous_Frame (EXT : EXT_Sensorless)
  (Wc Rs_arg Ld_arg Lq_arg : f32) : EXT_Sensorless :=
  let EXT := ewr Rs_hat Rs_arg EXT in
  let EXT := ewr Ld_hat Ld_arg EXT in
  let EXT := ewr Lq_hat Lq_arg EXT in
  let EXT := ewr INV_Ld_hat (f_1 / Ld_arg) EXT in
  let EXT := ewr k_debug f_1 EXT in
  let EXT := ewr Wec (f_1 * Wc) EXT in
  let EXT := ewr Kpd_EXT (EXT Ld_hat * EXT Wec) EXT in
  let EXT := ewr Kid_EXT (EXT Rs_hat * EXT Wec) EXT in
  let EXT := ewr Kpq_EXT (EXT Ld_hat * EXT Wec) EXT in
  let EXT := ewr Kiq_EXT (EXT Rs_hat * EXT Wec) EXT in
  let EXT := ewr Vdss_ref_EXT f_0 EXT in
  let EXT := ewr Vqss_ref_EXT f_0 EXT in
  let EXT := ewr Vdss_ref_old f_0 EXT in
  let EXT := ewr Vqss_ref_old f_0 EXT in
  let EXT := ewr Err_Thetar_EXT f_0 EXT in
  let EXT := ewr Wr_EXT f_0 EXT in
  let EXT := ewr Thetar_EXT f_0 EXT in
  let EXT := ewr Thetar_EXT_old f_0 EXT in
  let EXT := ewr Sin_Thetar_EXT f_0 EXT in
  let EXT := ewr Cos_Thetar_EXT f_0 EXT in
  let EXT := ewr Wr_EXT_f f_0 EXT in
  let EXT := ewr Thetarm_EXT f_0 EXT in
  let EXT := ewr Thetarm_EXT_old f_0 EXT in
  let EXT := ewr Sin_Thetarm_EXT f_0 EXT in
  let EXT := ewr Cos_Thetarm_EXT f_0 EXT in
  let EXT := ewr Vdse_ref_EXT f_0 EXT in
  let EXT := ewr Vqse_ref_EXT f_0 EXT in
  let EXT := ewr Idse_EXT f_0 EXT in
  let EXT := ewr Iqse_EXT f_0 EXT in
  let EXT := ewr Err_Idse_EXT f_0 EXT in
  let EXT := ewr Err_Iqse_EXT f_0 EXT in
  let EXT := ewr Idse_EXT_est f_0 EXT in
  let EXT := ewr Iqse_EXT_est f_0 EXT in
  let EXT := ewr integ_Idse_EXT_est f_0 EXT in
  let EXT := ewr integ_Iqse_EXT_est f_0 EXT in
  let EXT := ewr EEMFd_est f_0 EXT in
  let EXT := ewr EEMFq_est f_0 EXT in
  let EXT := ewr Vdse_FF_EXT f_0 EXT in
  ewr Vqse_FF_EXT f_0 EXT.

Local Close Scope f32_scope.

(* ================================================================== *)
(** * Vocabulary of the further properties *)
(* ================================================================== *)

(** ** Hall sensors *)

Definition pin_set (p : GPIO_PinState) : bool :=
  match p with GPIO_PIN_SET => true | GPIO_PIN_RESET => false end.

(** The six sector angles of the Hall table, by code. *)
Definition sector_angle {P : Platform} (h : Z) : option f32 :=
  if (h =? 6)%Z then Some f_0
  else if (h =? 4)%Z then Some PIOF3
  else if (h =? 5)%Z then Some (f_2 * PIOF3)%f32
  else if (h =? 1)%Z then Some (f_3 * PIOF3)%f32
  else if (h =? 3)%Z then Some (- f_2 * PIOF3)%f32
  else if (h =? 2)%Z then Some (- PIOF3)%f32
  else None.

(** The Hall inputs of one reading, as a code. *)
Definition hall_code (hw : HwInputs) : Z :=
  GetHallSensorState (PC6 hw) (PC7 hw) (PD2 hw).

(** ** Flags *)

(** No flag but [FAULT] is raised: each is as before, or zero. *)
Definition lowered (F F' : CONTROL_FLAG) : Prop :=
  (READY F' = READY F \/ READY F' = 0%Z) /\
  FAULT_CLEAR F' = FAULT_CLEAR F /\
  (INV_RUN F' = INV_RUN F \/ INV_RUN F' = 0%Z) /\
  (INV_OLC F' = INV_OLC F \/ INV_OLC F' = 0%Z) /\
  (INV_VOLC F' = INV_VOLC F \/ INV_VOLC F' = 0%Z) /\
  INV_Vref_Gen F' = INV_Vref_Gen F /\
  (INV_ALIGN F' = INV_ALIGN F \/ INV_ALIGN F' = 0%Z) /\
  (INV_NLC F' = INV_NLC F \/ INV_NLC F' = 0%Z) /\
  (TS_MODE F' = TS_MODE F \/ TS_MODE F' = 0%Z) /\
  TS_MODE_STOP F' = TS_MODE_STOP F /\
  DUTY_TEST F' = DUTY_TEST F /\
  Param_Estimation F' = Param_Estimation F /\
  HALL_POS_TEST F' = HALL_POS_TEST F.

(** An external write that does not clear a fault. *)
Definition keeps_fault (s s' : State) : Prop :=
  FAULT (FLAG s) <> 0%Z -> FAULT (FLAG s') <> 0%Z.

(** ** Outputs *)

(** The six outputs of TIM1 started. *)
Definition channels_started (s : State) : Prop :=
  CH1 (TIM1 s) = true /\ CH1N (TIM1 s) = true /\
  CH2 (TIM1 s) = true /\ CH2N (TIM1 s) = true /\
  CH3 (TIM1 s) = true /\ CH3N (TIM1 s) = true.

(** A duty in [0, 1], or not a number. *)
Definition unit_or_nan (d : f32) : Prop :=
  is_nan d = true \/ ((f_0 <=? d)%f32 = true /\ (d <=? f_1)%f32 = true).

Definition duties_unit_or_nan (s : State) : Prop :=
  unit_or_nan s.[Duty_A] /\ unit_or_nan s.[Duty_B] /\
  unit_or_nan s.[Duty_C].





(** The buffer after a regulator that found the state [s]: enabled
    when no fault is latched, as it was otherwise; the six outputs
    started; the flags as they were. *)
Definition buffer_gated (s s' : State) : Prop :=
  PWM_BUF s' = (if (FAULT (FLAG s) =? 0)%Z then true else PWM_BUF s) /\
  channels_started s' /\ FLAG s' = FLAG s.

(** ** Fault events *)

(** A current at or beyond 80 A, of either sign. *)
Definition at_or_beyond_80 (v : f32) : bool :=
  ((f_80 <=? v) || (v <=? - f_80))%f32.

(** How many of the three phase currents are. *)
Definition phases_beyond_80 (s : State) : nat :=
  length (filter (fun x => at_or_beyond_80 s.[x]) [Ia; Ib; Ic]).

(** The three entries of the fault monitor. *)
Inductive FaultEvent : Set :=
  | EV_HardWareFault | EV_fault_pin | EV_SoftWareFault.

Definition fault_handler (e : FaultEvent) : State -> State :=
  match e with
  | EV_HardWareFault => HardWareFault
  | EV_fault_pin => HAL_GPIO_EXTI_Callback
  | EV_SoftWareFault => SoftWareFault
  end.

Definition is_software (e : FaultEvent) : bool :=
  match e with EV_SoftWareFault => true | _ => false end.

(** The handlers of a sequence of events, oldest first. *)
Definition handle_faults (es : list FaultEvent) (s : State) : State :=
  fold_left (fun s e => fault_handler e s) es s.

(** The code after a sequence of events. *)
Definition fault_code_after (es : list FaultEvent) (code : Z) : Z :=
  if forallb is_software es then software_fault_code code else 1%Z.

(** ** The two speed observers *)

(** Two observer states that agree on every member but the speed
    estimates [Wrm_est] and [Wr_est]. *)
Definition agree_but_speed (o o' : SPEED_OBSERVER) : Prop :=
  forall x, x <> SPDOBS.Wrm_est -> x <> SPDOBS.Wr_est -> o x = o' x.

(** ** Ramps *)


(** ** The extended-EMF observer *)

(** The members [EXT_SS_Sync] does not write: the parameters and the
    speed and angle estimates. *)
Definition EXT_kept : list ExtF :=
  [ Rs_hat; Ld_hat; Lq_hat; INV_Ld_hat; Wec; k_debug; Wr_EXT; Wr_EXT_f;
    Thetar_EXT; Thetarm_EXT; Cos_Thetarm_EXT; Sin_Thetarm_EXT ].

Definition ExtF_mem (x : ExtF) (l : list ExtF) : bool :=
  existsb (ExtF_eqb x) l.

(** One sample of the observer: the two voltages and the two
    currents. *)
Definition ExtInput : Type := (f32 * f32 * f32 * f32)%type.

(** The observer run over a sequence of samples, oldest first. *)
Definition EXT_run {P : Platform} (EXT : EXT_Sensorless)
  (inputs : list ExtInput) : EXT_Sensorless :=
  fold_left (fun E '(vd, vq, id, iq) => EXT_SS_Sync E vd vq id iq)
    inputs EXT.

(** ** The calls of one tick *)

(** The functions each mode calls, in order. *)
Definition mode_calls (m : Mode) : list Call :=
  match m with
  | M_closed_loop => [C_SpeedControl; C_Vref_GenControl]
  | M_hall_test => [C_HallPosition_Test; C_PwmDutyUpt; C_PwmSwOn]
  | M_duty_test => [C_PwmDutyUpt; C_PwmSwOn]
  | M_open_loop_current => [C_OpenLoopControl; C_CurrentControl]
  | M_vref_gen => [C_Vref_GenControl]
  | M_voltage_open_loop => [C_VoltageOpenLoopControl]
  | M_param_estimation => [C_VoltageInjection_SquareWave]
  | M_align => [C_Align]
  | M_no_mode | M_not_ready => stop_calls
  end.

(** ** [ResetController] *)

(** The members [ResetController] clears. *)
Definition reset_members : list InvF :=
  [ Wrm_ref_set; Wrpm_ref_set; Wrpm_ref_set_old; Wrm_ref; Wrpm_ref;
    Te_ref_integ; Te_ref_aw; Idsr_ref_integ; Idsr_ref_aw; Te_ref_sat;
    Te_ref; Idsr_ref; Iqsr_ref; Idsr_ref_OLC; Iqsr_ref_OLC; Vdsr_ref_OLC;
    Vqsr_ref_OLC; Thetar_OLC; Wrpm_ref_OLC; Wrpm_ref_set_OLC;
    Vdsr_ref_integ; Vqsr_ref_integ; Vdsr_ref_unsat; Vqsr_ref_unsat;
    Vdsr_ref_aw; Vqsr_ref_aw; TestDuty_A; TestDuty_B; TestDuty_C;
    alpha_LPF ].

Definition InvF_mem (x : InvF) (l : list InvF) : bool :=
  existsb (InvF_eqb x) l.

(** ** Sampling *)


(** A state whose sequencer has left its four steps. *)
Definition align_astray : State := set_Mode_align 7 align_requested.

(** A state with a software fault latched and every mode requested. *)
Definition software_faulted : State :=
  set_FLAG (set_READY 1 (set_FAULT 2 (FLAG all_modes_not_ready)))
    all_modes_not_ready.

(* ================================================================== *)
(** * Basic facts *)
(* ================================================================== *)

Local Close Scope f32_scope.

(** Projections of the globals through the setters. *)
Ltac proj_simpl :=
  cbn [FLAG FLTVAL FaultCnt INV EXT_1 ADC TIM1 PWM_BUF ControlCnt Theta_mode
       Align_done Mode_align Time_align cnt_inj Van Vbn Vcn Vdss_ref_set
       Vqss_ref_set
       set_FLAG set_FLTVAL set_FaultCnt set_INV set_EXT_1 set_ADC set_TIM1
       set_PWM_BUF set_ControlCnt set_Theta_mode set_Align_done
       set_Mode_align set_Time_align set_cnt_inj set_Van set_Vbn set_Vcn
       set_Vdss_ref_set set_Vqss_ref_set
       READY FAULT FAULT_CLEAR INV_RUN INV_OLC INV_VOLC INV_Vref_Gen
       INV_ALIGN INV_NLC TS_MODE TS_MODE_STOP DUTY_TEST Param_Estimation
       HALL_POS_TEST
       set_READY set_FAULT set_INV_RUN set_INV_OLC set_INV_VOLC
       set_INV_ALIGN set_INV_NLC set_TS_MODE fst snd] in *.

(** The pair of a tick in progress. *)
Ltac run_simpl := unfold call, stmt in *; cbn [fst snd] in *.

Ltac head_cases :=
  repeat match goal with
         | |- context [if ?c then _ else _] => destruct c
         end.

(** A function that is one chain of assignments: each projection of the
    result reduces to the projection of the argument. *)
Ltac keeps_chain := intro s; repeat split.

(** A function that opens with a conditional, its branches chains. *)
Tactic Notation "keeps_cases" reference(F) :=
  intro s; unfold regulator_frame; cbv beta delta [F]; head_cases;
  repeat split.

Lemma rd_wr (s : State) (x y : InvF) (v : f32) :
  (s.[x <- v]).[y] = if InvF_eqb y x then v else s.[y].
Proof. reflexivity. Qed.

Lemma truthy_false (z : Z) : truthy z = false <-> z = 0.
Proof.
  unfold truthy. destruct (Z.eqb_spec z 0); simpl; split; congruence.
Qed.

Lemma truthy_true (z : Z) : truthy z = true <-> z <> 0.
Proof.
  unfold truthy. destruct (Z.eqb_spec z 0); simpl; split; congruence.
Qed.

(** A product with zero converts to the count 0, whatever the other
    factor is: the compare registers are cleared with the duties. *)
Lemma f32_to_u32_zero_mul (x : f32) : f32_to_u32 (f_0 * x)%f32 = 0.
Proof. destruct x as [ [ | ] | [ | ] | | [ | ] m e]; reflexivity. Qed.

Lemma regulator_frame_refl (s : State) : regulator_frame s s.
Proof. repeat split. Qed.

Lemma regulator_frame_trans (s1 s2 s3 : State) :
  regulator_frame s1 s2 -> regulator_frame s2 s3 -> regulator_frame s1 s3.
Proof. unfold regulator_frame. intuition congruence. Qed.

Lemma keeps_compose (f g : State -> State) :
  keeps f -> keeps g -> keeps (fun s => g (f s)).
Proof.
  intros Hf Hg s. eapply regulator_frame_trans; [apply Hf | apply Hg].
Qed.

Lemma keeps_PwmSwOn : keeps PwmSwOn.
Proof. keeps_chain. Qed.

Lemma keeps_PwmSwOff : keeps PwmSwOff.
Proof. keeps_chain. Qed.

Lemma keeps_PwmDutyUpt : keeps PwmDutyUpt.
Proof. keeps_chain. Qed.

Lemma keeps_PWM_BUF_ON : keeps PWM_BUF_ON.
Proof. keeps_chain. Qed.

Lemma keeps_PWM_BUF_ON_unless_FAULT : keeps PWM_BUF_ON_unless_FAULT.
Proof. keeps_chain. Qed.

Lemma keeps_UpdateController : keeps UpdateController.
Proof. keeps_chain. Qed.

Lemma keeps_ResetController : keeps ResetController.
Proof. keeps_chain. Qed.

Lemma keeps_duty_test : keeps duty_test.
Proof. keeps_chain. Qed.

Lemma keeps_HallPosition_Test : keeps HallPosition_Test.
Proof.
  intro s. unfold regulator_frame.
  cbv beta zeta delta [HallPosition_Test].
  head_cases; repeat split.
Qed.

Section RegulatorFrames.

Context {P : Platform}.

Lemma keeps_CurrentControl_torque_ref : keeps CurrentControl_torque_ref.
Proof. keeps_cases CurrentControl_torque_ref. Qed.

Lemma keeps_CurrentControl_regulate : keeps CurrentControl_regulate.
Proof. keeps_chain. Qed.

Lemma keeps_CurrentControl : keeps CurrentControl.
Proof.
  exact (keeps_compose _ _ keeps_CurrentControl_torque_ref
           keeps_CurrentControl_regulate).
Qed.

Lemma keeps_SpeedControl : keeps SpeedControl.
Proof. keeps_chain. Qed.

Lemma keeps_OpenLoopControl : keeps OpenLoopControl.
Proof. keeps_chain. Qed.

Lemma keeps_Vref_GenControl : keeps Vref_GenControl.
Proof. keeps_cases Vref_GenControl. Qed.

Lemma keeps_VoltageOpenLoopControl : keeps VoltageOpenLoopControl.
Proof. keeps_chain. Qed.

Lemma keeps_VoltageInjection_SquareWave : keeps VoltageInjection_SquareWave.
Proof. keeps_chain. Qed.

Lemma keeps_Hallsensor_Observer (hw : HwInputs) :
  keeps (Hallsensor_Observer hw).
Proof. keeps_chain. Qed.

End RegulatorFrames.

(* ================================================================== *)
(** * The fault monitor *)
(* ================================================================== *)

(** ** [PwmSwOff], [SoftWareFault] and [HardWareFault] as one update *)

Lemma PwmSwOff_eq (s : State) :
  PwmSwOff s =
  set_TIM1 (TIM1_stopped (TIM1 s))
    (set_INV (INV_duties_off (INV s)) (set_PWM_BUF false s)).
Proof. reflexivity. Qed.

Lemma SoftWareFault_eq (s : State) :
  SoftWareFault s =
  set_FaultCnt (wrap16 (FaultCnt s + 1))
    (set_FLTVAL (snapshot s)
       (set_FLAG
          (set_FAULT (software_fault_code (FAULT (FLAG s)))
             (set_READY 0 (FLAG s)))
          (set_TIM1 (TIM1_stopped (TIM1 s))
             (set_INV (INV_duties_off (INV s)) (set_PWM_BUF false s))))).
Proof. reflexivity. Qed.

Lemma HardWareFault_eq (s : State) :
  HardWareFault s =
  set_FaultCnt (wrap16 (FaultCnt s + 1))
    (set_FLTVAL (snapshot s)
       (set_FLAG (set_READY 0 (set_FAULT 1 (FLAG s)))
          (set_TIM1 (TIM1_stopped (TIM1 s))
             (set_INV (INV_duties_off (INV s)) (set_PWM_BUF false s))))).
Proof. reflexivity. Qed.

Lemma PwmSwOff_pwm_disabled (s : State) : pwm_disabled (PwmSwOff s).
Proof. repeat split. Qed.

Lemma PwmSwOff_duties_zero (s : State) : duties_zero (PwmSwOff s).
Proof. repeat split. Qed.

Lemma SoftWareFault_FLAG (s : State) :
  FLAG (SoftWareFault s) =
  set_FAULT (software_fault_code (FAULT (FLAG s))) (set_READY 0 (FLAG s)).
Proof. reflexivity. Qed.

Lemma SoftWareFault_FLTVAL (s : State) :
  FLTVAL (SoftWareFault s) = snapshot s.
Proof. reflexivity. Qed.

Lemma SoftWareFault_FaultCnt (s : State) :
  FaultCnt (SoftWareFault s) = wrap16 (FaultCnt s + 1).
Proof. reflexivity. Qed.

Lemma SoftWareFault_pwm_disabled (s : State) :
  pwm_disabled (SoftWareFault s).
Proof. repeat split. Qed.

(** The members captured in the snapshot, and the currents the
    protection compares, are not written by a software fault. *)
Lemma snapshot_SoftWareFault (s : State) :
  snapshot (SoftWareFault s) = snapshot s.
Proof. reflexivity. Qed.

Lemma over_current_SoftWareFault_Ia (s : State) :
  over_current (SoftWareFault s) Ia = over_current s Ia.
Proof. reflexivity. Qed.

Lemma over_current_SoftWareFault_Ib (s : State) :
  over_current (SoftWareFault s) Ib = over_current s Ib.
Proof. reflexivity. Qed.

Lemma over_current_SoftWareFault_Ic (s : State) :
  over_current (SoftWareFault s) Ic = over_current s Ic.
Proof. reflexivity. Qed.

Lemma software_fault_code_idem (code : Z) :
  software_fault_code (software_fault_code code) = software_fault_code code.
Proof.
  unfold software_fault_code.
  destruct (Z.eqb_spec code 1) as [E | E]; [now rewrite E | reflexivity].
Qed.

Lemma software_fault_code_spec (code : Z) :
  software_fault_code code = if (code =? 1)%Z then 1 else 2.
Proof.
  unfold software_fault_code.
  destruct (Z.eqb_spec code 1) as [E | E]; [exact E | reflexivity].
Qed.

Lemma software_fault_code_nonzero (code : Z) :
  software_fault_code code <> 0.
Proof.
  rewrite software_fault_code_spec. destruct (code =? 1)%Z; discriminate.
Qed.

Lemma wrap16_succ (z : Z) : wrap16 (wrap16 (z + 1) + 1) = wrap16 (z + 2).
Proof.
  unfold wrap16. rewrite Zplus_mod_idemp_l. f_equal. lia.
Qed.

Lemma wrap16_succ_neq (z : Z) : wrap16 (z + 2) <> wrap16 (z + 1).
Proof.
  unfold wrap16. intro H.
  assert (E : ((z + 2) - (z + 1)) mod 2 ^ 16 = 0).
  { rewrite Zminus_mod, H, Z.sub_diag. reflexivity. }
  replace (z + 2 - (z + 1)) with 1 in E by lia. discriminate E.
Qed.

(** ** A repeated software fault *)

Lemma same_INV_refl (i : INVERTER) : same_INV i i.
Proof. repeat split. Qed.

Lemma same_INV_trans (i1 i2 i3 : INVERTER) :
  same_INV i1 i2 -> same_INV i2 i3 -> same_INV i1 i3.
Proof.
  unfold same_INV.
  intros (F1 & A1 & B1 & C1 & S1 & D1) (F2 & A2 & B2 & C2 & S2 & D2).
  split; [intro x; rewrite F2; apply F1 | ].
  repeat split; etransitivity; eassumption.
Qed.

Lemma same_except_FaultCnt_refl (s : State) : same_except_FaultCnt s s.
Proof. repeat split. Qed.

Lemma same_except_FaultCnt_trans (s1 s2 s3 : State) :
  same_except_FaultCnt s1 s2 -> same_except_FaultCnt s2 s3 ->
  same_except_FaultCnt s1 s3.
Proof.
  unfold same_except_FaultCnt, same_outside_fault_monitor.
  intros (F1 & V1 & I1 & R1) (F2 & V2 & I2 & R2).
  split; [congruence | split; [congruence | split]].
  - eapply same_INV_trans; eassumption.
  - intuition congruence.
Qed.

Lemma INV_duties_off_idem (i : INVERTER) :
  same_INV (INV_duties_off i) (INV_duties_off (INV_duties_off i)).
Proof.
  split; [ | repeat split].
  intro x. unfold INV_duties_off, set_fld, upd. cbn [fld].
  destruct (InvF_eqb x Duty_C), (InvF_eqb x Duty_B), (InvF_eqb x Duty_A);
    reflexivity.
Qed.

Lemma SoftWareFault_twice (s : State) :
  same_except_FaultCnt (SoftWareFault s) (SoftWareFault (SoftWareFault s)).
Proof.
  split; [ | split].
  - rewrite !SoftWareFault_FLAG. proj_simpl.
    rewrite software_fault_code_idem. reflexivity.
  - rewrite SoftWareFault_FLTVAL, snapshot_SoftWareFault. reflexivity.
  - rewrite (SoftWareFault_eq (SoftWareFault s)), (SoftWareFault_eq s).
    unfold same_outside_fault_monitor. proj_simpl.
    split; [apply INV_duties_off_idem | repeat split].
Qed.

Lemma SoftWareFault_thrice (s : State) :
  same_except_FaultCnt (SoftWareFault s)
    (SoftWareFault (SoftWareFault (SoftWareFault s))).
Proof.
  eapply same_except_FaultCnt_trans; apply SoftWareFault_twice.
Qed.

(** The protection stage of a tick calls [SoftWareFault] once per phase
    at or above 80 A. *)
Lemma Control_protect_eq (s : State) (t : list Call) :
  Control_protect (s, t) =
  (Nat.iter (trips s) SoftWareFault s,
   t ++ repeat C_SoftWareFault (trips s)).
Proof.
  unfold Control_protect, trips. cbn [fst].
  destruct (over_current s Ia); run_simpl;
    rewrite ?over_current_SoftWareFault_Ib;
    destruct (over_current s Ib); run_simpl;
    rewrite ?over_current_SoftWareFault_Ic;
    destruct (over_current s Ic); run_simpl;
    rewrite <- ?app_assoc, ?app_nil_r; reflexivity.
Qed.

(* ================================================================== *)
(** * The stages of a tick *)
(* ================================================================== *)

(** ** Sampling *)

Lemma Control_latch_frame (hw : HwInputs) (s : State) :
  sampling_frame s (Control_latch hw s) /\ INV (Control_latch hw s) = INV s.
Proof. repeat split. Qed.

Lemma Control_latch_AdInitFlag (hw : HwInputs) (s : State) :
  AdInitFlag (ADC (Control_latch hw s)) = AdInitFlag (ADC s).
Proof. reflexivity. Qed.

Lemma Offset_frame (s : State) :
  sampling_frame s (Offset s) /\ INV (Offset s) = INV s.
Proof. repeat split. Qed.

Lemma AdcProcess_frame (s : State) : sampling_frame s (AdcProcess s).
Proof. repeat split. Qed.

Lemma sampling_frame_trans (s1 s2 s3 : State) :
  sampling_frame s1 s2 -> sampling_frame s2 s3 -> sampling_frame s1 s3.
Proof. unfold sampling_frame. intuition congruence. Qed.

Lemma Control_sample_eq (hw : HwInputs) (s : State) (t : list Call) :
  Control_sample hw (s, t) =
  if truthy (AdInitFlag (ADC s))
  then (AdcProcess (Control_latch hw s), t ++ [C_AdcProcess])
  else (Offset (Control_latch hw s), t ++ [C_Offset]).
Proof.
  unfold Control_sample. run_simpl. rewrite Control_latch_AdInitFlag.
  reflexivity.
Qed.

Lemma Control_sample_frame (hw : HwInputs) (s : State) (t : list Call) :
  sampling_frame s (fst (Control_sample hw (s, t))).
Proof.
  rewrite Control_sample_eq.
  destruct (truthy (AdInitFlag (ADC s))); cbn [fst];
    (eapply sampling_frame_trans; [apply Control_latch_frame | ]).
  - apply AdcProcess_frame.
  - apply Offset_frame.
Qed.

(** ** The mode chain *)

Section ModeChain.

Context {P : Platform}.

(** The chain of [if]s selects as the priority list does. *)
Lemma Control_dispatch_select (r : Run) :
  Control_dispatch r = run_mode (select_mode (FLAG (fst r))) r.
Proof.
  unfold Control_dispatch, select_mode, mode_priority.
  destruct (truthy (READY (FLAG (fst r))) &&
            negb (truthy (FAULT (FLAG (fst r))))); [ | reflexivity].
  cbn [find mode_flag].
  destruct (truthy (INV_RUN (FLAG (fst r)))); [reflexivity | ].
  destruct (truthy (HALL_POS_TEST (FLAG (fst r)))); [reflexivity | ].
  destruct (truthy (DUTY_TEST (FLAG (fst r)))); [reflexivity | ].
  destruct (truthy (INV_OLC (FLAG (fst r)))); [reflexivity | ].
  destruct (truthy (INV_Vref_Gen (FLAG (fst r)))); [reflexivity | ].
  destruct (truthy (INV_VOLC (FLAG (fst r)))); [reflexivity | ].
  destruct (truthy (Param_Estimation (FLAG (fst r)))); [reflexivity | ].
  destruct (truthy (INV_ALIGN (FLAG (fst r)))); reflexivity.
Qed.

(** The alignment step, case by case. *)
Lemma Align_switch_0 (s : State) :
  Mode_align s = 0 ->
  Align_switch s =
  set_Mode_align 1
    (set_Time_align f_0
       (set_Align_done 0 s).[Thetar_offset <- f_0].[Idsr_ref <- s.[Idsr_align]]).
Proof.
  intro H. unfold Align_switch. rewrite (proj2 (Z.eqb_eq _ _) H).
  match goal with
  | |- set_Mode_align (Mode_align ?X + 1) _ = _ =>
      change (Mode_align X) with (Mode_align s)
  end.
  rewrite H. reflexivity.
Qed.

Lemma Align_switch_1 (s : State) :
  Mode_align s = 1 -> Align_switch s = Align_hold f_4 s.
Proof. intro H. unfold Align_switch. rewrite H. reflexivity. Qed.

Lemma Align_switch_2 (s : State) :
  Mode_align s = 2 -> Align_switch s = Align_hold f_5 s.[Idsr_ref <- f_0].
Proof. intro H. unfold Align_switch. rewrite H. reflexivity. Qed.

Lemma Align_switch_3 (s : State) :
  Mode_align s = 3 ->
  Align_switch s =
  set_FLAG (set_INV_ALIGN 0 (FLAG s)) (set_Align_done 1 (set_Mode_align 0 s)).
Proof. intro H. unfold Align_switch. rewrite H. reflexivity. Qed.

Lemma Align_switch_other (s : State) :
  Mode_align s <> 0 -> Mode_align s <> 1 -> Mode_align s <> 2 ->
  Mode_align s <> 3 -> Align_switch s = s.
Proof.
  intros H0 H1 H2 H3. unfold Align_switch.
  destruct (Z.eqb_spec (Mode_align s) 0); [contradiction | ].
  destruct (Z.eqb_spec (Mode_align s) 1); [contradiction | ].
  destruct (Z.eqb_spec (Mode_align s) 2); [contradiction | ].
  destruct (Z.eqb_spec (Mode_align s) 3); [contradiction | ].
  reflexivity.
Qed.


(** [Align_hold] runs the current regulator and may advance the step. *)
Lemma Align_hold_eq (limit : f32) (s : State) :
  Align_hold limit s =
  set_Mode_align
    (if (Time_align s >=? limit)%f32 then Mode_align s + 1 else Mode_align s)
    (PWM_BUF_ON_unless_FAULT (PwmSwOn (PwmDutyUpt (CurrentControl s)))).
Proof.
  unfold Align_hold.
  destruct (keeps_CurrentControl s) as (_ & _ & _ & _ & _ & _ & _ & _ & M & T).
  revert M T. generalize (CurrentControl s). intros u M T.
  change (Time_align (PWM_BUF_ON_unless_FAULT (PwmSwOn (PwmDutyUpt u))))
    with (Time_align u).
  change (Mode_align (PWM_BUF_ON_unless_FAULT (PwmSwOn (PwmDutyUpt u))))
    with (Mode_align u).
  rewrite M, T. reflexivity.
Qed.

Lemma keeps_Align_hold_regulators :
  keeps (fun s => PWM_BUF_ON_unless_FAULT
                    (PwmSwOn (PwmDutyUpt (CurrentControl s)))).
Proof.
  intro s. eapply regulator_frame_trans; [apply keeps_CurrentControl | ].
  generalize (CurrentControl s). intro u. repeat split.
Qed.

(** The step and the clock of the sequencer follow [Align_clock]. *)
Lemma Align_clock_eq (s : State) :
  (Mode_align (Align s), Time_align (Align s))
  = Align_clock (Mode_align s, Time_align s).
Proof.
  unfold Align, Align_clock.
  set (u := s.[Thetar <- f_0]).
  change (Mode_align s) with (Mode_align u).
  change (Time_align s) with (Time_align u).
  clearbody u. proj_simpl.
  destruct (Z.eqb_spec (Mode_align u) 0) as [E0 | N0].
  { rewrite (Align_switch_0 u E0). reflexivity. }
  destruct (Z.eqb_spec (Mode_align u) 1) as [E1 | N1].
  { rewrite (Align_switch_1 u E1), Align_hold_eq. proj_simpl.
    destruct (keeps_Align_hold_regulators u)
      as (_ & _ & _ & _ & _ & _ & _ & _ & _ & T).
    cbv beta in T. rewrite T, E1.
    destruct (Time_align u >=? f_4)%f32; reflexivity. }
  destruct (Z.eqb_spec (Mode_align u) 2) as [E2 | N2].
  { rewrite (Align_switch_2 u E2), Align_hold_eq. proj_simpl.
    destruct (keeps_Align_hold_regulators (u.[Idsr_ref <- f_0]))
      as (_ & _ & _ & _ & _ & _ & _ & _ & _ & T).
    cbv beta in T. rewrite T.
    change (Time_align u.[Idsr_ref <- f_0]) with (Time_align u).
    change (Mode_align u.[Idsr_ref <- f_0]) with (Mode_align u).
    rewrite E2.
    destruct (Time_align u >=? f_5)%f32; reflexivity. }
  destruct (Z.eqb_spec (Mode_align u) 3) as [E3 | N3].
  { rewrite (Align_switch_3 u E3). reflexivity. }
  rewrite (Align_switch_other u N0 N1 N2 N3). reflexivity.
Qed.

(** [Align] touches neither the fault monitor nor the sampling nor the
    angle selector. *)
Lemma Align_frame (s : State) :
  mode_frame s (Align s) /\ READY (FLAG (Align s)) = READY (FLAG s) /\
  Theta_mode (Align s) = Theta_mode s.
Proof.
  unfold Align.
  set (u := s.[Thetar <- f_0]).
  assert (U : regulator_frame s u) by (repeat split).
  clearbody u. unfold mode_frame. proj_simpl.
  destruct U as (F & V & C & A & E & K & Th & _).
  rewrite <- F, <- V, <- C, <- A, <- E, <- K, <- Th. clear F V C A E K Th.
  destruct (Z.eq_dec (Mode_align u) 0) as [E0 | N0].
  { rewrite (Align_switch_0 u E0). repeat split. }
  destruct (Z.eq_dec (Mode_align u) 1) as [E1 | N1].
  { rewrite (Align_switch_1 u E1), Align_hold_eq. proj_simpl.
    destruct (keeps_Align_hold_regulators u)
      as (F & V & C & A & E & K & Th & _).
    cbv beta in *. rewrite F, V, C, A, E, K, Th. repeat split. }
  destruct (Z.eq_dec (Mode_align u) 2) as [E2 | N2].
  { rewrite (Align_switch_2 u E2), Align_hold_eq. proj_simpl.
    destruct (keeps_Align_hold_regulators (u.[Idsr_ref <- f_0]))
      as (F & V & C & A & E & K & Th & _).
    cbv beta in *. rewrite F, V, C, A, E, K, Th. repeat split. }
  destruct (Z.eq_dec (Mode_align u) 3) as [E3 | N3].
  { rewrite (Align_switch_3 u E3). repeat split. }
  rewrite (Align_switch_other u N0 N1 N2 N3). repeat split.
Qed.

(** ** What the modes leave alone *)

Lemma regulator_frame_mode_frame (s s' : State) :
  regulator_frame s s' -> mode_frame s s'.
Proof.
  unfold regulator_frame, mode_frame.
  intros (F & V & C & A & E & K & _). rewrite F. repeat split; assumption.
Qed.

Lemma mode_frame_trans (s1 s2 s3 : State) :
  mode_frame s1 s2 -> mode_frame s2 s3 -> mode_frame s1 s3.
Proof. unfold mode_frame. intuition congruence. Qed.

Lemma stop_no_mode_eq (r : Run) :
  stop_no_mode r =
  (clear_mode_flags (ResetController (PwmDutyUpt (PwmSwOff (fst r)))),
   snd r ++ [C_PwmSwOff; C_PwmDutyUpt; C_ResetController]).
Proof.
  unfold stop_no_mode. run_simpl. rewrite <- !app_assoc. reflexivity.
Qed.

Lemma stop_not_ready_eq (r : Run) :
  stop_not_ready r =
  (clear_mode_flags_and_READY
     (ResetController (PwmDutyUpt (PwmSwOff (fst r)))),
   snd r ++ [C_PwmSwOff; C_PwmDutyUpt; C_ResetController]).
Proof.
  unfold stop_not_ready. run_simpl. rewrite <- !app_assoc. reflexivity.
Qed.

(** Every function the mode chain can call, and the chain as a whole,
    leaves the fault code, the snapshot, the fault counter and the
    sampling globals as they are. *)
Lemma run_mode_frame (m : Mode) (r : Run) :
  mode_frame (fst r) (fst (run_mode m r)).
Proof.
  destruct r as [s t].
  destruct m; unfold run_mode;
    try (unfold stop_no_mode); try (unfold stop_not_ready);
    unfold call, stmt; cbn [fst snd].
  - apply regulator_frame_mode_frame.
    eapply regulator_frame_trans;
      [apply keeps_SpeedControl | apply keeps_Vref_GenControl].
  - apply regulator_frame_mode_frame.
    eapply regulator_frame_trans; [apply keeps_HallPosition_Test | ].
    generalize (HallPosition_Test s). intro u. repeat split.
  - repeat split.
  - eapply mode_frame_trans with (s2 := set_Theta_mode 1 s);
      [repeat split | ].
    apply regulator_frame_mode_frame.
    eapply regulator_frame_trans;
      [apply keeps_OpenLoopControl | apply keeps_CurrentControl].
  - apply regulator_frame_mode_frame, keeps_Vref_GenControl.
  - apply regulator_frame_mode_frame, keeps_VoltageOpenLoopControl.
  - apply regulator_frame_mode_frame, keeps_VoltageInjection_SquareWave.
  - apply Align_frame.
  - repeat split.
  - repeat split.
Qed.

(** The angle selector: set by the open-loop current mode, left alone
    by every other one. *)
Lemma run_mode_Theta_mode (m : Mode) (r : Run) :
  Theta_mode (fst (run_mode m r)) =
  match m with
  | M_open_loop_current => 1
  | _ => Theta_mode (fst r)
  end.
Proof.
  destruct r as [s t].
  destruct m; unfold run_mode;
    try (unfold stop_no_mode); try (unfold stop_not_ready);
    unfold call, stmt; cbn [fst snd].
  - destruct (keeps_Vref_GenControl (SpeedControl s))
      as (_ & _ & _ & _ & _ & _ & T & _).
    rewrite T. apply keeps_SpeedControl.
  - apply (keeps_HallPosition_Test s).
  - reflexivity.
  - destruct (keeps_CurrentControl (OpenLoopControl (set_Theta_mode 1 s)))
      as (_ & _ & _ & _ & _ & _ & T & _).
    rewrite T. apply (keeps_OpenLoopControl (set_Theta_mode 1 s)).
  - apply keeps_Vref_GenControl.
  - apply keeps_VoltageOpenLoopControl.
  - apply keeps_VoltageInjection_SquareWave.
  - apply Align_frame.
  - reflexivity.
  - reflexivity.
Qed.

(** ** The stages before the mode chain *)

Lemma Control_prepare_eq (hw : HwInputs) (s : State) :
  Control_prepare hw s =
  let r := Control_sample hw (s, []) in
  let p := Nat.iter (trips (fst r)) SoftWareFault (fst r) in
  (Hallsensor_Observer hw (UpdateController p),
   snd r ++ repeat C_SoftWareFault (trips (fst r))
   ++ [C_UpdateController; C_Hallsensor_Observer]).
Proof.
  unfold Control_prepare. cbv zeta.
  destruct (Control_sample hw (s, [])) as [s1 t1].
  rewrite Control_protect_eq. unfold call. cbn [fst snd].
  rewrite <- !app_assoc. reflexivity.
Qed.

(** Gains and observer leave the supervisory globals alone. *)
Lemma prepare_tail_frame (hw : HwInputs) (p : State) :
  regulator_frame p (Hallsensor_Observer hw (UpdateController p)).
Proof.
  eapply regulator_frame_trans;
    [apply keeps_UpdateController | apply keeps_Hallsensor_Observer].
Qed.

End ModeChain.

(* ================================================================== *)
(** * The tick as a whole *)
(* ================================================================== *)

Lemma iter_SoftWareFault_same (n : nat) (s : State) :
  same_except_FaultCnt (SoftWareFault s)
    (Nat.iter n SoftWareFault (SoftWareFault s)).
Proof.
  revert s. induction n as [ | n IH]; intro s.
  - apply same_except_FaultCnt_refl.
  - rewrite Nat.iter_succ_r.
    eapply same_except_FaultCnt_trans;
      [apply SoftWareFault_twice | apply IH].
Qed.

Lemma iter_SoftWareFault_succ (n : nat) (s : State) :
  same_except_FaultCnt (SoftWareFault s) (Nat.iter (S n) SoftWareFault s).
Proof. rewrite Nat.iter_succ_r. apply iter_SoftWareFault_same. Qed.

Lemma wrap16_add_succ (z : Z) (n : nat) :
  wrap16 (wrap16 (z + Z.of_nat n) + 1) = wrap16 (z + Z.of_nat (S n)).
Proof.
  unfold wrap16. rewrite Zplus_mod_idemp_l. f_equal. lia.
Qed.

Lemma iter_SoftWareFault_FaultCnt (n : nat) (s : State) :
  FaultCnt (Nat.iter (S n) SoftWareFault s)
  = wrap16 (FaultCnt s + Z.of_nat (S n)).
Proof.
  induction n as [ | n IH].
  - reflexivity.
  - change (Nat.iter (S (S n)) SoftWareFault s)
      with (SoftWareFault (Nat.iter (S n) SoftWareFault s)).
    rewrite SoftWareFault_FaultCnt, IH. apply wrap16_add_succ.
Qed.

Lemma iter_SoftWareFault_Theta_mode (n : nat) (s : State) :
  Theta_mode (Nat.iter n SoftWareFault s) = Theta_mode s.
Proof.
  induction n as [ | n IH]; [reflexivity | ].
  change (Nat.iter (S n) SoftWareFault s)
    with (SoftWareFault (Nat.iter n SoftWareFault s)).
  rewrite <- IH. reflexivity.
Qed.

Lemma iter_SoftWareFault_ADC (n : nat) (s : State) :
  ADC (Nat.iter n SoftWareFault s) = ADC s.
Proof.
  induction n as [ | n IH]; [reflexivity | ].
  change (Nat.iter (S n) SoftWareFault s)
    with (SoftWareFault (Nat.iter n SoftWareFault s)).
  rewrite <- IH. reflexivity.
Qed.

Lemma iter_SoftWareFault_READY (n : nat) (s : State) :
  READY (FLAG s) = 0 -> READY (FLAG (Nat.iter n SoftWareFault s)) = 0.
Proof.
  intro H. destruct n as [ | n]; [exact H | ].
  change (Nat.iter (S n) SoftWareFault s)
    with (SoftWareFault (Nat.iter n SoftWareFault s)).
  reflexivity.
Qed.

Lemma iter_SoftWareFault_FAULT (n : nat) (s : State) :
  FAULT (FLAG (Nat.iter n SoftWareFault s)) =
  match n with
  | O => FAULT (FLAG s)
  | S _ => software_fault_code (FAULT (FLAG s))
  end.
Proof.
  destruct n as [ | n]; [reflexivity | ].
  destruct (iter_SoftWareFault_succ n s) as (F & _).
  rewrite F, SoftWareFault_FLAG. reflexivity.
Qed.

(** Gains and observer write members of [INV] only, and none of the
    members the fault monitor reads or the stop branches clear. *)
Lemma prepare_tail_outputs (P : Platform) (hw : HwInputs) (p : State) :
  let q := Hallsensor_Observer hw (UpdateController p) in
  TIM1 q = TIM1 p /\ PWM_BUF q = PWM_BUF p /\
  q.[Vdc] = p.[Vdc] /\ q.[Idc] = p.[Idc] /\
  q.[Ia] = p.[Ia] /\ q.[Ib] = p.[Ib] /\ q.[Ic] = p.[Ic].
Proof. repeat split. Qed.

Section Tick.

Context {P : Platform}.

Lemma at_dispatch_eq (hw : HwInputs) (s : State) :
  at_dispatch hw s =
  Hallsensor_Observer hw
    (UpdateController
       (Nat.iter (trips (at_check hw s)) SoftWareFault (at_check hw s))).
Proof.
  unfold at_dispatch, at_check. rewrite Control_prepare_eq. reflexivity.
Qed.

Lemma Control_stages (hw : HwInputs) (s : State) :
  Control hw s =
  fst (run_mode (select_mode (FLAG (at_dispatch hw s)))
         (Control_prepare hw s)).
Proof.
  unfold Control, Control_run, at_dispatch.
  rewrite Control_dispatch_select. reflexivity.
Qed.

Lemma at_check_frame (hw : HwInputs) (s : State) :
  sampling_frame s (at_check hw s).
Proof. apply Control_sample_frame. Qed.

(** The flags when the mode chain is entered. *)
Lemma at_dispatch_FLAG (hw : HwInputs) (s : State) :
  FLAG (at_dispatch hw s) =
  FLAG (Nat.iter (trips (at_check hw s)) SoftWareFault (at_check hw s)).
Proof. rewrite at_dispatch_eq. apply prepare_tail_frame. Qed.

Lemma at_dispatch_FAULT (hw : HwInputs) (s : State) :
  FAULT (FLAG (at_dispatch hw s)) =
  match trips (at_check hw s) with
  | O => FAULT (FLAG s)
  | S _ => software_fault_code (FAULT (FLAG s))
  end.
Proof.
  rewrite at_dispatch_FLAG, iter_SoftWareFault_FAULT.
  destruct (at_check_frame hw s) as (F & _). rewrite F. reflexivity.
Qed.

Lemma Control_FAULT (hw : HwInputs) (s : State) :
  FAULT (FLAG (Control hw s)) = FAULT (FLAG (at_dispatch hw s)).
Proof. rewrite Control_stages. apply run_mode_frame. Qed.

Lemma Control_FLTVAL (hw : HwInputs) (s : State) :
  FLTVAL (Control hw s) = FLTVAL (at_dispatch hw s).
Proof. rewrite Control_stages. apply run_mode_frame. Qed.

Lemma Control_FaultCnt (hw : HwInputs) (s : State) :
  FaultCnt (Control hw s) = FaultCnt (at_dispatch hw s).
Proof. rewrite Control_stages. apply run_mode_frame. Qed.

Lemma Control_ADC (hw : HwInputs) (s : State) :
  ADC (Control hw s) = ADC (at_check hw s).
Proof.
  rewrite Control_stages.
  destruct (run_mode_frame (select_mode (FLAG (at_dispatch hw s)))
              (Control_prepare hw s)) as (_ & _ & _ & A & _).
  rewrite A. fold (at_dispatch hw s). rewrite at_dispatch_eq.
  destruct (prepare_tail_frame hw
    (Nat.iter (trips (at_check hw s)) SoftWareFault (at_check hw s)))
    as (_ & _ & _ & A' & _).
  rewrite A'. apply iter_SoftWareFault_ADC.
Qed.

Lemma Control_Theta_mode (hw : HwInputs) (s : State) :
  Theta_mode (Control hw s) =
  match select_mode (FLAG (at_dispatch hw s)) with
  | M_open_loop_current => 1
  | _ => Theta_mode s
  end.
Proof.
  rewrite Control_stages, run_mode_Theta_mode.
  assert (E : Theta_mode (fst (Control_prepare hw s)) = Theta_mode s).
  { fold (at_dispatch hw s). rewrite at_dispatch_eq.
    destruct (prepare_tail_frame hw
      (Nat.iter (trips (at_check hw s)) SoftWareFault (at_check hw s)))
      as (_ & _ & _ & _ & _ & _ & T & _).
    rewrite T, iter_SoftWareFault_Theta_mode.
    apply (at_check_frame hw s). }
  rewrite E. reflexivity.
Qed.

End Tick.

(** ** The stop branches *)

Lemma halted_pwm_disabled (u : State) : pwm_disabled (halted u).
Proof. repeat split. Qed.

Lemma halted_duties_zero (u : State) : duties_zero (halted u).
Proof. repeat split. Qed.

(** A compare register written from a cleared duty. *)
Ltac compare_cleared u :=
  transitivity (f32_to_u32 (f_0 * f32_of_Z (ARR (TIM1 u)))%f32);
  [reflexivity | apply f32_to_u32_zero_mul].

Lemma halted_compare_zero (u : State) : compare_zero (halted u).
Proof. unfold compare_zero; repeat split; compare_cleared u. Qed.

Lemma halted_frame (u : State) :
  regulator_frame u (halted u) /\ PWM_BUF (halted u) = false.
Proof. repeat split. Qed.

Lemma stop_no_mode_halted (r : Run) :
  stop_no_mode r = (clear_mode_flags (halted (fst r)), snd r ++ stop_calls).
Proof. apply stop_no_mode_eq. Qed.

Lemma stop_not_ready_halted (r : Run) :
  stop_not_ready r =
  (clear_mode_flags_and_READY (halted (fst r)), snd r ++ stop_calls).
Proof. apply stop_not_ready_eq. Qed.

(** Clearing the flags touches nothing else. *)
Lemma clear_mode_flags_eq (u : State) :
  clear_mode_flags u =
  set_FLAG
    (set_INV_ALIGN 0
       (set_INV_NLC 0
          (set_TS_MODE 0
             (set_INV_RUN 0 (set_INV_OLC 0 (set_INV_VOLC 0 (FLAG u)))))))
    u.
Proof. reflexivity. Qed.

Lemma clear_mode_flags_and_READY_eq (u : State) :
  clear_mode_flags_and_READY u =
  set_FLAG (set_READY 0 (FLAG (clear_mode_flags u))) (clear_mode_flags u).
Proof. reflexivity. Qed.

(** The outputs and the fault record after the not-ready stop. *)
Lemma not_ready_stop_outputs (u : State) :
  let s' := clear_mode_flags_and_READY (halted u) in
  pwm_disabled s' /\ duties_zero s' /\ compare_zero s' /\
  READY (FLAG s') = 0 /\ FAULT (FLAG s') = FAULT (FLAG u) /\
  FLTVAL s' = FLTVAL u /\
  s'.[Vdc] = u.[Vdc] /\ s'.[Idc] = u.[Idc] /\
  s'.[Ia] = u.[Ia] /\ s'.[Ib] = u.[Ib] /\ s'.[Ic] = u.[Ic].
Proof.
  cbv zeta.
  split; [repeat split | ].
  split; [repeat split | ].
  split; [unfold compare_zero; repeat split; compare_cleared u | ].
  repeat split.
Qed.

(** The outputs after the no-mode stop. *)
Lemma no_mode_stop_outputs (u : State) :
  let s' := clear_mode_flags (halted u) in
  pwm_disabled s' /\ duties_zero s' /\ compare_zero s' /\
  READY (FLAG s') = READY (FLAG u).
Proof.
  cbv zeta.
  split; [repeat split | ].
  split; [repeat split | ].
  split; [unfold compare_zero; repeat split; compare_cleared u | ].
  reflexivity.
Qed.

Lemma select_mode_not_ready (F : CONTROL_FLAG) :
  select_mode F = M_not_ready <->
  truthy (READY F) && negb (truthy (FAULT F)) = false.
Proof.
  unfold select_mode, mode_priority.
  destruct (truthy (READY F) && negb (truthy (FAULT F)));
    [ | split; reflexivity].
  cbn [find mode_flag].
  destruct (truthy (INV_RUN F)); [split; discriminate | ].
  destruct (truthy (HALL_POS_TEST F)); [split; discriminate | ].
  destruct (truthy (DUTY_TEST F)); [split; discriminate | ].
  destruct (truthy (INV_OLC F)); [split; discriminate | ].
  destruct (truthy (INV_Vref_Gen F)); [split; discriminate | ].
  destruct (truthy (INV_VOLC F)); [split; discriminate | ].
  destruct (truthy (Param_Estimation F)); [split; discriminate | ].
  destruct (truthy (INV_ALIGN F)); split; discriminate.
Qed.

Lemma select_mode_READY_clear (F : CONTROL_FLAG) :
  READY F = 0 -> select_mode F = M_not_ready.
Proof.
  intro H. apply select_mode_not_ready. rewrite H. reflexivity.
Qed.

Section StopTick.

Context {P : Platform}.

(** Every mode but the not-ready stop leaves [READY] as it is. *)
Lemma run_mode_READY (m : Mode) (r : Run) :
  m <> M_not_ready ->
  READY (FLAG (fst (run_mode m r))) = READY (FLAG (fst r)).
Proof.
  intro Hm. destruct r as [s t].
  destruct m; unfold run_mode;
    try (unfold stop_no_mode); try (unfold stop_not_ready);
    unfold call, stmt; cbn [fst snd].
  - destruct (keeps_Vref_GenControl (SpeedControl s)) as (F & _).
    rewrite F. destruct (keeps_SpeedControl s) as (F' & _).
    rewrite F'. reflexivity.
  - destruct (keeps_HallPosition_Test s) as (F & _).
    rewrite <- F. reflexivity.
  - reflexivity.
  - destruct (keeps_CurrentControl (OpenLoopControl (set_Theta_mode 1 s)))
      as (F & _).
    rewrite F. reflexivity.
  - destruct (keeps_Vref_GenControl s) as (F & _). rewrite F. reflexivity.
  - reflexivity.
  - reflexivity.
  - apply Align_frame.
  - reflexivity.
  - contradiction.
Qed.

(** A tick whose mode chain takes the outer [else]. *)
Lemma Control_stop_at_dispatch (hw : HwInputs) (s : State) :
  select_mode (FLAG (at_dispatch hw s)) = M_not_ready ->
  Control hw s = clear_mode_flags_and_READY (halted (at_dispatch hw s)).
Proof.
  intro M. rewrite Control_stages, M.
  unfold run_mode. rewrite stop_not_ready_halted. unfold at_dispatch.
  generalize (Control_prepare hw s). intro r. reflexivity.
Qed.

(** A tick that finds or leaves [READY] clear takes it. *)
Lemma Control_not_ready (hw : HwInputs) (s : State) :
  READY (FLAG s) = 0 \/ READY (FLAG (Control hw s)) = 0 ->
  Control hw s = clear_mode_flags_and_READY (halted (at_dispatch hw s)).
Proof.
  intro H. apply Control_stop_at_dispatch.
  destruct H as [H | H].
  - apply select_mode_READY_clear. rewrite at_dispatch_FLAG.
    apply iter_SoftWareFault_READY.
    destruct (at_check_frame hw s) as (F & _). rewrite F. exact H.
  - destruct (select_mode (FLAG (at_dispatch hw s))) eqn:E;
      try reflexivity; exfalso;
      rewrite Control_stages, E, run_mode_READY in H
        by discriminate;
      fold (at_dispatch hw s) in H;
      (assert (N : select_mode (FLAG (at_dispatch hw s)) <> M_not_ready)
         by (rewrite E; discriminate));
      apply N, select_mode_READY_clear, H.
Qed.

End StopTick.

(* ================================================================== *)
(** * Fault monitor and safe stop: the properties *)
(* ================================================================== *)

Lemma trips_nonzero (s : State) :
  over_current s Ia || over_current s Ib || over_current s Ic = true ->
  exists k, trips s = S k.
Proof.
  unfold trips.
  destruct (over_current s Ia), (over_current s Ib), (over_current s Ic);
    cbn; intro H; try discriminate H; eexists; reflexivity.
Qed.

(** C1. A tick of [Control] whose sampled phase currents include one of
    magnitude 80 A or more ends with the PWM output disabled, the duties
    and the compare registers at zero, [FLAG.READY] at 0, [FLAG.FAULT]
    at 2 unless it was 1, and [FLTVAL] holding the values [INV] had at
    the protection check of that tick; the voltage and the currents of
    the snapshot are still those of [INV] when the tick ends. The state
    before the tick, and so the mode of the previous tick, is
    arbitrary. *)
Theorem over_current_stops_within_the_tick {P : Platform} (hw : HwInputs)
  (s : State)
  (H : over_current (at_check hw s) Ia || over_current (at_check hw s) Ib
       || over_current (at_check hw s) Ic = true) :
  let c := at_check hw s in
  let s' := Control hw s in
  pwm_disabled s' /\ duties_zero s' /\ compare_zero s' /\
  READY (FLAG s') = 0 /\
  FAULT (FLAG s') = (if FAULT (FLAG s) =? 1 then 1 else 2) /\
  FLTVAL s' = snapshot c /\
  FLT_Vdc (FLTVAL s') = s'.[Vdc] /\ FLT_Idc (FLTVAL s') = s'.[Idc] /\
  FLT_Ia (FLTVAL s') = s'.[Ia] /\ FLT_Ib (FLTVAL s') = s'.[Ib] /\
  FLT_Ic (FLTVAL s') = s'.[Ic] /\ FLT_Wrpm (FLTVAL s') = c.[Wrpm].
Proof.
  cbv zeta.
  destruct (trips_nonzero _ H) as [k K].
  pose proof (iter_SoftWareFault_succ k (at_check hw s)) as Same.
  pose proof (at_dispatch_eq hw s) as Q. rewrite K in Q.
  pose proof (at_dispatch_FAULT hw s) as Fq. rewrite K in Fq.
  revert Same Q.
  generalize (Nat.iter (S k) SoftWareFault (at_check hw s)).
  intros p (Fp & Vp & Ip & Tp & Bp & _) Q.
  destruct (prepare_tail_frame hw p) as (Fr & Vr & _).
  destruct (prepare_tail_outputs P hw p)
    as (Tr & Br & Rvdc & Ridc & Ria & Rib & Ric).
  cbv zeta in Tr, Br, Rvdc, Ridc, Ria, Rib, Ric.
  rewrite <- Q in Fr, Vr, Tr, Br, Rvdc, Ridc, Ria, Rib, Ric.
  assert (R0 : READY (FLAG (at_dispatch hw s)) = 0)
    by (rewrite Fr, Fp; reflexivity).
  rewrite (Control_stop_at_dispatch hw s
             (select_mode_READY_clear _ R0)).
  assert (V : FLTVAL (at_dispatch hw s) = snapshot (at_check hw s))
    by (rewrite Vr, Vp; reflexivity).
  destruct Ip as (Ifld & _).
  assert (Cur : forall x,
    fld (INV p) x = fld (INV (SoftWareFault (at_check hw s))) x)
    by exact Ifld.
  assert (Evdc : (at_dispatch hw s).[Vdc] = (at_check hw s).[Vdc])
    by (rewrite Rvdc; apply Cur).
  assert (Eidc : (at_dispatch hw s).[Idc] = (at_check hw s).[Idc])
    by (rewrite Ridc; apply Cur).
  assert (Eia : (at_dispatch hw s).[Ia] = (at_check hw s).[Ia])
    by (rewrite Ria; apply Cur).
  assert (Eib : (at_dispatch hw s).[Ib] = (at_check hw s).[Ib])
    by (rewrite Rib; apply Cur).
  assert (Eic : (at_dispatch hw s).[Ic] = (at_check hw s).[Ic])
    by (rewrite Ric; apply Cur).
  rewrite software_fault_code_spec in Fq.
  clear Q Fr Vr Tr Br Rvdc Ridc Ria Rib Ric Fp Vp Tp Bp Ifld Cur K H.
  revert R0 V Evdc Eidc Eia Eib Eic Fq.
  generalize (at_dispatch hw s) as q. generalize (at_check hw s) as c.
  intros c q R0 V Evdc Eidc Eia Eib Eic Fq.
  destruct (not_ready_stop_outputs q)
    as (O1 & O2 & O3 & O4 & O5 & O6 & Ovdc & Oidc & Oia & Oib & Oic).
  cbv zeta in O1, O2, O3, O4, O5, O6, Ovdc, Oidc, Oia, Oib, Oic.
  revert O1 O2 O3 O4 O5 O6 Ovdc Oidc Oia Oib Oic.
  generalize (clear_mode_flags_and_READY (halted q)) as s'.
  intros s' O1 O2 O3 O4 O5 O6 Ovdc Oidc Oia Oib Oic.
  rewrite O5, O6, Ovdc, Oidc, Oia, Oib, Oic, V, Evdc, Eidc, Eia, Eib, Eic.
  split; [exact O1 | ]. split; [exact O2 | ]. split; [exact O3 | ].
  split; [exact O4 | ]. split; [exact Fq | ]. repeat split.
Qed.

Lemma over_current_stops_within_the_tick_witness :
  over_current (at_check quiet one_phase_over) Ia
  || over_current (at_check quiet one_phase_over) Ib
  || over_current (at_check quiet one_phase_over) Ic = true /\
  pwm_disabled (Control (P := bench) quiet one_phase_over) /\
  FAULT (FLAG (Control (P := bench) quiet one_phase_over)) = 2 /\
  FLT_Ia (FLTVAL (Control (P := bench) quiet one_phase_over))
  = f32_of_Z 100.
Proof.
  assert (H : over_current (at_check quiet one_phase_over) Ia
              || over_current (at_check quiet one_phase_over) Ib
              || over_current (at_check quiet one_phase_over) Ic = true)
    by (vm_compute; reflexivity).
  split; [exact H | ].
  pose proof (over_current_stops_within_the_tick (P := bench) quiet
                one_phase_over H) as T.
  cbv zeta in T.
  destruct T as (T1 & _ & _ & _ & T5 & T6 & _).
  split; [exact T1 | ].
  split; [exact T5 | ].
  rewrite T6. vm_compute. reflexivity.
Defined.

(** C2. Once [FLAG.FAULT] is 1 it stays 1 through every tick of
    [Control], every fault-pin interrupt, every call of [SoftWareFault]
    and every external write that leaves the fault code alone: a
    software fault never turns the code into 2, and no function of the
    core turns it into 0. *)
Theorem hardware_fault_code_is_kept {P : Platform} (s s' : State)
  (H : FAULT (FLAG s) = 1) (Hist : history leaves_fault_code s s') :
  FAULT (FLAG s') = 1 /\
  FAULT (FLAG (SoftWareFault s')) = 1 /\
  (forall hw, FAULT (FLAG (Control hw s')) = 1) /\
  (forall s0, FAULT (FLAG (SoftWareFault (HardWareFault s0))) = 1).
Proof.
  assert (Tick : forall hw u, FAULT (FLAG u) = 1 ->
                              FAULT (FLAG (Control hw u)) = 1).
  { intros hw u U. rewrite Control_FAULT, at_dispatch_FAULT.
    destruct (trips (at_check hw u)); rewrite U; reflexivity. }
  assert (Soft : forall u, FAULT (FLAG u) = 1 ->
                           FAULT (FLAG (SoftWareFault u)) = 1).
  { intros u U. rewrite SoftWareFault_FLAG. proj_simpl.
    rewrite U. reflexivity. }
  assert (K : FAULT (FLAG s') = 1).
  { induction Hist as [s | hw s s' _ IH | s s' _ IH | s s' _ IH
                       | s s' s'' _ IH E].
    - exact H.
    - apply Tick, IH, H.
    - reflexivity.
    - apply Soft, IH, H.
    - unfold leaves_fault_code in E. rewrite E. apply IH, H. }
  split; [exact K | ].
  split; [apply Soft, K | ].
  split; [intro hw; apply Tick, K | ].
  intro s0. apply Soft. reflexivity.
Qed.

Lemma hardware_fault_code_is_kept_witness :
  FAULT (FLAG hardware_faulted) = 1 /\
  history (P := bench) leaves_fault_code hardware_faulted
    (Control (P := bench) quiet (SoftWareFault hardware_faulted)) /\
  FAULT (FLAG (Control (P := bench) quiet (SoftWareFault hardware_faulted)))
  = 1.
Proof.
  assert (H : FAULT (FLAG hardware_faulted) = 1) by reflexivity.
  assert (Hist : history (P := bench) leaves_fault_code hardware_faulted
            (Control (P := bench) quiet (SoftWareFault hardware_faulted))).
  { apply history_tick, history_software_fault, history_nil. }
  split; [exact H | ]. split; [exact Hist | ].
  exact (proj1 (hardware_fault_code_is_kept (P := bench) _ _ H Hist)).
Defined.

(** C3, as the code has it. A repeated software fault repeats the
    fault code, the ready bit, the PWM state, the duties and the
    snapshot of the first one, and counts again: after [k + 1] calls
    [FaultCnt] has advanced by [k + 1] (modulo 2^16), so two calls never
    leave the state of one. The protection stage of a tick calls
    [SoftWareFault] once per phase at or above 80 A, and the tick ends
    with the counter advanced by the number of such phases. *)
Theorem repeated_software_fault_counts_again {P : Platform} (hw : HwInputs)
  (s : State) (k : nat) :
  same_except_FaultCnt (SoftWareFault s) (Nat.iter (S k) SoftWareFault s) /\
  FaultCnt (Nat.iter (S k) SoftWareFault s)
  = wrap16 (FaultCnt s + Z.of_nat (S k)) /\
  FaultCnt (SoftWareFault (SoftWareFault s)) <> FaultCnt (SoftWareFault s) /\
  (forall t, Control_protect (s, t) =
             (Nat.iter (trips s) SoftWareFault s,
              t ++ repeat C_SoftWareFault (trips s))) /\
  FaultCnt (Control hw s) =
  match trips (at_check hw s) with
  | O => FaultCnt s
  | S n => wrap16 (FaultCnt s + Z.of_nat (S n))
  end.
Proof.
  split; [apply iter_SoftWareFault_succ | ].
  split; [apply iter_SoftWareFault_FaultCnt | ].
  split.
  { rewrite !SoftWareFault_FaultCnt, wrap16_succ. apply wrap16_succ_neq. }
  split; [intro t; apply Control_protect_eq | ].
  rewrite Control_FaultCnt, at_dispatch_eq.
  destruct (prepare_tail_frame hw
    (Nat.iter (trips (at_check hw s)) SoftWareFault (at_check hw s)))
    as (_ & _ & C & _).
  rewrite C.
  destruct (at_check_frame hw s) as (_ & _ & C' & _).
  destruct (trips (at_check hw s)) as [ | n].
  - exact C'.
  - rewrite iter_SoftWareFault_FaultCnt, C'. reflexivity.
Qed.

(** Two calls of [SoftWareFault] do not leave the state of one call,
    and a tick in which two phases trip does not leave the fault counter
    of a tick in which one phase trips. *)
Lemma second_software_fault_is_counted :
  SoftWareFault (SoftWareFault power_on) <> SoftWareFault power_on /\
  FaultCnt (SoftWareFault power_on) = 1 /\
  FaultCnt (SoftWareFault (SoftWareFault power_on)) = 2 /\
  trips (at_check quiet one_phase_over) = 1%nat /\
  trips (at_check quiet two_phases_over) = 2%nat /\
  FaultCnt (Control (P := bench) quiet one_phase_over) = 1 /\
  FaultCnt (Control (P := bench) quiet two_phases_over) = 2.
Proof.
  split.
  { intro E. apply (f_equal FaultCnt) in E. vm_compute in E.
    discriminate E. }
  repeat split; vm_compute; reflexivity.
Qed.

(** C7. Both stop branches of [Control] run [PwmSwOff], [PwmDutyUpt]
    and [ResetController] and then clear the six mode-select flags; they
    leave the PWM output disabled and the duties and compare registers
    at zero. The no-mode branch leaves [FLAG.READY] as it was, the
    not-ready branch clears it, and that is their only difference. A
    tick that finds [FLAG.READY] at 0, or leaves it at 0, ends with the
    duties at zero and the PWM output disabled, whatever the other
    flags are. *)
Theorem safe_stop_branches {P : Platform} (hw : HwInputs) (s : State)
  (r : Run)
  (H : READY (FLAG s) = 0 \/ READY (FLAG (Control hw s)) = 0) :
  let a := stop_no_mode r in
  let b := stop_not_ready r in
  (fst a = clear_mode_flags (halted (fst r)) /\
   snd a = snd r ++ stop_calls /\
   pwm_disabled (fst a) /\ duties_zero (fst a) /\ compare_zero (fst a) /\
   mode_flags_clear (FLAG (fst a)) /\
   READY (FLAG (fst a)) = READY (FLAG (fst r))) /\
  (fst b = clear_mode_flags_and_READY (halted (fst r)) /\
   snd b = snd r ++ stop_calls /\
   pwm_disabled (fst b) /\ duties_zero (fst b) /\ compare_zero (fst b) /\
   mode_flags_clear (FLAG (fst b)) /\
   READY (FLAG (fst b)) = 0) /\
  fst b = set_FLAG (set_READY 0 (FLAG (fst a))) (fst a) /\
  (duties_zero (Control hw s) /\ pwm_disabled (Control hw s) /\
   compare_zero (Control hw s)).
Proof.
  cbv zeta.
  rewrite stop_no_mode_halted, stop_not_ready_halted. cbn [fst snd].
  rewrite (Control_not_ready hw s H).
  generalize (at_dispatch hw s) as q. generalize (fst r) as u.
  intros u q.
  destruct (no_mode_stop_outputs u) as (A1 & A2 & A3 & A4).
  destruct (not_ready_stop_outputs u) as (B1 & B2 & B3 & B4 & _).
  destruct (not_ready_stop_outputs q) as (C1 & C2 & C3 & _).
  cbv zeta in *.
  split; [ | split; [ | split]].
  - split; [reflexivity | ]. split; [reflexivity | ].
    split; [exact A1 | ]. split; [exact A2 | ]. split; [exact A3 | ].
    split; [repeat split | exact A4].
  - split; [reflexivity | ]. split; [reflexivity | ].
    split; [exact B1 | ]. split; [exact B2 | ]. split; [exact B3 | ].
    split; [repeat split | exact B4].
  - apply clear_mode_flags_and_READY_eq.
  - split; [exact C2 | ]. split; [exact C1 | exact C3].
Qed.

Lemma safe_stop_branches_witness :
  (READY (FLAG all_modes_not_ready) = 0 \/
   READY (FLAG (Control (P := bench) quiet all_modes_not_ready)) = 0) /\
  duties_zero (Control (P := bench) quiet all_modes_not_ready) /\
  pwm_disabled (Control (P := bench) quiet all_modes_not_ready).
Proof.
  assert (H : READY (FLAG all_modes_not_ready) = 0 \/
    READY (FLAG (Control (P := bench) quiet all_modes_not_ready)) = 0)
    by (left; reflexivity).
  split; [exact H | ].
  pose proof (safe_stop_branches (P := bench) quiet all_modes_not_ready
                (all_modes_not_ready, []) H) as T.
  cbv zeta in T. destruct T as (_ & _ & _ & T1 & T2 & _).
  split; [exact T1 | exact T2].
Defined.

(* ================================================================== *)
(** * Mode selection and the angle selector: the properties *)
(* ================================================================== *)

Lemma find_first_match {A : Type} (f : A -> bool) (before : list A) (m : A)
  (after : list A) :
  (forall x, In x before -> f x = false) -> f m = true ->
  find f (before ++ m :: after) = Some m.
Proof.
  intros Hb Hm. induction before as [ | x before IH]; cbn [app find].
  - rewrite Hm. reflexivity.
  - rewrite (Hb x (or_introl eq_refl)). apply IH.
    intros y Hy. apply Hb. right. exact Hy.
Qed.

Lemma find_no_match {A : Type} (f : A -> bool) (l : list A) :
  (forall x, In x l -> f x = false) -> find f l = None.
Proof.
  intro H. induction l as [ | x l IH]; [reflexivity | ].
  cbn [find]. rewrite (H x (or_introl eq_refl)). apply IH.
  intros y Hy. apply H. right. exact Hy.
Qed.

Lemma select_mode_first_match (F : CONTROL_FLAG) (before : list Mode)
  (m : Mode) (after : list Mode) :
  READY F <> 0 -> FAULT F = 0 ->
  mode_priority = before ++ m :: after ->
  (forall x, In x before -> mode_flag x F = 0) -> mode_flag m F <> 0 ->
  select_mode F = m.
Proof.
  intros Hr Hf E Hb Hm. unfold select_mode.
  rewrite (proj2 (truthy_true _) Hr), Hf. cbn [truthy Z.eqb negb andb].
  rewrite E, (find_first_match _ before m after); [reflexivity | | ].
  - intros x Hx. apply truthy_false, Hb, Hx.
  - apply truthy_true, Hm.
Qed.

Lemma select_mode_no_match (F : CONTROL_FLAG) :
  READY F <> 0 -> FAULT F = 0 ->
  (forall x, In x mode_priority -> mode_flag x F = 0) ->
  select_mode F = M_no_mode.
Proof.
  intros Hr Hf H. unfold select_mode.
  rewrite (proj2 (truthy_true _) Hr), Hf. cbn [truthy Z.eqb negb andb].
  rewrite find_no_match; [reflexivity | ].
  intros x Hx. apply truthy_false, H, Hx.
Qed.

Lemma select_mode_stop (F : CONTROL_FLAG) :
  READY F = 0 \/ FAULT F <> 0 -> select_mode F = M_not_ready.
Proof.
  intro H. apply select_mode_not_ready. destruct H as [H | H].
  - rewrite H. reflexivity.
  - rewrite (proj2 (truthy_true _) H). apply Bool.andb_false_r.
Qed.

(** C6. With [FLAG.READY] set, [FLAG.FAULT] clear and both
    [FLAG.INV_RUN] and [FLAG.INV_OLC] set, the mode chain calls
    [SpeedControl] and then [Vref_GenControl] and nothing else: neither
    [OpenLoopControl] nor [CurrentControl]. In every state the chain
    runs the one branch that [select_mode] names: the first mode of the
    priority list whose flag is set, the no-mode stop when none is, and
    the not-ready stop when [FLAG.READY] is clear or [FLAG.FAULT] is
    set. *)
Theorem closed_loop_has_priority {P : Platform} (r : Run)
  (Hready : READY (FLAG (fst r)) <> 0) (Hfault : FAULT (FLAG (fst r)) = 0)
  (Hrun : INV_RUN (FLAG (fst r)) <> 0) (Holc : INV_OLC (FLAG (fst r)) <> 0) :
  select_mode (FLAG (fst r)) = M_closed_loop /\
  Control_dispatch r =
  call C_Vref_GenControl Vref_GenControl
    (call C_SpeedControl SpeedControl r) /\
  snd (Control_dispatch r) = snd r ++ [C_SpeedControl; C_Vref_GenControl] /\
  (forall r', Control_dispatch r' = run_mode (select_mode (FLAG (fst r'))) r')
  /\
  (forall F before m after,
     READY F <> 0 -> FAULT F = 0 ->
     mode_priority = before ++ m :: after ->
     (forall x, In x before -> mode_flag x F = 0) -> mode_flag m F <> 0 ->
     select_mode F = m) /\
  (forall F,
     READY F <> 0 -> FAULT F = 0 ->
     (forall x, In x mode_priority -> mode_flag x F = 0) ->
     select_mode F = M_no_mode) /\
  (forall F, READY F = 0 \/ FAULT F <> 0 -> select_mode F = M_not_ready).
Proof.
  assert (M : select_mode (FLAG (fst r)) = M_closed_loop).
  { apply (select_mode_first_match _ [] M_closed_loop
             (tl mode_priority) Hready Hfault eq_refl).
    - intros x [].
    - exact Hrun. }
  split; [exact M | ].
  split; [rewrite Control_dispatch_select, M; reflexivity | ].
  split.
  { rewrite Control_dispatch_select, M. unfold run_mode, call.
    cbn [fst snd]. rewrite <- app_assoc. reflexivity. }
  split; [exact Control_dispatch_select | ].
  split; [exact select_mode_first_match | ].
  split; [exact select_mode_no_match | exact select_mode_stop].
Qed.

Lemma closed_loop_has_priority_witness :
  READY (FLAG (at_dispatch (P := bench) quiet run_and_olc_requested)) <> 0 /\
  FAULT (FLAG (at_dispatch (P := bench) quiet run_and_olc_requested)) = 0 /\
  INV_RUN (FLAG (at_dispatch (P := bench) quiet run_and_olc_requested)) <> 0
  /\
  INV_OLC (FLAG (at_dispatch (P := bench) quiet run_and_olc_requested)) <> 0
  /\
  Control_calls (P := bench) quiet run_and_olc_requested =
  [C_AdcProcess; C_UpdateController; C_Hallsensor_Observer;
   C_SpeedControl; C_Vref_GenControl].
Proof.
  assert (H1 : READY (FLAG (fst (Control_prepare (P := bench) quiet
                                   run_and_olc_requested))) <> 0)
    by (vm_compute; discriminate).
  assert (H2 : FAULT (FLAG (fst (Control_prepare (P := bench) quiet
                                   run_and_olc_requested))) = 0)
    by (vm_compute; reflexivity).
  assert (H3 : INV_RUN (FLAG (fst (Control_prepare (P := bench) quiet
                                     run_and_olc_requested))) <> 0)
    by (vm_compute; discriminate).
  assert (H4 : INV_OLC (FLAG (fst (Control_prepare (P := bench) quiet
                                     run_and_olc_requested))) <> 0)
    by (vm_compute; discriminate).
  split; [exact H1 | ]. split; [exact H2 | ].
  split; [exact H3 | ]. split; [exact H4 | ].
  destruct (closed_loop_has_priority (P := bench) _ H1 H2 H3 H4)
    as (_ & _ & T & _).
  unfold Control_calls, Control_run. rewrite T.
  vm_compute. reflexivity.
Defined.

(** The angle selection of the three regulators. *)
Lemma CurrentControl_regulate_Thetar (P : Platform) (u : State) :
  (CurrentControl_regulate u).[Thetar] =
  if Theta_mode u =? 1 then u.[Thetar_OLC] else u.[Thetar_est_Hall].
Proof. reflexivity. Qed.

Lemma CurrentControl_torque_ref_angles (u : State) :
  Theta_mode (CurrentControl_torque_ref u) = Theta_mode u /\
  (CurrentControl_torque_ref u).[Thetar_OLC] = u.[Thetar_OLC] /\
  (CurrentControl_torque_ref u).[Thetar_est_Hall] = u.[Thetar_est_Hall].
Proof.
  unfold CurrentControl_torque_ref.
  destruct (INV_RUN (FLAG u) =? 0); repeat split.
Qed.

Lemma CurrentControl_Thetar (P : Platform) (u : State) :
  (CurrentControl u).[Thetar] =
  if Theta_mode u =? 1 then u.[Thetar_OLC] else u.[Thetar_est_Hall].
Proof.
  unfold CurrentControl. rewrite CurrentControl_regulate_Thetar.
  destruct (CurrentControl_torque_ref_angles u) as (T & O & H).
  rewrite T, O, H. reflexivity.
Qed.

Lemma VoltageOpenLoopControl_Thetar (P : Platform) (u : State) :
  (VoltageOpenLoopControl u).[Thetar] =
  if Theta_mode u =? 0
  then BOUND_PI (u.[Thetar_OLC]
                 + u.[Wrpm_ref_OLC] * RPM2RM * u.[PP] * Tsamp)%f32
  else EXT_1 u Thetar_EXT_old.
Proof. reflexivity. Qed.

(** C10. Once [Theta_mode] is 1 it stays 1 through every tick of
    [Control], every fault-pin interrupt, every software fault and
    every external write that leaves it alone; a tick writes it only in
    the open-loop current branch, where it writes 1, and neither
    [ResetController] nor the stop branches write it. From then on
    [CurrentControl] and [Vref_GenControl] take the open-loop angle and
    [VoltageOpenLoopControl] the angle of the extended-EMF observer,
    whatever mode calls them. *)
Theorem Theta_mode_is_one_way {P : Platform} (s s' : State)
  (H : Theta_mode s = 1) (Hist : history leaves_Theta_mode s s') :
  Theta_mode s' = 1 /\
  (CurrentControl s').[Thetar] = s'.[Thetar_OLC] /\
  Vref_GenControl s' = Vref_Gen_output (Vref_Gen_OLC s') /\
  (VoltageOpenLoopControl s').[Thetar] = EXT_1 s' Thetar_EXT_old /\
  (forall hw s0,
     Theta_mode (Control hw s0) =
     match select_mode (FLAG (at_dispatch hw s0)) with
     | M_open_loop_current => 1
     | _ => Theta_mode s0
     end) /\
  (forall s0, Theta_mode (ResetController s0) = Theta_mode s0) /\
  (forall r, Theta_mode (fst (stop_no_mode r)) = Theta_mode (fst r)) /\
  (forall r, Theta_mode (fst (stop_not_ready r)) = Theta_mode (fst r)).
Proof.
  assert (K : Theta_mode s' = 1).
  { induction Hist as [s | hw s s' _ IH | s s' _ IH | s s' _ IH
                       | s s' s'' _ IH E].
    - exact H.
    - rewrite Control_Theta_mode, (IH H).
      destruct (select_mode (FLAG (at_dispatch hw s'))); reflexivity.
    - exact (IH H).
    - exact (IH H).
    - unfold leaves_Theta_mode in E. rewrite E. exact (IH H). }
  split; [exact K | ].
  split; [rewrite CurrentControl_Thetar, K; reflexivity | ].
  split; [unfold Vref_GenControl; rewrite K; reflexivity | ].
  split; [rewrite VoltageOpenLoopControl_Thetar, K; reflexivity | ].
  split; [exact Control_Theta_mode | ].
  split; [reflexivity | ].
  split; intro r.
  - apply (run_mode_Theta_mode M_no_mode r).
  - apply (run_mode_Theta_mode M_not_ready r).
Qed.

Lemma Theta_mode_is_one_way_witness :
  Theta_mode after_olc_tick = 1 /\
  history (P := bench) leaves_Theta_mode after_olc_tick
    (Control (P := bench) quiet (request_run after_olc_tick)) /\
  Theta_mode (Control (P := bench) quiet (request_run after_olc_tick)) = 1.
Proof.
  assert (H : Theta_mode after_olc_tick = 1) by (vm_compute; reflexivity).
  assert (Hist : history (P := bench) leaves_Theta_mode after_olc_tick
            (Control (P := bench) quiet (request_run after_olc_tick))).
  { apply history_tick.
    apply (history_external _ after_olc_tick after_olc_tick);
      [apply history_nil | reflexivity]. }
  split; [exact H | ]. split; [exact Hist | ].
  exact (proj1 (Theta_mode_is_one_way (P := bench) _ _ H Hist)).
Defined.

(* ================================================================== *)
(** * Square-wave injection: the properties *)
(* ================================================================== *)

(** What one call leaves in the members it assigns first. *)
Lemma VoltageInjection_SquareWave_refs (P : Platform) (s : State) :
  let s' := VoltageInjection_SquareWave s in
  s'.[Vmag_inj] = f_1 /\ s'.[cosThetar] = f_1 /\ s'.[sinThetar] = f_0 /\
  s'.[cosThetar_adv] = f_1 /\ s'.[sinThetar_adv] = f_0 /\
  s'.[Vqsr_ref_unsat] = f_0 /\
  s'.[Vdsr_ref_unsat] = (if cnt_inj s >=? 2 then f_1 else (- f_1)%f32) /\
  cnt_inj s' = (if cnt_inj s >=? 2 then 1 else 2).
Proof.
  cbv zeta. repeat split.
  change (cnt_inj (VoltageInjection_SquareWave s))
    with ((if cnt_inj s >=? 2 then 0 else 1) + 1).
  destruct (cnt_inj s >=? 2); reflexivity.
Qed.

(** C5, as the code has it. Every call of
    [VoltageInjection_SquareWave] leaves the q-axis reference at zero,
    the sine at 0 and the cosine at 1, and a d-axis reference of
    magnitude [Vmag_inj] = 1: positive when the call finds [cnt_inj] at
    2 or more, negative otherwise. The call leaves [cnt_inj] at 1 in the
    first case and at 2 in the second, so the sign changes on every
    call: each polarity is held for one tick, not two. *)
Theorem injection_alternates_every_tick {P : Platform} (s : State)
  (k : nat) :
  let s' := VoltageInjection_SquareWave s in
  s'.[Vqsr_ref_unsat] = f_0 /\ s'.[sinThetar] = f_0 /\
  s'.[cosThetar] = f_1 /\ s'.[Vmag_inj] = f_1 /\
  s'.[Vdsr_ref_unsat] = (if cnt_inj s >=? 2 then f_1 else (- f_1)%f32) /\
  cnt_inj s' = (if cnt_inj s >=? 2 then 1 else 2) /\
  injected_Vd s (S k) = (- injected_Vd s k)%f32 /\
  injected_Vd s (S k) <> injected_Vd s k.
Proof.
  cbv zeta.
  destruct (VoltageInjection_SquareWave_refs P s)
    as (Hm & Hc & Hs & _ & _ & Hq & Hd & Hn).
  cbv zeta in Hm, Hc, Hs, Hq, Hd, Hn.
  split; [exact Hq | ]. split; [exact Hs | ]. split; [exact Hc | ].
  split; [exact Hm | ]. split; [exact Hd | ]. split; [exact Hn | ].
  unfold injected_Vd.
  change (Nat.iter (S (S k)) VoltageInjection_SquareWave s)
    with (VoltageInjection_SquareWave
            (Nat.iter (S k) VoltageInjection_SquareWave s)).
  change (Nat.iter (S k) VoltageInjection_SquareWave s)
    with (VoltageInjection_SquareWave
            (Nat.iter k VoltageInjection_SquareWave s)).
  generalize (Nat.iter k VoltageInjection_SquareWave s) as u. intro u.
  destruct (VoltageInjection_SquareWave_refs P
              (VoltageInjection_SquareWave u))
    as (_ & _ & _ & _ & _ & _ & Hd2 & _).
  destruct (VoltageInjection_SquareWave_refs P u)
    as (_ & _ & _ & _ & _ & _ & Hd1 & Hn1).
  cbv zeta in Hd1, Hd2, Hn1.
  rewrite Hd2, Hn1, Hd1.
  destruct (cnt_inj u >=? 2); split; try reflexivity; discriminate.
Qed.

(** On the bench platform the injected d-axis reference of the first
    three ticks is -1, +1, -1: no polarity is held for two ticks. *)
Lemma injection_has_no_two_tick_dwell :
  injected_Vd (P := bench) power_on 0 = (- f_1)%f32 /\
  injected_Vd (P := bench) power_on 1 = f_1 /\
  injected_Vd (P := bench) power_on 2 = (- f_1)%f32 /\
  ~ two_tick_dwell (injected_Vd (P := bench) power_on).
Proof.
  assert (V0 : injected_Vd (P := bench) power_on 0 = (- f_1)%f32)
    by (vm_compute; reflexivity).
  assert (V1 : injected_Vd (P := bench) power_on 1 = f_1)
    by (vm_compute; reflexivity).
  assert (V2 : injected_Vd (P := bench) power_on 2 = (- f_1)%f32)
    by (vm_compute; reflexivity).
  repeat split; try assumption.
  intro D. destruct (D 0%nat) as [E | E]; rewrite V1 in E;
    [rewrite V0 in E | rewrite V2 in E]; discriminate E.
Qed.

(* ================================================================== *)
(** * Extended-EMF observer: the properties *)
(* ================================================================== *)

Lemma f_1_eq : f_1 = S754_finite false 8388608 (-23).
Proof. vm_compute. reflexivity. Qed.

(** Comparison of a positive finite value with 1, either way round. *)
Lemma SFcompare_finite_one (m : positive) (e : Z) :
  SFcompare (S754_finite false m e) (S754_finite false 8388608 (-23)) =
  Some match e ?= -23 with
       | Lt => Lt
       | Gt => Gt
       | Eq => Pos.compare_cont Eq m 8388608
       end.
Proof. reflexivity. Qed.

Lemma SFcompare_one_finite (m : positive) (e : Z) :
  SFcompare (S754_finite false 8388608 (-23)) (S754_finite false m e) =
  Some match -23 ?= e with
       | Lt => Lt
       | Gt => Gt
       | Eq => Pos.compare_cont Eq 8388608 m
       end.
Proof. reflexivity. Qed.

Lemma finite_not_below_one (m : positive) (e : Z) :
  SFltb (S754_finite false m e) (S754_finite false 8388608 (-23)) = false ->
  SFleb (S754_finite false 8388608 (-23)) (S754_finite false m e) = true.
Proof.
  unfold SFltb, SFleb.
  rewrite SFcompare_finite_one, SFcompare_one_finite.
  rewrite !Pos.compare_cont_spec.
  rewrite (Z.compare_antisym e (-23)), (Pos.compare_antisym m 8388608).
  destruct (e ?= -23); simpl; try discriminate; try reflexivity.
  destruct (m ?= 8388608)%positive; simpl; try discriminate; reflexivity.
Qed.

(** A value that is not below 1 in magnitude is a number of magnitude
    at least 1, or not a number at all. *)
Lemma not_below_one (x : f32) :
  (fabs x <? f_1)%f32 = false ->
  is_zero x = false /\ (f_1 <=? fabs x)%f32 = negb (is_nan x).
Proof.
  rewrite f_1_eq. unfold f32_lt, f32_le, fabs.
  destruct x as [z | i | | sg m e]; intro H.
  - discriminate H.
  - split; reflexivity.
  - split; reflexivity.
  - split; [reflexivity | ].
    exact (finite_not_below_one m e H).
Qed.

Lemma guarded_magnitude (x : f32) :
  (fabs (guarded x) <? f_1)%f32 = false /\
  is_zero (guarded x) = false /\
  (f_1 <=? fabs (guarded x))%f32 = negb (is_nan x).
Proof.
  unfold guarded. destruct (fabs x <? f_1)%f32 eqn:E.
  - split; [vm_compute; reflexivity | ].
    split; [vm_compute; reflexivity | ].
    destruct x; try discriminate E; vm_compute; reflexivity.
  - split; [exact E | apply not_below_one, E].
Qed.

Lemma EXT_SS_Sync_guard_EEMFq (EXT : EXT_Sensorless) :
  EXT_SS_Sync_guard EXT EEMFq_est = guarded (EXT EEMFq_est) /\
  EXT_SS_Sync_guard EXT EEMFd_est = EXT EEMFd_est.
Proof.
  unfold EXT_SS_Sync_guard, guarded.
  destruct (fabs (EXT EEMFq_est) <? f_1)%f32; split; reflexivity.
Qed.

(** C9, as the code has it. After the current-model update an
    extended-EMF estimate [EEMFq_est] of magnitude below 1 is replaced
    by +1, whatever its sign, and the result is the second argument of
    the [atan2f] call that computes [Err_Thetar_EXT]. That argument is
    never zero and never of magnitude below 1, so [atan2f] is not called
    at (0, 0); it is of magnitude at least 1 exactly when the update did
    not produce a NaN, which the guard lets through. *)
Theorem EEMFq_guard {P : Platform} (EXT : EXT_Sensorless)
  (Vdss Vqss Idss Iqss : f32) :
  let m := EXT_SS_Sync_model EXT Vdss Vqss Idss Iqss in
  let out := EXT_SS_Sync EXT Vdss Vqss Idss Iqss in
  out EEMFq_est = guarded (m EEMFq_est) /\
  out Err_Thetar_EXT = atan2f (- m EEMFd_est)%f32 (out EEMFq_est) /\
  (fabs (out EEMFq_est) <? f_1)%f32 = false /\
  is_zero (out EEMFq_est) = false /\
  (f_1 <=? fabs (out EEMFq_est))%f32 = negb (is_nan (m EEMFq_est)).
Proof.
  cbv zeta. unfold EXT_SS_Sync.
  generalize (EXT_SS_Sync_model EXT Vdss Vqss Idss Iqss) as m. intro m.
  destruct (EXT_SS_Sync_guard_EEMFq m) as (Q & D).
  change (EXT_SS_Sync_error (EXT_SS_Sync_guard m) EEMFq_est)
    with (EXT_SS_Sync_guard m EEMFq_est).
  change (EXT_SS_Sync_error (EXT_SS_Sync_guard m) Err_Thetar_EXT)
    with (atan2f (- EXT_SS_Sync_guard m EEMFd_est)%f32
            (EXT_SS_Sync_guard m EEMFq_est)).
  rewrite Q, D. split; [reflexivity | ]. split; [reflexivity | ].
  apply guarded_magnitude.
Qed.

(** With an inductance estimate and a bandwidth of 2^100 the
    proportional gain overflows, its product with a zero current error
    is a NaN, and the NaN reaches [atan2f]: the second argument is not of
    magnitude 1 or more. A NaN sample of the current does the same. *)
Lemma EEMFq_guard_lets_NaN_through :
  EXT_SS_Sync (P := bench) EXT_overflowing f_0 f_0 f_0 f_0 EEMFq_est
  = S754_nan /\
  (f_1 <=?
   fabs (EXT_SS_Sync (P := bench) EXT_overflowing f_0 f_0 f_0 f_0 EEMFq_est))
    %f32 = false /\
  (f_1 <=?
   fabs (EXT_SS_Sync (P := bench) EXT_zero f_0 f_0 f_0 S754_nan EEMFq_est))
    %f32 = false.
Proof. repeat split; vm_compute; reflexivity. Qed.

(* ================================================================== *)
(** * Alignment sequencer: the properties *)
(* ================================================================== *)

Lemma CurrentControl_regulate_Idsr_ref (P : Platform) (v : State) :
  (CurrentControl_regulate v).[Idsr_ref] = v.[Idsr_ref].
Proof. reflexivity. Qed.

Lemma CurrentControl_Idsr_ref_zero (P : Platform) (w : State) :
  w.[Idsr_ref] = f_0 -> (CurrentControl w).[Idsr_ref] = f_0.
Proof.
  intro H. unfold CurrentControl. rewrite CurrentControl_regulate_Idsr_ref.
  unfold CurrentControl_torque_ref.
  destruct (INV_RUN (FLAG w) =? 0); [exact H | reflexivity].
Qed.

Lemma rd_set_Time_align (t : f32) (v : State) (x : InvF) :
  (set_Time_align t v).[x] = v.[x].
Proof. reflexivity. Qed.

Lemma rd_set_Mode_align (m : Z) (v : State) (x : InvF) :
  (set_Mode_align m v).[x] = v.[x].
Proof. reflexivity. Qed.

Lemma rd_hold_outputs (w : State) (x : InvF) :
  (PWM_BUF_ON_unless_FAULT (PwmSwOn (PwmDutyUpt w))).[x] = w.[x].
Proof. reflexivity. Qed.

Section Alignment.

Context {P : Platform}.

(** What a tick of [Align] does beside the step and the clock. *)
Lemma Align_done_eq (s : State) :
  Align_done (Align s) =
  (if Mode_align s =? 0 then 0
   else if Mode_align s =? 3 then 1 else Align_done s).
Proof.
  unfold Align.
  set (u := s.[Thetar <- f_0]).
  change (Mode_align s) with (Mode_align u).
  change (Align_done s) with (Align_done u).
  clearbody u. proj_simpl.
  destruct (Z.eqb_spec (Mode_align u) 0) as [E0 | N0].
  { rewrite (Align_switch_0 u E0). reflexivity. }
  destruct (Z.eqb_spec (Mode_align u) 3) as [E3 | N3].
  { rewrite (Align_switch_3 u E3). reflexivity. }
  destruct (Z.eq_dec (Mode_align u) 1) as [E1 | N1].
  { rewrite (Align_switch_1 u E1), Align_hold_eq. proj_simpl.
    destruct (keeps_Align_hold_regulators u)
      as (_ & _ & _ & _ & _ & _ & _ & D & _).
    cbv beta in D. rewrite D. reflexivity. }
  destruct (Z.eq_dec (Mode_align u) 2) as [E2 | N2].
  { rewrite (Align_switch_2 u E2), Align_hold_eq. proj_simpl.
    destruct (keeps_Align_hold_regulators (u.[Idsr_ref <- f_0]))
      as (_ & _ & _ & _ & _ & _ & _ & D & _).
    cbv beta in D. rewrite D. reflexivity. }
  rewrite (Align_switch_other u N0 N1 N2 N3). reflexivity.
Qed.

Lemma Align_Idsr_ref_0 (s : State) :
  Mode_align s = 0 -> (Align s).[Idsr_ref] = s.[Idsr_align].
Proof.
  unfold Align.
  set (u := s.[Thetar <- f_0]).
  change (Mode_align s) with (Mode_align u).
  change (s.[Idsr_align]) with (u.[Idsr_align]).
  clearbody u. rewrite rd_set_Time_align. intro E0.
  rewrite (Align_switch_0 u E0). reflexivity.
Qed.

Lemma Align_Idsr_ref_2 (s : State) :
  Mode_align s = 2 -> (Align s).[Idsr_ref] = f_0.
Proof.
  unfold Align.
  set (u := s.[Thetar <- f_0]).
  change (Mode_align s) with (Mode_align u).
  clearbody u. rewrite rd_set_Time_align. intro E2.
  rewrite (Align_switch_2 u E2), Align_hold_eq.
  rewrite rd_set_Mode_align, rd_hold_outputs.
  apply CurrentControl_Idsr_ref_zero. reflexivity.
Qed.

Lemma Align_INV_ALIGN_3 (s : State) :
  Mode_align s = 3 -> INV_ALIGN (FLAG (Align s)) = 0.
Proof.
  unfold Align.
  set (u := s.[Thetar <- f_0]).
  change (Mode_align s) with (Mode_align u).
  clearbody u. proj_simpl. intro E3.
  rewrite (Align_switch_3 u E3). reflexivity.
Qed.

(** The step and the clock after [n] ticks. *)
Lemma Align_iter_clock (n : nat) (s : State) :
  (Mode_align (Nat.iter n Align s), Time_align (Nat.iter n Align s))
  = Nat.iter n Align_clock (Mode_align s, Time_align s).
Proof.
  induction n as [ | n IH]; [reflexivity | ].
  rewrite !Nat.iter_succ, Align_clock_eq, IH. reflexivity.
Qed.

Lemma Align_iter_Mode (n : nat) (s : State) :
  Mode_align (Nat.iter n Align s)
  = fst (Nat.iter n Align_clock (Mode_align s, Time_align s)).
Proof. rewrite <- Align_iter_clock. reflexivity. Qed.

(** The clock alone. *)
Lemma waits_prefix (limit : f32) (n k : nat) (t t' : f32) :
  waits limit n t = Some t' -> (k <= n)%nat ->
  exists t'', waits limit k t = Some t''.
Proof.
  revert k t. induction n as [ | n IH]; intros k t W L.
  - replace k with 0%nat by lia. exists t. reflexivity.
  - destruct k as [ | k]; [exists t; reflexivity | ].
    cbn [waits] in *. destruct (t >=? limit)%f32; [discriminate W | ].
    apply (IH k _ W). lia.
Qed.

Lemma Align_clock_waits_1 (n : nat) (t t' : f32) :
  waits f_4 n t = Some t' -> Nat.iter n Align_clock (1, t) = (1, t').
Proof.
  revert t. induction n as [ | n IH]; intros t W.
  - cbn in W. injection W as <-. reflexivity.
  - cbn [waits] in W. rewrite Nat.iter_succ_r.
    destruct (t >=? f_4)%f32 eqn:E; [discriminate W | ].
    unfold Align_clock at 2. cbn [Z.eqb Pos.eqb]. rewrite E.
    apply IH, W.
Qed.

Lemma Align_clock_waits_2 (n : nat) (t t' : f32) :
  waits f_5 n t = Some t' -> Nat.iter n Align_clock (2, t) = (2, t').
Proof.
  revert t. induction n as [ | n IH]; intros t W.
  - cbn in W. injection W as <-. reflexivity.
  - cbn [waits] in W. rewrite Nat.iter_succ_r.
    destruct (t >=? f_5)%f32 eqn:E; [discriminate W | ].
    unfold Align_clock at 2. cbn [Z.eqb Pos.eqb]. rewrite E.
    apply IH, W.
Qed.

(** The steps of a whole alignment, on the clock. *)
Lemma Align_clock_schedule (n1 n2 : nat) (t0 t1 t2 : f32) :
  waits f_4 n1 (f_0 + Tsamp)%f32 = Some t1 -> (t1 >=? f_4)%f32 = true ->
  waits f_5 n2 (t1 + Tsamp)%f32 = Some t2 -> (t2 >=? f_5)%f32 = true ->
  forall k, (1 <= k <= n1 + n2 + 4)%nat ->
  fst (Nat.iter k Align_clock (0, t0)) = Align_schedule n1 n2 k.
Proof.
  intros W1 G1 W2 G2 k K.
  assert (A1 : Nat.iter 1 Align_clock (0, t0) = (1, (f_0 + Tsamp)%f32))
    by reflexivity.
  assert (A2 : Nat.iter (n1 + 1) Align_clock (0, t0) = (1, t1)).
  { rewrite Nat.iter_add, A1. apply Align_clock_waits_1, W1. }
  assert (A3 : Nat.iter (1 + (n1 + 1)) Align_clock (0, t0)
               = (2, (t1 + Tsamp)%f32)).
  { rewrite Nat.iter_add, A2. cbn [Nat.iter nat_rect Align_clock Z.eqb
      Pos.eqb]. rewrite G1. reflexivity. }
  assert (A4 : Nat.iter (n2 + (1 + (n1 + 1))) Align_clock (0, t0)
               = (2, t2)).
  { rewrite Nat.iter_add, A3. apply Align_clock_waits_2, W2. }
  assert (A5 : Nat.iter (1 + (n2 + (1 + (n1 + 1)))) Align_clock (0, t0)
               = (3, (t2 + Tsamp)%f32)).
  { rewrite Nat.iter_add, A4. cbn [Nat.iter nat_rect Align_clock Z.eqb
      Pos.eqb]. rewrite G2. reflexivity. }
  assert (A6 : Nat.iter (1 + (1 + (n2 + (1 + (n1 + 1))))) Align_clock
                 (0, t0) = (0, (t2 + Tsamp + Tsamp)%f32)).
  { rewrite Nat.iter_add, A5. reflexivity. }
  unfold Align_schedule.
  destruct (Nat.leb_spec k (n1 + 1)) as [L1 | L1].
  { destruct (waits_prefix f_4 n1 (k - 1) _ _ W1) as [t' W']; [lia | ].
    replace k with ((k - 1) + 1)%nat by lia.
    rewrite Nat.iter_add, A1, (Align_clock_waits_1 _ _ _ W').
    reflexivity. }
  destruct (Nat.leb_spec k (n1 + n2 + 2)) as [L2 | L2].
  { destruct (waits_prefix f_5 n2 (k - (n1 + 2)) _ _ W2) as [t' W'];
      [lia | ].
    replace k with ((k - (n1 + 2)) + (1 + (n1 + 1)))%nat by lia.
    rewrite Nat.iter_add, A3, (Align_clock_waits_2 _ _ _ W').
    reflexivity. }
  destruct (Nat.leb_spec k (n1 + n2 + 3)) as [L3 | L3].
  { replace k with (1 + (n2 + (1 + (n1 + 1))))%nat by lia.
    rewrite A5. reflexivity. }
  replace k with (1 + (1 + (n2 + (1 + (n1 + 1)))))%nat by lia.
  rewrite A6. reflexivity.
Qed.

Lemma Align_schedule_1 (n1 n2 k : nat) :
  (k <= n1 + 1)%nat -> Align_schedule n1 n2 k = 1.
Proof.
  intro L. unfold Align_schedule.
  destruct (Nat.leb_spec k (n1 + 1)); [reflexivity | lia].
Qed.

Lemma Align_schedule_2 (n1 n2 k : nat) :
  (n1 + 2 <= k <= n1 + n2 + 2)%nat -> Align_schedule n1 n2 k = 2.
Proof.
  intro L. unfold Align_schedule.
  destruct (Nat.leb_spec k (n1 + 1)); [lia | ].
  destruct (Nat.leb_spec k (n1 + n2 + 2)); [reflexivity | lia].
Qed.

Lemma Align_schedule_3 (n1 n2 : nat) :
  Align_schedule n1 n2 (n1 + n2 + 3) = 3.
Proof.
  unfold Align_schedule.
  destruct (Nat.leb_spec (n1 + n2 + 3) (n1 + 1)); [lia | ].
  destruct (Nat.leb_spec (n1 + n2 + 3) (n1 + n2 + 2)); [lia | ].
  destruct (Nat.leb_spec (n1 + n2 + 3) (n1 + n2 + 3)); [reflexivity | lia].
Qed.

Lemma Align_schedule_0 (n1 n2 : nat) :
  Align_schedule n1 n2 (n1 + n2 + 4) = 0.
Proof.
  unfold Align_schedule.
  destruct (Nat.leb_spec (n1 + n2 + 4) (n1 + 1)); [lia | ].
  destruct (Nat.leb_spec (n1 + n2 + 4) (n1 + n2 + 2)); [lia | ].
  destruct (Nat.leb_spec (n1 + n2 + 4) (n1 + n2 + 3)); [lia | reflexivity].
Qed.

(** The steps of a whole alignment. *)
Lemma Align_Mode_schedule (s : State) (n1 n2 : nat) (t1 t2 : f32) :
  Mode_align s = 0 ->
  waits f_4 n1 (f_0 + Tsamp)%f32 = Some t1 -> (t1 >=? f_4)%f32 = true ->
  waits f_5 n2 (t1 + Tsamp)%f32 = Some t2 -> (t2 >=? f_5)%f32 = true ->
  forall k, (1 <= k <= n1 + n2 + 4)%nat ->
  Mode_align (Nat.iter k Align s) = Align_schedule n1 n2 k.
Proof.
  intros H0 W1 G1 W2 G2 k K. rewrite Align_iter_Mode, H0.
  apply (Align_clock_schedule n1 n2 _ t1 t2 W1 G1 W2 G2 k K).
Qed.

End Alignment.

(** The clock of the bench platform: 40018 checks below 4 s, then 9985
    checks below 5 s. *)
Lemma bench_waits_1 :
  waits (P := bench) f_4 bench_n1 (f_0 + Tsamp_100us)%f32 = Some bench_t1.
Proof. vm_compute. reflexivity. Qed.

Lemma bench_passes_1 : (bench_t1 >=? f_4)%f32 = true.
Proof. vm_compute. reflexivity. Qed.

Lemma bench_waits_2 :
  waits (P := bench) f_5 bench_n2 (bench_t1 + Tsamp_100us)%f32 = Some bench_t2.
Proof. vm_compute. reflexivity. Qed.

Lemma bench_passes_2 : (bench_t2 >=? f_5)%f32 = true.
Proof. vm_compute. reflexivity. Qed.

Lemma bench_Mode_schedule (k : nat) (m : Z) :
  ((1 <=? k)%nat && (k <=? bench_n1 + bench_n2 + 4)%nat
   && (Align_schedule bench_n1 bench_n2 k =? m)) = true ->
  Mode_align (Nat.iter k (Align (P := bench)) align_requested) = m.
Proof.
  intro K. apply andb_true_iff in K. destruct K as [K K3].
  apply andb_true_iff in K. destruct K as [K1 K2].
  apply Nat.leb_le in K1, K2. apply Z.eqb_eq in K3. rewrite <- K3.
  apply (Align_Mode_schedule (P := bench) align_requested bench_n1 bench_n2
           bench_t1 bench_t2 eq_refl bench_waits_1 bench_passes_1
           bench_waits_2 bench_passes_2).
  split; assumption.
Qed.

(** C8, as the code has it. Started in step 0, the sequencer sets the
    d-axis current reference to [Idsr_align] and is in step 1 after its
    first tick. It stays in step 1 while the clock [Time_align], a
    [float] that accumulates [Tsamp], is below 4 at the check, for [n1]
    checks, and is in step 2 after tick [n1 + 2]; it stays in step 2
    while the clock is below 5, for [n2] further checks, is in step 3
    after tick [n1 + n2 + 3], with the current reference at 0, and back
    in step 0 after tick [n1 + n2 + 4], which sets [Align_done] (0 at
    every earlier tick) and clears [FLAG.INV_ALIGN]. The numbers [n1]
    and [n2] are those of the rounded clock, not 4.0/Tsamp and
    1.0/Tsamp. *)
Theorem Align_sequence {P : Platform} (s : State) (n1 n2 : nat)
  (t1 t2 : f32)
  (H0 : Mode_align s = 0)
  (W1 : waits f_4 n1 (f_0 + Tsamp)%f32 = Some t1)
  (G1 : (t1 >=? f_4)%f32 = true)
  (W2 : waits f_5 n2 (t1 + Tsamp)%f32 = Some t2)
  (G2 : (t2 >=? f_5)%f32 = true) :
  (forall k, (1 <= k <= n1 + n2 + 4)%nat ->
     Mode_align (Nat.iter k Align s) = Align_schedule n1 n2 k) /\
  (Nat.iter 1 Align s).[Idsr_ref] = s.[Idsr_align] /\
  (Nat.iter (n1 + n2 + 3) Align s).[Idsr_ref] = f_0 /\
  (forall k, (1 <= k <= n1 + n2 + 3)%nat ->
     Align_done (Nat.iter k Align s) = 0) /\
  Align_done (Nat.iter (n1 + n2 + 4) Align s) = 1 /\
  INV_ALIGN (FLAG (Nat.iter (n1 + n2 + 4) Align s)) = 0 /\
  Mode_align (Nat.iter (n1 + n2 + 4) Align s) = 0.
Proof.
  pose proof (Align_Mode_schedule s n1 n2 t1 t2 H0 W1 G1 W2 G2) as M.
  assert (M3 : Mode_align (Nat.iter (n1 + n2 + 3) Align s) = 3).
  { rewrite M by lia. apply Align_schedule_3. }
  assert (D : forall k, (1 <= k <= n1 + n2 + 3)%nat ->
                        Align_done (Nat.iter k Align s) = 0).
  { intros k K. induction k as [ | k IH]; [lia | ].
    rewrite Nat.iter_succ, Align_done_eq.
    destruct k as [ | k].
    - cbn [Nat.iter nat_rect]. rewrite H0. reflexivity.
    - rewrite M by lia.
      destruct (Nat.le_gt_cases (S k) (n1 + 1)) as [L | L].
      + rewrite Align_schedule_1 by exact L.
        cbn [Z.eqb Pos.eqb]. apply IH. lia.
      + rewrite Align_schedule_2 by lia.
        cbn [Z.eqb Pos.eqb]. apply IH. lia. }
  split; [exact M | ].
  split; [apply (Align_Idsr_ref_0 s H0) | ].
  split.
  { replace (n1 + n2 + 3)%nat with (S (n1 + n2 + 2)) by lia.
    rewrite Nat.iter_succ. apply Align_Idsr_ref_2.
    rewrite M by lia. apply Align_schedule_2. lia. }
  split; [exact D | ].
  replace (n1 + n2 + 4)%nat with (S (n1 + n2 + 3)) by lia.
  rewrite Nat.iter_succ.
  split; [rewrite Align_done_eq, M3; reflexivity | ].
  split; [apply Align_INV_ALIGN_3, M3 | ].
  rewrite <- Nat.iter_succ.
  replace (S (n1 + n2 + 3)) with (n1 + n2 + 4)%nat by lia.
  rewrite M by lia. apply Align_schedule_0.
Qed.

Lemma Align_sequence_witness :
  Mode_align align_requested = 0 /\
  waits (P := bench) f_4 bench_n1 (f_0 + Tsamp_100us)%f32 = Some bench_t1 /\
  (bench_t1 >=? f_4)%f32 = true /\
  waits (P := bench) f_5 bench_n2 (bench_t1 + Tsamp_100us)%f32 = Some bench_t2 /\
  (bench_t2 >=? f_5)%f32 = true /\
  Align_done
    (Nat.iter (bench_n1 + bench_n2 + 4) (Align (P := bench)) align_requested)
  = 1.
Proof.
  split; [reflexivity | ].
  split; [exact bench_waits_1 | ].
  split; [exact bench_passes_1 | ].
  split; [exact bench_waits_2 | ].
  split; [exact bench_passes_2 | ].
  destruct (Align_sequence (P := bench) align_requested bench_n1 bench_n2
              bench_t1 bench_t2 eq_refl bench_waits_1 bench_passes_1
              bench_waits_2 bench_passes_2) as (_ & _ & _ & _ & T & _).
  exact T.
Defined.

(** On the bench platform, where 4.0/Tsamp is 40000 and 1.0/Tsamp is
    10000, the sequencer is still in step 1 after ticks 40000, 40001
    and 40019, enters step 2 at tick 40020, and enters step 3 at tick
    50006, only 9986 ticks later. *)
Lemma alignment_steps_are_not_40000_and_10000_ticks :
  f32_to_u32 (f_4 / Tsamp_100us)%f32 = 40000 /\
  f32_to_u32 (f_1 / Tsamp_100us)%f32 = 10000 /\
  Mode_align (Nat.iter (Z.to_nat 40000) (Align (P := bench)) align_requested)
  = 1 /\
  Mode_align (Nat.iter (Z.to_nat 40001) (Align (P := bench)) align_requested)
  = 1 /\
  Mode_align (Nat.iter (Z.to_nat 40019) (Align (P := bench)) align_requested)
  = 1 /\
  Mode_align (Nat.iter (Z.to_nat 40020) (Align (P := bench)) align_requested)
  = 2 /\
  Mode_align (Nat.iter (Z.to_nat 50005) (Align (P := bench)) align_requested)
  = 2 /\
  Mode_align (Nat.iter (Z.to_nat 50006) (Align (P := bench)) align_requested)
  = 3.
Proof.
  split; [vm_compute; reflexivity | ].
  split; [vm_compute; reflexivity | ].
  split; [apply bench_Mode_schedule; vm_compute; reflexivity | ].
  split; [apply bench_Mode_schedule; vm_compute; reflexivity | ].
  split; [apply bench_Mode_schedule; vm_compute; reflexivity | ].
  split; [apply bench_Mode_schedule; vm_compute; reflexivity | ].
  split; apply bench_Mode_schedule; vm_compute; reflexivity.
Qed.

(* ================================================================== *)
(** * Offset calibration: the properties *)
(* ================================================================== *)

(** Every 12-bit code survives the conversion to [float] and back. *)
Lemma u32_of_code_all :
  forallb (fun n => f32_to_u32 (f32_of_Z (Z.of_nat n)) =? Z.of_nat n)
    (seq 0 4096) = true.
Proof. vm_compute. reflexivity. Qed.

Lemma f32_to_u32_of_code (z : Z) :
  0 <= z <= 4095 -> f32_to_u32 (f32_of_Z z) = z.
Proof.
  intro H. pose proof u32_of_code_all as A.
  rewrite forallb_forall in A.
  specialize (A (Z.to_nat z)).
  rewrite Z2Nat.id in A by lia. apply Z.eqb_eq, A.
  apply in_seq. lia.
Qed.

Lemma Offset_ADC_settling (a : ADC_VARS) :
  (AdDummyCnt a <? 5000) = true ->
  Offset_ADC a = set_AdDummyCnt (wrap32 (AdDummyCnt a + 1)) a.
Proof. intro H. unfold Offset_ADC. rewrite H. reflexivity. Qed.

Lemma Offset_ADC_averaging (a : ADC_VARS) :
  (AdDummyCnt a <? 5000) = false ->
  let a' := Offset_ADC a in
  let n := wrap32 (AdOffCalcCnt a + 1) in
  AdDummyCnt a' = AdDummyCnt a /\
  AdOffCalcCnt a' = n /\
  (forall c, 0 <= c <= 2 ->
     ADC1_Offset_sum a' c
     = wrap32 (ADC1_Offset_sum a c + f32_to_u32 (adc1Val a c))) /\
  AdInitFlag a' = (if n =? 5000 then 1 else AdInitFlag a) /\
  (n = 5000 -> forall c, 0 <= c <= 2 ->
     ADC1_Offset a' c = (f32_of_Z (ADC1_Offset_sum a' c) / f_5000)%f32).
Proof.
  intro H. cbv zeta. unfold Offset_ADC. rewrite H. cbv zeta.
  match goal with
  | |- context [if ?c then _ else _] =>
      change c with (wrap32 (AdOffCalcCnt a + 1) =? 5000)
  end.
  destruct (wrap32 (AdOffCalcCnt a + 1) =? 5000) eqn:E.
  - repeat split; try reflexivity.
    + intros c C. assert (K : c = 0 \/ c = 1 \/ c = 2) by lia.
      destruct K as [-> | [-> | ->]]; reflexivity.
    + intros _ c C. assert (K : c = 0 \/ c = 1 \/ c = 2) by lia.
      destruct K as [-> | [-> | ->]]; reflexivity.
  - repeat split; try reflexivity.
    + intros c C. assert (K : c = 0 \/ c = 1 \/ c = 2) by lia.
      destruct K as [-> | [-> | ->]]; reflexivity.
    + intro N. rewrite N in E. discriminate E.
Qed.

Lemma wrap32_small (z : Z) : 0 <= z < 2 ^ 32 -> wrap32 z = z.
Proof. intro H. apply Z.mod_small, H. Qed.

Lemma raw_code_bounds (h : HwInputs) (c : Z) :
  twelve_bit h -> 0 <= raw_code h c <= 4095.
Proof.
  intros (H1 & H2 & H3 & H4). unfold raw_code.
  destruct (c =? 0); [exact H1 | ].
  destruct (c =? 1); [exact H2 | ].
  destruct (c =? 2); [exact H3 | exact H4].
Qed.

Lemma code_sum_bounds (hw : nat -> HwInputs) (c : Z) (a n : nat) :
  (forall k, twelve_bit (hw k)) ->
  0 <= code_sum hw c a n <= 4095 * Z.of_nat n.
Proof.
  intro H. induction n as [ | n IH]; [cbn; lia | ].
  cbn [code_sum].
  pose proof (raw_code_bounds (hw (a + S n)%nat) c (H _)). lia.
Qed.

Lemma Control_latch_ADC (hw : HwInputs) (s : State) :
  let a' := ADC (Control_latch hw s) in
  AdInitFlag a' = AdInitFlag (ADC s) /\
  AdDummyCnt a' = AdDummyCnt (ADC s) /\
  AdOffCalcCnt a' = AdOffCalcCnt (ADC s) /\
  ADC1_Offset_sum a' = ADC1_Offset_sum (ADC s) /\
  ADC1_Offset a' = ADC1_Offset (ADC s) /\
  (forall c, 0 <= c <= 2 -> adc1Val a' c = f32_of_Z (raw_code hw c)).
Proof.
  cbv zeta. repeat split.
  intros c C. assert (K : c = 0 \/ c = 1 \/ c = 2) by lia.
  destruct K as [-> | [-> | ->]]; reflexivity.
Qed.

Lemma calibrating_step (hw : nat -> HwInputs) (n : nat) (a0 a : ADC_VARS) :
  (forall k, twelve_bit (hw k)) ->
  calibrating hw n a0 -> (n < calibration_ticks)%nat ->
  AdInitFlag a = AdInitFlag a0 -> AdDummyCnt a = AdDummyCnt a0 ->
  AdOffCalcCnt a = AdOffCalcCnt a0 ->
  ADC1_Offset_sum a = ADC1_Offset_sum a0 ->
  (forall c, 0 <= c <= 2 -> adc1Val a c = f32_of_Z (raw_code (hw (S n)) c)) ->
  calibrating hw (S n) (Offset_ADC a).
Proof.
  intros Hhw (I1 & I2 & I3 & I4 & _) L E1 E2 E3 E4 E5.
  unfold calibrating, calibration_ticks, settling_ticks, averaging_ticks
    in *.
  rewrite <- E1 in I1. rewrite <- E2 in I2. rewrite <- E3 in I3.
  rewrite <- E4 in I4. clear E1 E2 E3 E4 a0.
  destruct (Nat.ltb_spec n (Z.to_nat 10000)) as [_ | ]; [ | lia].
  destruct (Z.ltb_spec (AdDummyCnt a) 5000) as [D | D].
  - assert (Hn : (n < Z.to_nat 5000)%nat) by lia.
    rewrite Offset_ADC_settling by (apply Z.ltb_lt, D).
    change (AdInitFlag (set_AdDummyCnt (wrap32 (AdDummyCnt a + 1)) a))
      with (AdInitFlag a).
    change (AdDummyCnt (set_AdDummyCnt (wrap32 (AdDummyCnt a + 1)) a))
      with (wrap32 (AdDummyCnt a + 1)).
    change (AdOffCalcCnt (set_AdDummyCnt (wrap32 (AdDummyCnt a + 1)) a))
      with (AdOffCalcCnt a).
    change (ADC1_Offset_sum (set_AdDummyCnt (wrap32 (AdDummyCnt a + 1)) a))
      with (ADC1_Offset_sum a).
    destruct (Nat.ltb_spec (S n) (Z.to_nat 10000)) as [_ | ]; [ | lia].
    split; [exact I1 | ].
    split; [rewrite wrap32_small by lia; lia | ].
    split; [rewrite I3; lia | ].
    split.
    + intros c C. rewrite (I4 c C).
      replace (S n - Z.to_nat 5000)%nat with (n - Z.to_nat 5000)%nat by lia.
      reflexivity.
    + intro N. lia.
  - assert (Hn : (Z.to_nat 5000 <= n)%nat) by lia.
    destruct (Offset_ADC_averaging a (proj2 (Z.ltb_ge _ _) D))
      as (A1 & A2 & A3 & A4 & A5).
    cbv zeta in A1, A2, A3, A4, A5.
    assert (Cnt : wrap32 (AdOffCalcCnt a + 1)
                  = Z.of_nat (S n - Z.to_nat 5000)).
    { rewrite I3, wrap32_small by lia. lia. }
    assert (Sum : forall c, 0 <= c <= 2 ->
      ADC1_Offset_sum (Offset_ADC a) c
      = code_sum hw c (Z.to_nat 5000) (S n - Z.to_nat 5000)).
    { intros c C. rewrite (A3 c C), (I4 c C), (E5 c C).
      pose proof (raw_code_bounds (hw (S n)) c (Hhw _)) as B.
      rewrite f32_to_u32_of_code by exact B.
      replace (S n - Z.to_nat 5000)%nat
        with (S (n - Z.to_nat 5000)) by lia.
      cbn [code_sum].
      replace (Z.to_nat 5000 + S (n - Z.to_nat 5000))%nat with (S n)
        by lia.
      pose proof (code_sum_bounds hw c (Z.to_nat 5000)
                    (n - Z.to_nat 5000) Hhw) as B'.
      apply wrap32_small. lia. }
    rewrite Cnt in A4, A5.
    split.
    { rewrite A4, I1.
      destruct (Nat.ltb_spec (S n) (Z.to_nat 10000));
        destruct (Z.eqb_spec (Z.of_nat (S n - Z.to_nat 5000)) 5000);
        try reflexivity; lia. }
    split; [rewrite A1, I2; lia | ].
    split; [rewrite A2; exact Cnt | ].
    split; [exact Sum | ].
    intros N c C. rewrite (A5 ltac:(lia) c C), (Sum c C).
    replace (S n - Z.to_nat 5000)%nat with (Z.to_nat 5000) by lia.
    unfold mean_f32. change f_5000 with (f32_of_Z 5000).
    generalize (code_sum hw c (Z.to_nat 5000) (Z.to_nat 5000)) as total.
    intro total. reflexivity.
Qed.

(** The calls of the stages of a tick that sample. *)
Lemma sampling_calls_app (l l' : list Call) :
  sampling_calls (l ++ l') = sampling_calls l ++ sampling_calls l'.
Proof. apply filter_app. Qed.

Lemma sampling_calls_repeat (n : nat) :
  sampling_calls (repeat C_SoftWareFault n) = [].
Proof. induction n as [ | n IH]; [reflexivity | exact IH]. Qed.

(** A member of the record that both branches of a conditional agree
    on. *)
Lemma ADC_if (A : Type) (f : ADC_VARS -> A) (b : bool) (x y : ADC_VARS)
  (v : A) :
  f x = v -> f y = v -> f (if b then x else y) = v.
Proof. destruct b; intros; assumption. Qed.

Section Calibration.

Context {P : Platform}.

Lemma run_mode_calls (m : Mode) (r : Run) :
  sampling_calls (snd (run_mode m r)) = sampling_calls (snd r).
Proof.
  destruct r as [s t].
  destruct m; unfold run_mode;
    try (unfold stop_no_mode); try (unfold stop_not_ready);
    unfold call, stmt; cbn [fst snd];
    rewrite ?sampling_calls_app; cbn [sampling_calls filter];
    rewrite ?app_nil_r; reflexivity.
Qed.

(** One tick samples once: calibration or conversion. *)
Lemma Control_sampling_calls (hw : HwInputs) (s : State) :
  sampling_calls (Control_calls hw s) =
  [if AdInitFlag (ADC s) =? 0 then C_Offset else C_AdcProcess].
Proof.
  unfold Control_calls, Control_run.
  rewrite Control_dispatch_select, run_mode_calls, Control_prepare_eq.
  cbv zeta. cbn [snd].
  rewrite !sampling_calls_app, sampling_calls_repeat, Control_sample_eq.
  unfold truthy.
  destruct (AdInitFlag (ADC s) =? 0); reflexivity.
Qed.

Lemma Control_ADC_calibrating (hw : HwInputs) (s : State) :
  AdInitFlag (ADC s) = 0 ->
  ADC (Control hw s) = Offset_ADC (ADC (Control_latch hw s)).
Proof.
  intro H. rewrite Control_ADC. unfold at_check.
  rewrite Control_sample_eq, H. reflexivity.
Qed.

Lemma AdcProcess_calibration (s : State) :
  AdInitFlag (ADC (AdcProcess s)) = AdInitFlag (ADC s) /\
  ADC1_Offset (ADC (AdcProcess s)) = ADC1_Offset (ADC s).
Proof.
  cbv beta delta [AdcProcess]. cbv zeta.
  change (ADC (set_ADC ?a ?s)) with a.
  split.
  - repeat first
      [ apply (ADC_if _ AdInitFlag)
      | progress cbn [AdInitFlag set_store_flag set_store_cnt set_Ia_arr] ];
      reflexivity.
  - repeat first
      [ apply (ADC_if _ ADC1_Offset)
      | progress cbn [ADC1_Offset set_store_flag set_store_cnt set_Ia_arr] ];
      reflexivity.
Qed.

Lemma Control_ADC_converting (hw : HwInputs) (s : State) :
  AdInitFlag (ADC s) <> 0 ->
  AdInitFlag (ADC (Control hw s)) = AdInitFlag (ADC s) /\
  ADC1_Offset (ADC (Control hw s)) = ADC1_Offset (ADC s).
Proof.
  intro H. rewrite Control_ADC. unfold at_check.
  rewrite Control_sample_eq, (proj2 (truthy_true _) H). cbn [fst].
  destruct (AdcProcess_calibration (Control_latch hw s)) as (F & O).
  rewrite F, O. split; reflexivity.
Qed.

Lemma ticks_S (hw : nat -> HwInputs) (n : nat) (s : State) :
  ticks hw (S n) s = Control (hw (S n)) (ticks hw n s).
Proof. reflexivity. Qed.

Lemma ticks_calibrating (hw : nat -> HwInputs) (s : State) (n : nat) :
  calibration_start s -> (forall k, twelve_bit (hw k)) ->
  (n <= calibration_ticks)%nat ->
  calibrating hw n (ADC (ticks hw n s)).
Proof.
  intros (S1 & S2 & S3 & S4 & S5 & S6) Hhw.
  induction n as [ | n IH]; intro L.
  - cbn [ticks]. unfold calibrating.
    split; [exact S1 | ]. split; [exact S2 | ]. split; [exact S3 | ].
    split.
    + intros c C. assert (K : c = 0 \/ c = 1 \/ c = 2) by lia.
      destruct K as [-> | [-> | ->]]; assumption.
    + unfold calibration_ticks. intro N. lia.
  - assert (I : calibrating hw n (ADC (ticks hw n s))) by (apply IH; lia).
    rewrite ticks_S.
    assert (F : AdInitFlag (ADC (ticks hw n s)) = 0).
    { destruct I as (I1 & _). rewrite I1.
      destruct (Nat.ltb_spec n calibration_ticks); [reflexivity | lia]. }
    rewrite (Control_ADC_calibrating _ _ F).
    destruct (Control_latch_ADC (hw (S n)) (ticks hw n s))
      as (E1 & E2 & E3 & E4 & _ & E5).
    cbv zeta in E1, E2, E3, E4, E5.
    apply (calibrating_step hw n (ADC (ticks hw n s)) _ Hhw I);
      [lia | assumption ..].
Qed.

Lemma ticks_calibrated (hw : nat -> HwInputs) (s : State) (n : nat) :
  calibration_start s -> (forall k, twelve_bit (hw k)) ->
  AdInitFlag (ADC (ticks hw (calibration_ticks + n) s)) = 1 /\
  ADC1_Offset (ADC (ticks hw (calibration_ticks + n) s))
  = ADC1_Offset (ADC (ticks hw calibration_ticks s)).
Proof.
  intros Hs Hhw. induction n as [ | n IH].
  - rewrite Nat.add_0_r. split; [ | reflexivity].
    destruct (ticks_calibrating hw s calibration_ticks Hs Hhw (le_n _))
      as (I1 & _).
    rewrite I1, Nat.ltb_irrefl. reflexivity.
  - rewrite Nat.add_succ_r, ticks_S. destruct IH as (F & O).
    destruct (Control_ADC_converting (hw (S (calibration_ticks + n)))
                (ticks hw (calibration_ticks + n) s))
      as (F' & O'); [rewrite F; discriminate | ].
    rewrite F', O', F, O. split; reflexivity.
Qed.

End Calibration.

(** C4. Started with the counters and sums at zero and fed 12-bit
    codes, the calibration leaves [AdInitFlag] at 0 after each of the
    first 9999 ticks and at 1 after tick 10000 and every later tick;
    nothing is accumulated in ticks 1 to 5000; after tick 10000 each of
    the three offsets is the single-precision quotient of the sum of
    the codes of ticks 5001 to 10000 by 5000. Every tick of [Control],
    in any state, calls exactly one of [Offset] and [AdcProcess]:
    [Offset] when it finds [AdInitFlag] at 0, [AdcProcess] otherwise. *)
Theorem offset_calibration {P : Platform} (hw : nat -> HwInputs)
  (s : State)
  (Hs : calibration_start s) (Hhw : forall k, twelve_bit (hw k)) :
  (forall n, (n < calibration_ticks)%nat ->
     AdInitFlag (ADC (ticks hw n s)) = 0) /\
  (forall n, (calibration_ticks <= n)%nat ->
     AdInitFlag (ADC (ticks hw n s)) = 1) /\
  (forall c, 0 <= c <= 2 ->
     ADC1_Offset (ADC (ticks hw calibration_ticks s)) c
     = mean_f32 (code_sum hw c settling_ticks averaging_ticks) 5000) /\
  (forall n c, (n <= settling_ticks)%nat -> 0 <= c <= 2 ->
     ADC1_Offset_sum (ADC (ticks hw n s)) c = 0) /\
  (forall n,
     sampling_calls (Control_calls (hw (S n)) (ticks hw n s))
     = [if (n <? calibration_ticks)%nat then C_Offset else C_AdcProcess]) /\
  (forall hw0 s0,
     sampling_calls (Control_calls hw0 s0)
     = [if AdInitFlag (ADC s0) =? 0 then C_Offset else C_AdcProcess]).
Proof.
  assert (Before : forall n, (n < calibration_ticks)%nat ->
                             AdInitFlag (ADC (ticks hw n s)) = 0).
  { intros n L.
    destruct (ticks_calibrating hw s n Hs Hhw) as (I1 & _); [lia | ].
    rewrite I1. destruct (Nat.ltb_spec n calibration_ticks);
      [reflexivity | lia]. }
  assert (After : forall n, (calibration_ticks <= n)%nat ->
                            AdInitFlag (ADC (ticks hw n s)) = 1).
  { intros n L.
    replace n with (calibration_ticks + (n - calibration_ticks))%nat
      by lia.
    apply (ticks_calibrated hw s _ Hs Hhw). }
  split; [exact Before | ]. split; [exact After | ].
  split.
  { destruct (ticks_calibrating hw s calibration_ticks Hs Hhw (le_n _))
      as (_ & _ & _ & _ & I5).
    exact (I5 eq_refl). }
  split.
  { intros n c L C.
    destruct (ticks_calibrating hw s n Hs Hhw) as (_ & _ & _ & I4 & _).
    { unfold settling_ticks, calibration_ticks in *. lia. }
    rewrite (I4 c C).
    replace (n - settling_ticks)%nat with 0%nat by lia. reflexivity. }
  split; [ | exact Control_sampling_calls].
  intro n. rewrite Control_sampling_calls.
  destruct (Nat.ltb_spec n calibration_ticks) as [L | L].
  - rewrite (Before n L). reflexivity.
  - rewrite (After n L). reflexivity.
Qed.

Lemma offset_calibration_witness :
  calibration_start power_on /\
  (forall k : nat, twelve_bit ((fun _ => quiet) k)) /\
  AdInitFlag (ADC (ticks (P := bench) (fun _ => quiet) calibration_ticks
                     power_on)) = 1 /\
  ADC1_Offset (ADC (ticks (P := bench) (fun _ => quiet) calibration_ticks
                      power_on)) 0
  = mean_f32 (code_sum (fun _ => quiet) 0 settling_ticks averaging_ticks)
      5000.
Proof.
  assert (Hs : calibration_start power_on) by (repeat split).
  assert (Hhw : forall k : nat, twelve_bit ((fun _ => quiet) k)).
  { intro k. unfold twelve_bit, quiet. cbn. lia. }
  split; [exact Hs | ]. split; [exact Hhw | ].
  destruct (offset_calibration (P := bench) (fun _ => quiet) power_on
              Hs Hhw) as (_ & T2 & T3 & _).
  split; [apply T2, le_n | apply T3; lia].
Defined.
(* ================================================================== *)
(** * Further properties of the sources *)
(* ================================================================== *)

(** ** Order of single-precision values *)

Lemma compare_cont_Eq_antisym (p q : positive) :
  Pos.compare_cont Eq q p = CompOpp (Pos.compare_cont Eq p q).
Proof. apply Pos.compare_antisym. Qed.

Lemma SFcompare_antisym (x y : f32) :
  SFcompare y x = option_map CompOpp (SFcompare x y).
Proof.
  destruct x as [sx | sx | | sx mx ex], y as [sy | sy | | sy my ey];
    try reflexivity;
    try (destruct sx; reflexivity);
    try (destruct sy; reflexivity);
    try (destruct sx, sy; reflexivity).
  unfold SFcompare, option_map.
  destruct sx, sy; try reflexivity;
    rewrite (Z.compare_antisym ex ey);
    destruct (ex ?= ey); cbn [CompOpp]; try reflexivity;
    rewrite (compare_cont_Eq_antisym mx my);
    destruct (Pos.compare_cont Eq mx my); reflexivity.
Qed.

Lemma SFcompare_number (x y : f32) :
  is_nan x = false -> is_nan y = false -> SFcompare x y <> None.
Proof.
  destruct x as [sx | sx | | sx mx ex], y as [sy | sy | | sy my ey];
    cbn [is_nan SFcompare]; try discriminate; intros _ _;
    try destruct sx; try destruct sy; discriminate.
Qed.

(** Of two numbers, the one that is not below the other is at or above
    it. *)
Lemma not_lt_le (x y : f32) :
  is_nan x = false -> is_nan y = false ->
  (x <? y)%f32 = false -> (y <=? x)%f32 = true.
Proof.
  intros Hx Hy. pose proof (SFcompare_number x y Hx Hy) as N.
  unfold f32_lt, f32_le, SFltb, SFleb. rewrite (SFcompare_antisym x y).
  destruct (SFcompare x y) as [[ | | ] | ]; cbn [option_map CompOpp];
    try reflexivity; try discriminate. contradiction.
Qed.

Lemma lt_number (x y : f32) :
  (x <? y)%f32 = true -> is_nan x = false /\ is_nan y = false.
Proof.
  unfold f32_lt, SFltb.
  destruct x as [sx | sx | | sx mx ex], y as [sy | sy | | sy my ey];
    cbn [SFcompare is_nan]; try discriminate; split; reflexivity.
Qed.


(** ** The Hall sensors *)

(** X1. [GetHallSensorState] packs the three inputs into bits 0, 1 and
    2 of a code between 0 and 7, and different inputs give different
    codes. *)
Theorem GetHallSensorState_packs (a b c a' b' c' : GPIO_PinState) :
  let h := GetHallSensorState a b c in
  0 <= h <= 7 /\
  Z.testbit h 0 = pin_set a /\ Z.testbit h 1 = pin_set b /\
  Z.testbit h 2 = pin_set c /\
  h = (if pin_set a then 1 else 0) + (if pin_set b then 2 else 0)
      + (if pin_set c then 4 else 0) /\
  (GetHallSensorState a' b' c' = h -> a' = a /\ b' = b /\ c' = c).
Proof.
  destruct a, b, c; cbv zeta;
    (split; [split; cbv; discriminate | ]);
    do 4 (split; [reflexivity | ]);
    intro H; destruct a', b', c'; cbv in H; try discriminate H;
    repeat split.
Qed.

Section Hall.

Context {P : Platform}.

Lemma Hallsensor_Observer_inputs (hw : HwInputs) (s : State) :
  let s' := Hallsensor_Observer hw s in
  hall_a (INV s') = PC6 hw /\ hall_b (INV s') = PC7 hw /\
  hall_c (INV s') = PD2 hw /\ hall_state (INV s') = hall_code hw /\
  s'.[Thetar_Hall_PLL] =
  match sector_angle (hall_code hw) with
  | Some a => a
  | None => s.[Thetar_Hall_PLL]
  end.
Proof.
  cbv zeta. repeat split.
  unfold sector_angle.
  change ((Hallsensor_Observer hw s).[Thetar_Hall_PLL]) with
    (let h := hall_code hw in
     if h =? 6 then f_0
     else if h =? 4 then PIOF3
     else if h =? 5 then (f_2 * PIOF3)%f32
     else if h =? 1 then (f_3 * PIOF3)%f32
     else if h =? 3 then (- f_2 * PIOF3)%f32
     else if h =? 2 then (- PIOF3)%f32
     else s.[Thetar_Hall_PLL]).
  cbv zeta.
  destruct (hall_code hw =? 6); [reflexivity | ].
  destruct (hall_code hw =? 4); [reflexivity | ].
  destruct (hall_code hw =? 5); [reflexivity | ].
  destruct (hall_code hw =? 1); [reflexivity | ].
  destruct (hall_code hw =? 3); [reflexivity | ].
  destruct (hall_code hw =? 2); reflexivity.
Qed.

(** X2. [Hallsensor_Observer] latches the three inputs and their code;
    a code from 1 to 6 selects the sector angle of the table, whatever
    the angle was; with the three inputs all low or all high (codes 0
    and 7) it keeps the previous sector angle. It raises no fault and
    touches neither the flags, the snapshot, the counter nor the PWM
    outputs. *)
Theorem Hallsensor_Observer_sector (hw : HwInputs) (s : State) :
  let s' := Hallsensor_Observer hw s in
  let h := hall_code hw in
  hall_state (INV s') = h /\
  (1 <= h <= 6 ->
   exists a, sector_angle h = Some a /\ s'.[Thetar_Hall_PLL] = a) /\
  (pin_set (PC6 hw) = pin_set (PC7 hw) ->
   pin_set (PC7 hw) = pin_set (PD2 hw) ->
   (h = 0 \/ h = 7) /\ s'.[Thetar_Hall_PLL] = s.[Thetar_Hall_PLL]) /\
  FLAG s' = FLAG s /\ FLTVAL s' = FLTVAL s /\ FaultCnt s' = FaultCnt s /\
  TIM1 s' = TIM1 s /\ PWM_BUF s' = PWM_BUF s /\
  s'.[Duty_A] = s.[Duty_A] /\ s'.[Duty_B] = s.[Duty_B] /\
  s'.[Duty_C] = s.[Duty_C].
Proof.
  cbv zeta.
  destruct (Hallsensor_Observer_inputs hw s) as (_ & _ & _ & Hs & Ht).
  cbv zeta in Hs, Ht.
  split; [exact Hs | ].
  split.
  { intro R. rewrite Ht.
    assert (K : hall_code hw = 1 \/ hall_code hw = 2 \/ hall_code hw = 3
                \/ hall_code hw = 4 \/ hall_code hw = 5
                \/ hall_code hw = 6) by lia.
    destruct K as [K | [K | [K | [K | [K | K]]]]]; rewrite K;
      eexists; split; reflexivity. }
  split.
  { intros E1 E2. rewrite Ht. unfold hall_code.
    destruct (PC6 hw), (PC7 hw), (PD2 hw); try discriminate E1;
      try discriminate E2; split; try reflexivity;
      [left | right]; reflexivity. }
  repeat split.
Qed.

End Hall.

(** X3. [HallPosition_Test] leaves each duty at 0 or at [Duty_Test]
    and at least one of them at 0; a [duty_state] outside 1..6 gives
    the zero vector, one inside drives at least one phase. It writes
    nothing but the three duties. *)
Theorem HallPosition_Test_vectors (s : State) :
  let s' := HallPosition_Test s in
  let T := s.[Duty_Test] in
  (s'.[Duty_A] = f_0 \/ s'.[Duty_A] = T) /\
  (s'.[Duty_B] = f_0 \/ s'.[Duty_B] = T) /\
  (s'.[Duty_C] = f_0 \/ s'.[Duty_C] = T) /\
  (s'.[Duty_A] = f_0 \/ s'.[Duty_B] = f_0 \/ s'.[Duty_C] = f_0) /\
  (1 <= duty_state (INV s) <= 6 ->
   s'.[Duty_A] = T \/ s'.[Duty_B] = T \/ s'.[Duty_C] = T) /\
  (~ 1 <= duty_state (INV s) <= 6 -> duties_zero s') /\
  (forall x, x <> Duty_A -> x <> Duty_B -> x <> Duty_C ->
             s'.[x] = s.[x]) /\
  TIM1 s' = TIM1 s /\ PWM_BUF s' = PWM_BUF s /\ FLAG s' = FLAG s.
Proof.
  cbv zeta. unfold HallPosition_Test, duties_zero.
  assert (W : forall x a b c, x <> Duty_A -> x <> Duty_B -> x <> Duty_C ->
              (s.[Duty_A <- a].[Duty_B <- b].[Duty_C <- c]).[x] = s.[x]).
  { intros x a b c NA NB NC. destruct x; try reflexivity; contradiction. }
  destruct (Z.eqb_spec (duty_state (INV s)) 1) as [E | N1];
    [repeat split; auto; lia | ].
  destruct (Z.eqb_spec (duty_state (INV s)) 2) as [E | N2];
    [repeat split; auto; lia | ].
  destruct (Z.eqb_spec (duty_state (INV s)) 3) as [E | N3];
    [repeat split; auto; lia | ].
  destruct (Z.eqb_spec (duty_state (INV s)) 4) as [E | N4];
    [repeat split; auto; lia | ].
  destruct (Z.eqb_spec (duty_state (INV s)) 5) as [E | N5];
    [repeat split; auto; lia | ].
  destruct (Z.eqb_spec (duty_state (INV s)) 6) as [E | N6];
    [repeat split; auto; lia | ].
  repeat split; auto; lia.
Qed.

(** ** The tick as a whole: flags, calls and the PWM buffer *)

Lemma lowered_refl (F : CONTROL_FLAG) : lowered F F.
Proof. unfold lowered. repeat split; auto. Qed.

Lemma lowered_trans (F1 F2 F3 : CONTROL_FLAG) :
  lowered F1 F2 -> lowered F2 F3 -> lowered F1 F3.
Proof.
  unfold lowered.
  intros (A1 & A2 & A3 & A4 & A5 & A6 & A7 & A8 & A9 & A10 & A11 & A12
          & A13)
         (B1 & B2 & B3 & B4 & B5 & B6 & B7 & B8 & B9 & B10 & B11 & B12
          & B13).
  repeat split; try congruence;
    match goal with
    | B : ?f F3 = ?f F2 \/ ?f F3 = 0, A : ?f F2 = ?f F1 \/ ?f F2 = 0
      |- ?f F3 = ?f F1 \/ ?f F3 = 0 =>
        destruct B as [B | B]; [ | right; exact B];
        destruct A as [A | A]; [left | right]; congruence
    end.
Qed.

Lemma lowered_clear_mode_flags (u : State) :
  lowered (FLAG u) (FLAG (clear_mode_flags u)).
Proof. unfold lowered. repeat split; auto. Qed.

Lemma lowered_clear_mode_flags_and_READY (u : State) :
  lowered (FLAG u) (FLAG (clear_mode_flags_and_READY u)).
Proof. unfold lowered. repeat split; auto. Qed.

Lemma lowered_SoftWareFault (u : State) :
  lowered (FLAG u) (FLAG (SoftWareFault u)).
Proof. unfold lowered. repeat split; auto. Qed.

Section TickFlags.

Context {P : Platform}.

(** The flags through a tick of the sequencer: step 3 clears
    [INV_ALIGN]. *)
Lemma Align_FLAG (s : State) :
  FLAG (Align s) =
  if Mode_align s =? 3 then set_INV_ALIGN 0 (FLAG s) else FLAG s.
Proof.
  unfold Align.
  set (u := s.[Thetar <- f_0]).
  change (Mode_align s) with (Mode_align u).
  change (FLAG s) with (FLAG u).
  clearbody u. proj_simpl.
  destruct (Z.eqb_spec (Mode_align u) 3) as [E3 | N3].
  { rewrite (Align_switch_3 u E3). reflexivity. }
  destruct (Z.eq_dec (Mode_align u) 0) as [E0 | N0].
  { rewrite (Align_switch_0 u E0). reflexivity. }
  destruct (Z.eq_dec (Mode_align u) 1) as [E1 | N1].
  { rewrite (Align_switch_1 u E1), Align_hold_eq. proj_simpl.
    apply (keeps_Align_hold_regulators u). }
  destruct (Z.eq_dec (Mode_align u) 2) as [E2 | N2].
  { rewrite (Align_switch_2 u E2), Align_hold_eq. proj_simpl.
    apply (keeps_Align_hold_regulators (u.[Idsr_ref <- f_0])). }
  rewrite (Align_switch_other u N0 N1 N2 N3). reflexivity.
Qed.

Lemma run_mode_lowered (m : Mode) (r : Run) :
  lowered (FLAG (fst r)) (FLAG (fst (run_mode m r))).
Proof.
  destruct r as [s t].
  destruct m; unfold run_mode;
    try (unfold stop_no_mode); try (unfold stop_not_ready);
    unfold call, stmt; cbn [fst snd].
  - destruct (keeps_Vref_GenControl (SpeedControl s)) as (F & _).
    rewrite F. destruct (keeps_SpeedControl s) as (F' & _).
    rewrite F'. apply lowered_refl.
  - destruct (keeps_HallPosition_Test s) as (F & _).
    change (FLAG (PWM_BUF_ON (PwmSwOn (PwmDutyUpt (HallPosition_Test s)))))
      with (FLAG (HallPosition_Test s)).
    rewrite F. apply lowered_refl.
  - apply lowered_refl.
  - destruct (keeps_CurrentControl (OpenLoopControl (set_Theta_mode 1 s)))
      as (F & _).
    rewrite F. apply lowered_refl.
  - destruct (keeps_Vref_GenControl s) as (F & _). rewrite F.
    apply lowered_refl.
  - apply lowered_refl.
  - apply lowered_refl.
  - rewrite Align_FLAG. destruct (Mode_align s =? 3);
      [unfold lowered; repeat split; auto | apply lowered_refl].
  - apply (lowered_clear_mode_flags
             (ResetController (PwmDutyUpt (PwmSwOff s)))).
  - apply (lowered_clear_mode_flags_and_READY
             (ResetController (PwmDutyUpt (PwmSwOff s)))).
Qed.

Lemma iter_SoftWareFault_FLAG (n : nat) (s : State) :
  FLAG (Nat.iter n SoftWareFault s) =
  match n with
  | O => FLAG s
  | S _ => set_FAULT (software_fault_code (FAULT (FLAG s)))
             (set_READY 0 (FLAG s))
  end.
Proof.
  destruct n as [ | n]; [reflexivity | ].
  destruct (iter_SoftWareFault_succ n s) as (F & _).
  rewrite F. apply SoftWareFault_FLAG.
Qed.

(** The flags when the mode chain is entered, from those before the
    tick. *)
Lemma at_dispatch_FLAG_eq (hw : HwInputs) (s : State) :
  FLAG (at_dispatch hw s) =
  match trips (at_check hw s) with
  | O => FLAG s
  | S _ => set_FAULT (software_fault_code (FAULT (FLAG s)))
             (set_READY 0 (FLAG s))
  end.
Proof.
  rewrite at_dispatch_FLAG, iter_SoftWareFault_FLAG.
  destruct (at_check_frame hw s) as (F & _). rewrite F. reflexivity.
Qed.

Lemma Control_FLAG (hw : HwInputs) (s : State) :
  FLAG (Control hw s) =
  FLAG (fst (run_mode (select_mode (FLAG (at_dispatch hw s)))
               (Control_prepare hw s))).
Proof. rewrite Control_stages. reflexivity. Qed.

(** X4. [Control] raises no flag but [FAULT]: [READY] and the six
    mode-select flags the stop branches clear are after the tick what
    they were before it, or 0; the other flags are what they were. The
    drive cannot make itself ready or select a mode. *)
Theorem Control_raises_no_flag (hw : HwInputs) (s : State) :
  lowered (FLAG s) (FLAG (Control hw s)).
Proof.
  rewrite Control_FLAG.
  eapply lowered_trans; [ | apply run_mode_lowered].
  fold (at_dispatch hw s). rewrite at_dispatch_FLAG_eq.
  destruct (trips (at_check hw s)); [apply lowered_refl | ].
  unfold lowered. repeat split; auto.
Qed.

(** The calls of the mode chain. *)
Lemma run_mode_mode_calls (m : Mode) (r : Run) :
  snd (run_mode m r) = snd r ++ mode_calls m.
Proof.
  destruct r as [s t].
  destruct m; unfold run_mode;
    try (unfold stop_no_mode); try (unfold stop_not_ready);
    unfold call, stmt; cbn [fst snd mode_calls stop_calls];
    rewrite <- ?app_assoc; reflexivity.
Qed.

(** X5. Every tick calls, in this order: [Offset] or [AdcProcess];
    [SoftWareFault], once per phase current at or above 80 A;
    [UpdateController]; [Hallsensor_Observer]; and the functions of
    exactly one mode. The gains are recomputed and the Hall inputs read
    on every tick, also when the drive is faulted or not ready. *)
Theorem Control_call_sequence (hw : HwInputs) (s : State) :
  Control_calls hw s =
  [if AdInitFlag (ADC s) =? 0 then C_Offset else C_AdcProcess]
  ++ repeat C_SoftWareFault (trips (at_check hw s))
  ++ [C_UpdateController; C_Hallsensor_Observer]
  ++ mode_calls (select_mode (FLAG (at_dispatch hw s))).
Proof.
  unfold Control_calls, Control_run.
  rewrite Control_dispatch_select, run_mode_mode_calls.
  fold (at_dispatch hw s).
  rewrite Control_prepare_eq. cbv zeta. cbn [snd].
  fold (at_check hw s).
  rewrite Control_sample_eq. unfold truthy.
  destruct (AdInitFlag (ADC s) =? 0); cbn [negb snd];
    rewrite <- !app_assoc; reflexivity.
Qed.

End TickFlags.

(** ** Faults and the PWM buffer *)

Section FaultLatch.

Context {P : Platform}.

Lemma Control_FAULT_nonzero (hw : HwInputs) (s : State) :
  FAULT (FLAG s) <> 0 -> FAULT (FLAG (Control hw s)) <> 0.
Proof.
  intro H. rewrite Control_FAULT, at_dispatch_FAULT.
  destruct (trips (at_check hw s));
    [exact H | apply software_fault_code_nonzero].
Qed.

Lemma at_dispatch_FAULT_nonzero (hw : HwInputs) (s : State) :
  FAULT (FLAG s) <> 0 -> FAULT (FLAG (at_dispatch hw s)) <> 0.
Proof.
  intro H. rewrite at_dispatch_FAULT.
  destruct (trips (at_check hw s));
    [exact H | apply software_fault_code_nonzero].
Qed.

(** X6. A fault keeps the drive stopped. Once [FLAG.FAULT] is not 0 it
    stays so through every tick, fault-pin interrupt, software fault
    and external write that does not clear it, and every tick then
    takes the not-ready stop: it calls no regulator, and ends with
    [READY] at 0, the mode-select flags cleared, the PWM output
    disabled and the duties and compare registers at 0. *)
Theorem fault_keeps_the_drive_stopped (s s' : State)
  (H : FAULT (FLAG s) <> 0) (Hist : history keeps_fault s s') :
  FAULT (FLAG s') <> 0 /\
  forall hw,
    let e := Control hw s' in
    FAULT (FLAG e) <> 0 /\ READY (FLAG e) = 0 /\
    mode_flags_clear (FLAG e) /\
    pwm_disabled e /\ duties_zero e /\ compare_zero e /\
    select_mode (FLAG (at_dispatch hw s')) = M_not_ready /\
    mode_calls (select_mode (FLAG (at_dispatch hw s'))) = stop_calls.
Proof.
  assert (K : FAULT (FLAG s') <> 0).
  { induction Hist as [s | hw s s' _ IH | s s' _ IH | s s' _ IH
                       | s s' s'' _ IH E].
    - exact H.
    - apply Control_FAULT_nonzero, IH, H.
    - discriminate.
    - rewrite SoftWareFault_FLAG. apply software_fault_code_nonzero.
    - apply E, IH, H. }
  split; [exact K | ].
  intro hw. cbv zeta.
  assert (M : select_mode (FLAG (at_dispatch hw s')) = M_not_ready).
  { apply select_mode_stop. right. apply at_dispatch_FAULT_nonzero, K. }
  split; [apply Control_FAULT_nonzero, K | ].
  rewrite M, (Control_stop_at_dispatch hw s' M).
  destruct (not_ready_stop_outputs (at_dispatch hw s'))
    as (O1 & O2 & O3 & O4 & _).
  cbv zeta in O1, O2, O3, O4.
  split; [exact O4 | ].
  split; [repeat split | ].
  split; [exact O1 | ]. split; [exact O2 | ]. split; [exact O3 | ].
  split; reflexivity.
Qed.

(** The buffer after each mode. *)
Lemma run_mode_PWM_BUF_stop (r : Run) :
  PWM_BUF (fst (run_mode M_no_mode r)) = false /\
  PWM_BUF (fst (run_mode M_not_ready r)) = false.
Proof.
  unfold run_mode. rewrite stop_no_mode_halted, stop_not_ready_halted.
  cbn [fst]. generalize (fst r) as u. intro u. split; reflexivity.
Qed.

(** X7. A tick ends with the PWM buffer enabled only if it found the
    drive ready and not faulted, no phase current tripped the
    protection in it, and a mode was selected. *)
Theorem buffer_enabled_only_when_ready (hw : HwInputs) (s : State)
  (H : PWM_BUF (Control hw s) = true) :
  READY (FLAG s) <> 0 /\ FAULT (FLAG s) = 0 /\
  trips (at_check hw s) = 0%nat /\
  In (select_mode (FLAG s)) mode_priority /\
  select_mode (FLAG (at_dispatch hw s)) = select_mode (FLAG s).
Proof.
  rewrite Control_stages in H.
  destruct (run_mode_PWM_BUF_stop (Control_prepare hw s)) as (S1 & S2).
  pose proof (at_dispatch_FLAG_eq hw s) as F.
  destruct (trips (at_check hw s)) as [ | k].
  - rewrite F in H. rewrite F.
    assert (N : select_mode (FLAG s) <> M_not_ready)
      by (intro N; rewrite N, S2 in H; discriminate H).
    assert (N' : select_mode (FLAG s) <> M_no_mode)
      by (intro N'; rewrite N', S1 in H; discriminate H).
    assert (R : truthy (READY (FLAG s)) && negb (truthy (FAULT (FLAG s)))
                = true).
    { destruct (truthy (READY (FLAG s)) && negb (truthy (FAULT (FLAG s))))
        eqn:E; [reflexivity | ].
      exfalso. apply N, select_mode_not_ready, E. }
    apply andb_true_iff in R. destruct R as [R1 R2].
    apply negb_true_iff in R2.
    split; [apply truthy_true, R1 | ].
    split; [apply truthy_false, R2 | ].
    split; [reflexivity | ].
    split; [ | reflexivity].
    destruct (select_mode (FLAG s)); cbn; try tauto; contradiction.
  - exfalso.
    assert (M : select_mode (FLAG (at_dispatch hw s)) = M_not_ready)
      by (apply select_mode_READY_clear; rewrite F; reflexivity).
    rewrite M, S2 in H. discriminate H.
Qed.

End FaultLatch.

Lemma fault_keeps_the_drive_stopped_witness :
  FAULT (FLAG software_faulted) <> 0 /\
  history (P := bench) keeps_fault software_faulted
    (HAL_GPIO_EXTI_Callback software_faulted) /\
  forall hw,
    pwm_disabled (Control (P := bench) hw (HAL_GPIO_EXTI_Callback software_faulted)).
Proof.
  assert (H : FAULT (FLAG software_faulted) <> 0) by discriminate.
  assert (Hist : history (P := bench) keeps_fault software_faulted
                   (HAL_GPIO_EXTI_Callback software_faulted))
    by (apply history_fault_pin, history_nil).
  split; [exact H | ]. split; [exact Hist | ].
  intro hw.
  destruct (fault_keeps_the_drive_stopped (P := bench) _ _ H Hist) as (_ & T).
  destruct (T hw) as (_ & _ & _ & T4 & _). exact T4.
Defined.

Lemma buffer_enabled_only_when_ready_witness :
  PWM_BUF (Control (P := bench) quiet run_and_olc_requested) = true /\
  READY (FLAG run_and_olc_requested) <> 0 /\
  FAULT (FLAG run_and_olc_requested) = 0.
Proof.
  assert (H : PWM_BUF (Control (P := bench) quiet run_and_olc_requested)
              = true) by (vm_compute; reflexivity).
  split; [exact H | ].
  destruct (buffer_enabled_only_when_ready (P := bench) quiet
              run_and_olc_requested H) as (T1 & T2 & _).
  split; [exact T1 | exact T2].
Defined.

(** ** The regulators and the PWM outputs *)

(** The value of a member after a function, with the arithmetic left
    as it is written. *)
Ltac expose t :=
  let t' := eval lazy -[LIMIT MAX ABS fmaxf f32_add f32_sub f32_mul
                        f32_div f32_neg f32_lt f32_gt f32_le f32_ge
                        f32_of_Z f32_lit f_0 f_1 f_2 f_3 f_4 f_5 f_80
                        f_5000 f_0_5 f_1_5 f_1_3 f_0_25 f_0_05 f_0_2
                        f_0_3 f_0_8 f_0_95 f_0_999 f_81_9 f_203_4 f_1em9
                        f_3000 BOUND_PI COS SIN atanf sinf cosf atan2f
                        Tsamp RPM2RM RM2RPM Rm2Rpm INV_3 INV_SQRT3
                        SQRT3HALF PIOF3] in t in
  change t with t'.

(** The clamp of a value to [0, 1]. *)
Lemma LIMIT_unit_or_nan (x : f32) : unit_or_nan (LIMIT x f_0 f_1).
Proof.
  unfold unit_or_nan, LIMIT, f32_gt.
  change (SFltb f_1 x) with (f_1 <? x)%f32.
  destruct (f_1 <? x)%f32 eqn:E1.
  { right. split; vm_compute; reflexivity. }
  destruct (x <? f_0)%f32 eqn:E0.
  { right. split; vm_compute; reflexivity. }
  destruct (is_nan x) eqn:N; [left; reflexivity | right].
  split.
  - apply not_lt_le; [exact N | reflexivity | exact E0].
  - apply not_lt_le; [reflexivity | exact N | exact E1].
Qed.

Ltac duties_in_range F v :=
  unfold duties_unit_or_nan;
  expose ((F v).[Duty_A]); expose ((F v).[Duty_B]);
  expose ((F v).[Duty_C]);
  repeat split; apply LIMIT_unit_or_nan.

Section RegulatorOutputs.

Context {P : Platform}.

Lemma CurrentControl_regulate_gated (F : CONTROL_FLAG) (v : State) :
  buffer_gated (set_FLAG F v) (CurrentControl_regulate (set_FLAG F v)).
Proof. repeat split. Qed.

Lemma Vref_Gen_output_gated (F : CONTROL_FLAG) (v : State) :
  buffer_gated (set_FLAG F v) (Vref_Gen_output (set_FLAG F v)).
Proof. repeat split. Qed.

Lemma VoltageOpenLoopControl_gated (F : CONTROL_FLAG) (v : State) :
  buffer_gated (set_FLAG F v) (VoltageOpenLoopControl (set_FLAG F v)).
Proof. repeat split. Qed.

Lemma VoltageInjection_SquareWave_gated (F : CONTROL_FLAG) (v : State) :
  buffer_gated (set_FLAG F v) (VoltageInjection_SquareWave (set_FLAG F v)).
Proof. repeat split. Qed.

Lemma buffer_gated_after (s v s' : State) :
  FLAG v = FLAG s -> PWM_BUF v = PWM_BUF s ->
  buffer_gated v s' -> buffer_gated s s'.
Proof.
  unfold buffer_gated. intros F B (G1 & G2 & G3).
  rewrite <- F, <- B. split; [exact G1 | split; [exact G2 | exact G3]].
Qed.

Lemma CurrentControl_torque_ref_outputs (s : State) :
  FLAG (CurrentControl_torque_ref s) = FLAG s /\
  PWM_BUF (CurrentControl_torque_ref s) = PWM_BUF s.
Proof.
  unfold CurrentControl_torque_ref.
  destruct (INV_RUN (FLAG s) =? 0); split; reflexivity.
Qed.

Lemma Vref_Gen_branch_outputs (s : State) :
  let v := if Theta_mode s =? 1 then Vref_Gen_OLC s else Vref_Gen_Hall s in
  FLAG v = FLAG s /\ PWM_BUF v = PWM_BUF s.
Proof. cbv zeta. destruct (Theta_mode s =? 1); split; reflexivity. Qed.

(** X8. Each of the four regulators starts the six outputs of TIM1
    whatever the flags are, and enables the PWM buffer only when
    [FLAG.FAULT] is 0; with a fault latched it leaves the buffer as it
    found it. No regulator writes a flag. *)
Theorem regulators_gate_the_buffer (s : State) :
  buffer_gated s (CurrentControl s) /\
  buffer_gated s (Vref_GenControl s) /\
  buffer_gated s (VoltageOpenLoopControl s) /\
  buffer_gated s (VoltageInjection_SquareWave s).
Proof.
  split; [ | split; [ | split]].
  - destruct (CurrentControl_torque_ref_outputs s) as (F & B).
    unfold CurrentControl.
    apply (buffer_gated_after s (CurrentControl_torque_ref s) _ F B).
    generalize (CurrentControl_torque_ref s) as v. intro v.
    exact (CurrentControl_regulate_gated (FLAG v) v).
  - destruct (Vref_Gen_branch_outputs s) as (F & B).
    unfold Vref_GenControl.
    apply (buffer_gated_after s
             (if Theta_mode s =? 1 then Vref_Gen_OLC s
              else Vref_Gen_Hall s) _ F B).
    generalize (if Theta_mode s =? 1 then Vref_Gen_OLC s
                else Vref_Gen_Hall s) as v. intro v.
    exact (Vref_Gen_output_gated (FLAG v) v).
  - exact (VoltageOpenLoopControl_gated (FLAG s) s).
  - exact (VoltageInjection_SquareWave_gated (FLAG s) s).
Qed.

Lemma CurrentControl_regulate_duties (v : State) :
  duties_unit_or_nan (CurrentControl_regulate v).
Proof. duties_in_range CurrentControl_regulate v. Qed.

Lemma Vref_Gen_output_duties (v : State) :
  duties_unit_or_nan (Vref_Gen_output v).
Proof. duties_in_range Vref_Gen_output v. Qed.

Lemma VoltageOpenLoopControl_duties (v : State) :
  duties_unit_or_nan (VoltageOpenLoopControl v).
Proof. duties_in_range VoltageOpenLoopControl v. Qed.

Lemma VoltageInjection_SquareWave_duties (v : State) :
  duties_unit_or_nan (VoltageInjection_SquareWave v).
Proof. duties_in_range VoltageInjection_SquareWave v. Qed.

(** X9. Each of the four regulators leaves every duty in [0, 1], or
    NaN when the voltage reference it is computed from is NaN: the
    final clamp lets a NaN through. *)
Theorem regulators_clamp_the_duties (s : State) :
  duties_unit_or_nan (CurrentControl s) /\
  duties_unit_or_nan (Vref_GenControl s) /\
  duties_unit_or_nan (VoltageOpenLoopControl s) /\
  duties_unit_or_nan (VoltageInjection_SquareWave s).
Proof.
  split; [apply CurrentControl_regulate_duties | ].
  split; [apply Vref_Gen_output_duties | ].
  split; [apply VoltageOpenLoopControl_duties
         | apply VoltageInjection_SquareWave_duties].
Qed.

End RegulatorOutputs.

(** ** The over-current threshold *)

Lemma f_80_eq : f_80 = S754_finite false 10485760 (-17).
Proof. vm_compute. reflexivity. Qed.

Lemma ABS_at_or_beyond_80 (v : f32) :
  (ABS v >=? f_80)%f32 = at_or_beyond_80 v.
Proof.
  unfold at_or_beyond_80, ABS, f32_ge, f32_le, f32_lt, f32_neg, f32_zero.
  rewrite f_80_eq.
  destruct v as [[ | ] | [ | ] | | [ | ] m e]; try reflexivity;
    cbv beta iota delta [SFltb SFleb SFcompare SFopp negb orb].
  - rewrite (Z.compare_antisym e (-17)).
    rewrite (compare_cont_Eq_antisym m 10485760).
    destruct (e ?= -17)%Z; cbv beta iota delta [CompOpp];
      try reflexivity.
    all: destruct (Pos.compare_cont Eq m 10485760); reflexivity.
  - destruct (-17 ?= e)%Z; try reflexivity.
    all: destruct (Pos.compare_cont Eq 10485760 m); reflexivity.
Qed.

Lemma at_or_beyond_80_nan (v : f32) :
  is_nan v = true -> at_or_beyond_80 v = false.
Proof. destruct v; try discriminate. reflexivity. Qed.

Lemma trips_phases_beyond_80 (s : State) : trips s = phases_beyond_80 s.
Proof.
  unfold trips, phases_beyond_80, over_current. cbn [filter].
  rewrite !ABS_at_or_beyond_80.
  destruct (at_or_beyond_80 s.[Ia]), (at_or_beyond_80 s.[Ib]),
    (at_or_beyond_80 s.[Ic]); reflexivity.
Qed.

(** X10. The protection stage of a tick calls [SoftWareFault] once for
    each phase current [v] with [v >= 80] or [v <= -80], and nothing
    else; a current that is not a number never trips it. *)
Theorem over_current_threshold (s : State) (t : list Call) :
  Control_protect (s, t) =
    (Nat.iter (phases_beyond_80 s) SoftWareFault s,
     t ++ repeat C_SoftWareFault (phases_beyond_80 s)) /\
  (forall x, over_current s x = at_or_beyond_80 s.[x]) /\
  (forall v, is_nan v = true -> at_or_beyond_80 v = false).
Proof.
  split; [ | split].
  - rewrite Control_protect_eq, trips_phases_beyond_80. reflexivity.
  - intro x. apply ABS_at_or_beyond_80.
  - apply at_or_beyond_80_nan.
Qed.

(** ** Sequences of fault events *)

Lemma HAL_GPIO_EXTI_Callback_FLAG (s : State) :
  FLAG (HAL_GPIO_EXTI_Callback s) = set_READY 0 (set_FAULT 1 (FLAG s)).
Proof. reflexivity. Qed.

Lemma fault_handler_effect (e : FaultEvent) (s : State) :
  FAULT (FLAG (fault_handler e s)) =
    fault_code_after [e] (FAULT (FLAG s)) /\
  READY (FLAG (fault_handler e s)) = 0 /\
  pwm_disabled (fault_handler e s) /\
  duties_zero (fault_handler e s) /\
  FaultCnt (fault_handler e s) = wrap16 (FaultCnt s + 1) /\
  FLTVAL (fault_handler e s) = snapshot s /\
  snapshot (fault_handler e s) = snapshot s.
Proof. destruct e; repeat split. Qed.

Lemma fault_code_after_snoc (es : list FaultEvent) (e : FaultEvent)
  (code : Z) :
  fault_code_after [e] (fault_code_after es code) =
  fault_code_after (es ++ [e]) code.
Proof.
  unfold fault_code_after. rewrite forallb_app. cbn [forallb].
  rewrite andb_true_r.
  destruct (forallb is_software es), e; cbn [is_software andb];
    try reflexivity.
  apply software_fault_code_idem.
Qed.

Lemma handle_faults_snoc (es : list FaultEvent) (e : FaultEvent)
  (s : State) :
  handle_faults (es ++ [e]) s = fault_handler e (handle_faults es s).
Proof. unfold handle_faults. rewrite fold_left_app. reflexivity. Qed.

Lemma handle_faults_snapshot (es : list FaultEvent) (s : State) :
  snapshot (handle_faults es s) = snapshot s.
Proof.
  induction es as [ | e es IH] using rev_ind; [reflexivity | ].
  rewrite handle_faults_snoc.
  destruct (fault_handler_effect e (handle_faults es s))
    as (_ & _ & _ & _ & _ & _ & S).
  rewrite S. exact IH.
Qed.

Lemma handle_faults_FaultCnt (es : list FaultEvent) (s : State) :
  wrap16 (FaultCnt (handle_faults es s)) =
  wrap16 (FaultCnt s + Z.of_nat (length es)).
Proof.
  induction es as [ | e es IH] using rev_ind.
  - cbn. rewrite Z.add_0_r. reflexivity.
  - rewrite handle_faults_snoc.
    destruct (fault_handler_effect e (handle_faults es s))
      as (_ & _ & _ & _ & C & _).
    rewrite C, length_app. cbn [length].
    unfold wrap16 in *. rewrite Z.mod_mod by lia.
    rewrite Z.add_mod, IH, <- Z.add_mod by lia.
    f_equal. lia.
Qed.

Lemma handle_faults_FAULT (es : list FaultEvent) (s : State) :
  es <> [] ->
  FAULT (FLAG (handle_faults es s)) = fault_code_after es (FAULT (FLAG s)).
Proof.
  induction es as [ | e es IH] using rev_ind; [congruence | intros _].
  rewrite handle_faults_snoc.
  destruct (fault_handler_effect e (handle_faults es s)) as (F & _).
  rewrite F. destruct es as [ | e' es'].
  - reflexivity.
  - rewrite IH by discriminate. apply fault_code_after_snoc.
Qed.

(** X11. After any non-empty sequence of fault events (the hardware
    handler, the fault-pin interrupt, the software handler) the fault
    code is 1 as soon as one event was not a software fault, and
    otherwise what one software fault leaves (1 stays, anything else
    becomes 2); READY is clear, the PWM output is off with zero
    duties, the snapshot holds the six measurements as they were
    before the first event, and the counter has advanced by the number
    of events modulo 2^16. *)
Theorem fault_events_accumulate (es : list FaultEvent) (s : State) :
  es <> [] ->
  FAULT (FLAG (handle_faults es s)) = fault_code_after es (FAULT (FLAG s)) /\
  READY (FLAG (handle_faults es s)) = 0 /\
  pwm_disabled (handle_faults es s) /\
  duties_zero (handle_faults es s) /\
  FLTVAL (handle_faults es s) = snapshot s /\
  FaultCnt (handle_faults es s) =
    wrap16 (FaultCnt s + Z.of_nat (length es)).
Proof.
  intro N. split; [exact (handle_faults_FAULT es s N) | ].
  destruct es as [ | e es] using rev_ind; [congruence | clear IHes].
  rewrite handle_faults_snoc.
  destruct (fault_handler_effect e (handle_faults es s))
    as (_ & R & O & D & C & V & _).
  split; [exact R | split; [exact O | split; [exact D | split]]].
  - rewrite V. apply handle_faults_snapshot.
  - rewrite C, length_app. cbn [length].
    unfold wrap16. rewrite Z.add_mod by lia.
    fold (wrap16 (FaultCnt (handle_faults es s))).
    rewrite handle_faults_FaultCnt. unfold wrap16.
    rewrite <- Z.add_mod by lia. f_equal. lia.
Qed.

Lemma fault_events_accumulate_witness :
  [EV_SoftWareFault; EV_fault_pin; EV_SoftWareFault] <> [] /\
  FAULT (FLAG (handle_faults
                 [EV_SoftWareFault; EV_fault_pin; EV_SoftWareFault]
                 power_on)) = 1.
Proof.
  split; [discriminate | ].
  apply (fault_events_accumulate
           [EV_SoftWareFault; EV_fault_pin; EV_SoftWareFault] power_on).
  discriminate.
Defined.

(** ** The sample buffer of [AdcProcess] *)






Section Capture.

Context {P : Platform}.



End Capture.


(** ** Clamps *)










Section PhaseVoltages.

Context {P : Platform}.









End PhaseVoltages.


(** ** The speed regulator *)




Section SpeedRegulator.

Context {P : Platform}.


End SpeedRegulator.


(** ** The two speed observers *)

Ltac observer_step :=
  cbv beta iota zeta delta
    [SpeedObserver_4_34 SpeedObserver_4_35 SpeedObserver_torque
     SpeedObserver_angles owr upd SPDOBS.eqb SPDOBS.idx Pos.eqb].

Section SpeedObservers.

Context {P : Platform}.

Lemma SpeedObserver_step_agree (o o' : SPEED_OBSERVER) (e id iq : f32) :
  agree_but_speed o o' ->
  agree_but_speed (SpeedObserver_4_34 o e id iq)
    (SpeedObserver_4_35 o' e id iq).
Proof.
  intros H x N1 N2.
  destruct x; try contradiction; observer_step;
    repeat match goal with
           | |- context [o ?m] => rewrite (H m) by discriminate
           end;
    reflexivity.
Qed.

Lemma SpeedObserver_step_speed (o : SPEED_OBSERVER) (e id iq : f32) :
  let a := SpeedObserver_4_34 o e id iq in
  let b := SpeedObserver_4_35 o e id iq in
  a SPDOBS.Wrm_est = a SPDOBS.integ_Wrm_est /\
  b SPDOBS.Wrm_est
  = (b SPDOBS.integ_Wrm_est + b SPDOBS.K1 * b SPDOBS.Thetarm_err)%f32 /\
  a SPDOBS.Wr_est = (a SPDOBS.Wrm_est * a SPDOBS.PP)%f32 /\
  b SPDOBS.Wr_est = (b SPDOBS.Wrm_est * b SPDOBS.PP)%f32.
Proof. cbv zeta. repeat split. Qed.

Lemma observe_snoc
  (step : SPEED_OBSERVER -> f32 -> f32 -> f32 -> SPEED_OBSERVER)
  (o : SPEED_OBSERVER) (l : list ObsInput) (e id iq : f32) :
  observe step o (l ++ [(e, id, iq)]) = step (observe step o l) e id iq.
Proof. unfold observe. rewrite fold_left_app. reflexivity. Qed.

Lemma observe_agree (o o' : SPEED_OBSERVER) (l : list ObsInput) :
  agree_but_speed o o' ->
  agree_but_speed (observe SpeedObserver_4_34 o l)
    (observe SpeedObserver_4_35 o' l).
Proof.
  intro H. induction l as [ | [[e id] iq] l IH] using rev_ind;
    [exact H | ].
  rewrite !observe_snoc. apply SpeedObserver_step_agree. exact IH.
Qed.

(** X15. Run on the same samples from the same state, the observers
    [SpeedObserver_4_34] and [SpeedObserver_4_35] agree after every
    sample on every member but the speed estimates [Wrm_est] and
    [Wr_est]: the angles, the torques and the integrators are the
    same. After a sample the first reports the integrated speed, the
    second the integrated speed plus [K1] times the position error,
    and each its electrical speed as that times the pole pairs. *)
Theorem observers_differ_in_speed_only (o : SPEED_OBSERVER)
  (l : list ObsInput) (e id iq : f32) :
  let a := observe SpeedObserver_4_34 o (l ++ [(e, id, iq)]) in
  let b := observe SpeedObserver_4_35 o (l ++ [(e, id, iq)]) in
  agree_but_speed a b /\
  a SPDOBS.Wrm_est = a SPDOBS.integ_Wrm_est /\
  b SPDOBS.Wrm_est
  = (a SPDOBS.integ_Wrm_est + a SPDOBS.K1 * a SPDOBS.Thetarm_err)%f32 /\
  a SPDOBS.Wr_est = (a SPDOBS.Wrm_est * a SPDOBS.PP)%f32 /\
  b SPDOBS.Wr_est = (b SPDOBS.Wrm_est * a SPDOBS.PP)%f32.
Proof.
  cbv zeta. rewrite !observe_snoc.
  assert (A0 : agree_but_speed (observe SpeedObserver_4_34 o l)
                 (observe SpeedObserver_4_35 o l))
    by (apply observe_agree; intros x _ _; reflexivity).
  revert A0.
  generalize (observe SpeedObserver_4_34 o l) as u.
  generalize (observe SpeedObserver_4_35 o l) as v.
  intros v u A0.
  pose proof (SpeedObserver_step_agree u v e id iq A0) as A.
  split; [exact A | ].
  destruct (SpeedObserver_step_speed u e id iq) as (S1 & _ & S3 & _).
  destruct (SpeedObserver_step_speed v e id iq) as (_ & S2 & _ & S4).
  cbv zeta in S1, S2, S3, S4.
  rewrite (A SPDOBS.integ_Wrm_est), (A SPDOBS.K1), (A SPDOBS.Thetarm_err),
    (A SPDOBS.PP) by discriminate.
  split; [rewrite <- (A SPDOBS.integ_Wrm_est) by discriminate; exact S1 | ].
  split; [exact S2 | ].
  split; [rewrite <- (A SPDOBS.PP) by discriminate; exact S3 | exact S4].
Qed.

End SpeedObservers.

(** ** More on the alignment sequencer *)

Section AlignAngle.

Context {P : Platform}.

Lemma Align_hold_Thetar (limit : f32) (u : State) :
  (Align_hold limit u).[Thetar] =
  if Theta_mode u =? 1 then u.[Thetar_OLC] else u.[Thetar_est_Hall].
Proof.
  rewrite Align_hold_eq, rd_set_Mode_align, rd_hold_outputs.
  apply CurrentControl_Thetar.
Qed.

Lemma Align_switch_Thetar (u : State) :
  (Align_switch u).[Thetar] =
  if (Mode_align u =? 1) || (Mode_align u =? 2)
  then if Theta_mode u =? 1 then u.[Thetar_OLC] else u.[Thetar_est_Hall]
  else u.[Thetar].
Proof.
  destruct (Z.eq_dec (Mode_align u) 0) as [E0 | N0].
  { rewrite (Align_switch_0 u E0), E0. reflexivity. }
  destruct (Z.eq_dec (Mode_align u) 1) as [E1 | N1].
  { rewrite (Align_switch_1 u E1), E1. apply Align_hold_Thetar. }
  destruct (Z.eq_dec (Mode_align u) 2) as [E2 | N2].
  { rewrite (Align_switch_2 u E2), E2.
    exact (Align_hold_Thetar f_5 u.[Idsr_ref <- f_0]). }
  destruct (Z.eq_dec (Mode_align u) 3) as [E3 | N3].
  { rewrite (Align_switch_3 u E3), E3. reflexivity. }
  rewrite (Align_switch_other u N0 N1 N2 N3).
  destruct (Z.eqb_spec (Mode_align u) 1); [contradiction | ].
  destruct (Z.eqb_spec (Mode_align u) 2); [contradiction | reflexivity].
Qed.

(** X16. In steps 1 and 2 of the alignment the rotor angle [Align]
    leaves, the one the current regulator has used, is the angle
    [Theta_mode] selects (the open-loop angle when it is 1, the Hall
    estimate otherwise): the zero [Align] writes first is overwritten
    by [CurrentControl]. In every other step the angle is left at
    zero. *)
Theorem Align_angle (s : State) :
  (Align s).[Thetar] =
  if (Mode_align s =? 1) || (Mode_align s =? 2)
  then if Theta_mode s =? 1 then s.[Thetar_OLC] else s.[Thetar_est_Hall]
  else f_0.
Proof.
  unfold Align. rewrite rd_set_Time_align, Align_switch_Thetar.
  reflexivity.
Qed.

Lemma InvF_eqb_Thetar (x : InvF) : x <> Thetar -> InvF_eqb x Thetar = false.
Proof. destruct x; intro N; try reflexivity. contradiction. Qed.

Lemma Align_other (s : State) :
  Mode_align s < 0 \/ 3 < Mode_align s ->
  Align s = set_Time_align (Time_align s + Tsamp)%f32 s.[Thetar <- f_0].
Proof.
  intro H. unfold Align.
  rewrite (Align_switch_other s.[Thetar <- f_0]);
    first [reflexivity | change (Mode_align s.[Thetar <- f_0])
                           with (Mode_align s); lia].
Qed.

(** X17. With the step counter outside 0..3 the sequencer is stuck:
    however often [Align] runs, the step, [Align_done], the flags (so
    the alignment request too), the regulator references, the duties
    and the PWM outputs stay as they are; only the clock advances and
    the angle is zeroed. *)
Theorem Align_is_stuck_outside_its_steps (s : State) (n : nat) :
  Mode_align s < 0 \/ 3 < Mode_align s ->
  Mode_align (Nat.iter n Align s) = Mode_align s /\
  Align_done (Nat.iter n Align s) = Align_done s /\
  FLAG (Nat.iter n Align s) = FLAG s /\
  TIM1 (Nat.iter n Align s) = TIM1 s /\
  PWM_BUF (Nat.iter n Align s) = PWM_BUF s /\
  (forall x, x <> Thetar -> (Nat.iter n Align s).[x] = s.[x]) /\
  Time_align (Nat.iter n Align s) =
    Nat.iter n (fun t => (t + Tsamp)%f32) (Time_align s).
Proof.
  intro H. induction n as [ | n IH].
  - repeat split.
  - rewrite !Nat.iter_succ. destruct IH as (M & D & F & T & B & V & C).
    rewrite Align_other by (rewrite M; exact H).
    rewrite <- C.
    generalize dependent (Nat.iter n Align s). intros u M D F T B V C.
    split; [exact M | ]. split; [exact D | ]. split; [exact F | ].
    split; [exact T | ]. split; [exact B | ]. split; [ | reflexivity].
    intros x N. rewrite <- (V x N), rd_set_Time_align, rd_wr.
    rewrite (InvF_eqb_Thetar x N). reflexivity.
Qed.

End AlignAngle.

Lemma Align_is_stuck_outside_its_steps_witness :
  (Mode_align align_astray < 0 \/ 3 < Mode_align align_astray) /\
  Mode_align (Nat.iter 3 (Align (P := bench)) align_astray)
  = Mode_align align_astray.
Proof.
  assert (H : Mode_align align_astray < 0 \/ 3 < Mode_align align_astray)
    by (right; reflexivity).
  split; [exact H | ].
  apply (Align_is_stuck_outside_its_steps (P := bench) align_astray 3 H).
Defined.

(** ** Gains, divisions and reset *)




Section Gains.

Context {P : Platform}.


(** X19. [UpdateController] computes the gains from the bandwidths and
    the motor parameters alone: run again, or run after
    [InitSpeedController], it changes no member, and it never writes a
    member other than the ten gains. *)
Theorem UpdateController_is_stable (s : State) (w z : f32) (x : InvF) :
  (UpdateController (UpdateController s)).[x] = (UpdateController s).[x] /\
  (UpdateController (InitSpeedController w z s)).[x] =
  (if InvF_mem x [Kpd_cc; Kpq_cc; Kid_cc; Kiq_cc; Kad_cc; Kaq_cc]
   then (UpdateController s).[x] else (InitSpeedController w z s).[x]) /\
  (InvF_mem x [Kpd_cc; Kpq_cc; Kid_cc; Kiq_cc; Kad_cc; Kaq_cc;
               Kp_sc; Ki_scale; Ki_sc; Ka_sc] = false ->
   (UpdateController s).[x] = s.[x]).
Proof.
  destruct x; (split; [reflexivity | split; [reflexivity | ]]);
    first [discriminate | intros _; reflexivity].
Qed.

(** X20. [ResetController] writes zero to the references, the
    integrators, the anti-windup terms, the open-loop references and
    the test duties, 5 to the open-loop speed slope, and nothing else:
    the measurements, the gains, the duties, the speed command
    [Wrpm_ref_cmd] and everything outside the inverter structure are
    as before. *)
Theorem ResetController_clears (s : State) (x : InvF) :
  (ResetController s).[x] =
  (if InvF_mem x reset_members then f_0
   else if InvF_eqb x Wrpm_slope_OLC then f_5 else s.[x]) /\
  regulator_frame s (ResetController s) /\
  TIM1 (ResetController s) = TIM1 s /\
  PWM_BUF (ResetController s) = PWM_BUF s.
Proof.
  split; [destruct x; reflexivity | ].
  split; [apply keeps_ResetController | split; reflexivity].
Qed.

End Gains.

(** ** The open-loop ramps *)



Section Ramps.

Context {P : Platform}.


End Ramps.

(** ** The extended-EMF observer *)

Lemma EXT_SS_Sync_guard_other (EXT : EXT_Sensorless) (x : ExtF) :
  x <> EEMFq_est -> EXT_SS_Sync_guard EXT x = EXT x.
Proof.
  intro N. unfold EXT_SS_Sync_guard.
  destruct (fabs (EXT EEMFq_est) <? f_1)%f32; [ | reflexivity].
  destruct x; try reflexivity. contradiction.
Qed.

Section EMFObserver.

Context {P : Platform}.

Lemma EXT_SS_Sync_kept (EXT : EXT_Sensorless) (vd vq id iq : f32)
  (x : ExtF) :
  ExtF_mem x EXT_kept = true -> EXT_SS_Sync EXT vd vq id iq x = EXT x.
Proof.
  intro H. unfold EXT_SS_Sync, EXT_SS_Sync_error. cbv zeta.
  destruct x; try discriminate H;
    cbv beta iota delta [ewr upd ExtF_eqb ExtF_idx Pos.eqb];
    (rewrite EXT_SS_Sync_guard_other by discriminate); reflexivity.
Qed.

Lemma EXT_SS_Sync_saved (EXT : EXT_Sensorless) (vd vq id iq : f32) :
  let E := EXT_SS_Sync EXT vd vq id iq in
  E Thetar_EXT_old = EXT Thetar_EXT /\
  E Thetarm_EXT_old = EXT Thetarm_EXT /\
  E Kpd_EXT = (EXT Ld_hat * EXT Wec)%f32 /\
  E Kid_EXT = (EXT Rs_hat * EXT Wec)%f32 /\
  E Kpq_EXT = (EXT Ld_hat * EXT Wec)%f32 /\
  E Kiq_EXT = (EXT Rs_hat * EXT Wec)%f32.
Proof.
  cbv zeta. unfold EXT_SS_Sync, EXT_SS_Sync_error. cbv zeta.
  cbv beta iota delta [ewr upd ExtF_eqb ExtF_idx Pos.eqb].
  rewrite !EXT_SS_Sync_guard_other by discriminate.
  repeat split.
Qed.

Lemma EXT_run_snoc (EXT : EXT_Sensorless) (l : list ExtInput)
  (vd vq id iq : f32) :
  EXT_run EXT (l ++ [(vd, vq, id, iq)]) =
  EXT_SS_Sync (EXT_run EXT l) vd vq id iq.
Proof. unfold EXT_run. rewrite fold_left_app. reflexivity. Qed.

Lemma EXT_run_kept (EXT : EXT_Sensorless) (l : list ExtInput) (x : ExtF) :
  ExtF_mem x EXT_kept = true -> EXT_run EXT l x = EXT x.
Proof.
  intro H. induction l as [ | [[[vd vq] id] iq] l IH] using rev_ind;
    [reflexivity | ].
  rewrite EXT_run_snoc, EXT_SS_Sync_kept by exact H. exact IH.
Qed.

(** X22. [EXT_SS_Sync] never writes the parameters of the observer nor
    its speed and angle estimates: over any run of samples they stay,
    so after the first sample the two saved angles are the angles the
    run started with, and the four gains are the products of the
    parameters, the values
    [initExtended_Sensorless_Synchronous_Frame] gave them. *)
Theorem EXT_SS_Sync_keeps_the_estimates (EXT : EXT_Sensorless)
  (l : list ExtInput) (vd vq id iq Wc Rs_arg Ld_arg Lq_arg : f32) :
  let E := EXT_run EXT (l ++ [(vd, vq, id, iq)]) in
  let I := initExtended_Sensorless_Synchronous_Frame EXT Wc Rs_arg Ld_arg
             Lq_arg in
  let E' := EXT_run I (l ++ [(vd, vq, id, iq)]) in
  (forall x, ExtF_mem x EXT_kept = true -> E x = EXT x) /\
  E Thetar_EXT_old = EXT Thetar_EXT /\
  E Thetarm_EXT_old = EXT Thetarm_EXT /\
  E Kpd_EXT = (EXT Ld_hat * EXT Wec)%f32 /\
  E Kid_EXT = (EXT Rs_hat * EXT Wec)%f32 /\
  E Kpq_EXT = (EXT Ld_hat * EXT Wec)%f32 /\
  E Kiq_EXT = (EXT Rs_hat * EXT Wec)%f32 /\
  E' Kpd_EXT = I Kpd_EXT /\ E' Kid_EXT = I Kid_EXT /\
  E' Kpq_EXT = I Kpq_EXT /\ E' Kiq_EXT = I Kiq_EXT /\
  E' Thetar_EXT = f_0 /\ E' Thetar_EXT_old = f_0.
Proof.
  cbv zeta.
  split; [intros x H; apply EXT_run_kept; exact H | ].
  rewrite !EXT_run_snoc.
  destruct (EXT_SS_Sync_saved (EXT_run EXT l) vd vq id iq)
    as (A1 & A2 & A3 & A4 & A5 & A6).
  destruct (EXT_SS_Sync_saved
              (EXT_run (initExtended_Sensorless_Synchronous_Frame EXT Wc
                          Rs_arg Ld_arg Lq_arg) l) vd vq id iq)
    as (B1 & B2 & B3 & B4 & B5 & B6).
  cbv zeta in *.
  rewrite A1, A2, A3, A4, A5, A6, B1, B3, B4, B5, B6.
  rewrite EXT_SS_Sync_kept by reflexivity.
  rewrite !EXT_run_kept by reflexivity.
  cbv beta iota zeta delta
    [initExtended_Sensorless_Synchronous_Frame ewr upd ExtF_eqb ExtF_idx
     Pos.eqb].
  repeat split.
Qed.

Lemma iter_SoftWareFault_EXT_1 (k : nat) (v : State) :
  EXT_1 (Nat.iter k SoftWareFault v) = EXT_1 v.
Proof.
  induction k as [ | k IH]; [reflexivity | ].
  rewrite Nat.iter_succ, <- IH. reflexivity.
Qed.

Lemma Control_EXT_1 (hw : HwInputs) (u : State) :
  EXT_1 (Control hw u) = EXT_1 u.
Proof.
  rewrite Control_stages.
  destruct (run_mode_frame (select_mode (FLAG (at_dispatch hw u)))
              (Control_prepare hw u)) as (_ & _ & _ & _ & X & _).
  rewrite X. fold (at_dispatch hw u). rewrite at_dispatch_eq.
  destruct (prepare_tail_frame hw
    (Nat.iter (trips (at_check hw u)) SoftWareFault (at_check hw u)))
    as (_ & _ & _ & _ & X' & _).
  rewrite X', iter_SoftWareFault_EXT_1.
  destruct (Control_sample_frame hw u []) as (_ & _ & _ & X'' & _).
  exact X''.
Qed.

Lemma VoltageOpenLoopControl_Wr (u : State) :
  (VoltageOpenLoopControl u).[Wr] =
  if Theta_mode u =? 0 then (u.[Wrpm_ref_OLC] * RPM2RM * u.[PP])%f32
  else EXT_1 u Wr_EXT_f.
Proof. reflexivity. Qed.

(** X23. No tick of [Control] runs the extended-EMF observer: its
    state is after any number of ticks what it was, so the angle and
    the speed [VoltageOpenLoopControl] takes from it when [Theta_mode]
    is not 0 are the same in every tick. *)
Theorem ticks_leave_the_EMF_observer (hw : nat -> HwInputs) (n : nat)
  (s : State) :
  EXT_1 (ticks hw n s) = EXT_1 s /\
  (Theta_mode (ticks hw n s) <> 0 ->
   (VoltageOpenLoopControl (ticks hw n s)).[Thetar]
   = EXT_1 s Thetar_EXT_old /\
   (VoltageOpenLoopControl (ticks hw n s)).[Wr] = EXT_1 s Wr_EXT_f).
Proof.
  assert (E : EXT_1 (ticks hw n s) = EXT_1 s).
  { induction n as [ | n IH]; [reflexivity | ].
    rewrite ticks_S, Control_EXT_1. exact IH. }
  split; [exact E | ].
  intro T. rewrite <- E. generalize dependent (ticks hw n s).
  intros u _ T.
  rewrite VoltageOpenLoopControl_Thetar.
  destruct (Z.eqb_spec (Theta_mode u) 0) as [Z | Z]; [contradiction | ].
  split; [reflexivity | ].
  rewrite VoltageOpenLoopControl_Wr.
  destruct (Z.eqb_spec (Theta_mode u) 0) as [Z' | Z'];
    [contradiction | reflexivity].
Qed.

End EMFObserver.

